(** * Garden controller: schedule engine, navigation state machine, persistence

    A shallow embedding of [src/app.c] (the control core of the grow-light
    and irrigation controller) together with the properties of its
    specification.  Machine integers are carried as [Z] with the wrap-around
    of the target written out, the globals of [app.c] are the fields of one
    record threaded through the handlers, and the flash sector is a list of
    bytes. *)

From Stdlib Require Import ZArith List Lia Bool ZifyBool.
From Stdlib Require String.
From coqutil Require Import Byte Word.LittleEndianList.
From stdpp Require Import base list.
Import ListNotations.
Import String.StringSyntax.
Delimit Scope string_scope with string.
Local Open Scope Z_scope.

Ltac Zify.zify_post_hook ::= Z.to_euclidean_division_equations.

(** ** Machine integers *)

(** [uint32_t], [uint64_t] and [uint16_t] arithmetic wraps. *)
Definition wrap_u16 (z : Z) : Z := z mod 65536.
Definition wrap_u32 (z : Z) : Z := z mod 4294967296.
Definition wrap_u64 (z : Z) : Z := z mod 18446744073709551616.

(** Conversion to [int] (32-bit two's complement on the RP2040).  It is also
    what the target computes where signed arithmetic overflows. *)
Definition wrap_int (z : Z) : Z := (z + 2147483648) mod 4294967296 - 2147483648.

Definition in_int (z : Z) : Prop := -2147483648 <= z < 2147483648.

(** Array indexing by a C [int]: a negative index is outside the array. *)
Definition zlookup {A : Type} (l : list A) (i : Z) : option A :=
  if i <? 0 then None else l !! Z.to_nat i.

Definition zinsert {A : Type} (i : Z) (x : A) (l : list A) : list A :=
  if i <? 0 then l else <[Z.to_nat i := x]> l.

(** ** Data model *)

Definition MAX_PROFILES : Z := 5.
Definition MAX_PERIODS : Z := 6.

Definition PUMP_RUN_MINUTES : Z := 5.
Definition PUMP_WAIT_MINUTES : Z := 30.
Definition PUMP_TOTAL_MINUTES : Z := PUMP_RUN_MINUTES + PUMP_WAIT_MINUTES.

Definition PWM_WRAP : Z := 25000.

Record period_t := mkPeriod {
  duration : Z;
  led_white_red_power : Z;
  led_blue_power : Z
}.

Record profile_t := mkProfile {
  name : list byte;
  periods : list period_t
}.

Record app_state_t := mkAppState {
  period_index : Z;
  white_red : Z;
  blue : Z;
  pump : bool;
  pump_minutes_left : Z;
  period_minutes_left : Z
}.

Inductive app_mode_t :=
| MODE_SHOW_STATE
| MODE_SHOW_PROFILE
| MODE_EDIT_PROFILE
| MODE_EDIT_PERIOD
| MODE_EDIT_WR_LEVEL
| MODE_EDIT_BL_LEVEL
| MODE_EDIT_DURATION
| MODE_TOP_MENU
| MODE_TIME_SHIFT.

Definition app_mode_eqb (a b : app_mode_t) : bool :=
  match a, b with
  | MODE_SHOW_STATE, MODE_SHOW_STATE
  | MODE_SHOW_PROFILE, MODE_SHOW_PROFILE
  | MODE_EDIT_PROFILE, MODE_EDIT_PROFILE
  | MODE_EDIT_PERIOD, MODE_EDIT_PERIOD
  | MODE_EDIT_WR_LEVEL, MODE_EDIT_WR_LEVEL
  | MODE_EDIT_BL_LEVEL, MODE_EDIT_BL_LEVEL
  | MODE_EDIT_DURATION, MODE_EDIT_DURATION
  | MODE_TOP_MENU, MODE_TOP_MENU
  | MODE_TIME_SHIFT, MODE_TIME_SHIFT => true
  | _, _ => false
  end.

(** [top_menu_action_t] and [edit_mode_t] take part in integer arithmetic in
    the rotation handlers, so they stay integers with named values. *)
Definition TOP_MENU_FIRST : Z := 0.
Definition TOP_MENU_SHIFT : Z := TOP_MENU_FIRST.
Definition TOP_MENU_SAVE : Z := 1.
Definition TOP_MENU_RELOAD : Z := 2.
Definition TOP_MENU_FLASH : Z := 3.
Definition TOP_MENU_LAST : Z := TOP_MENU_FLASH.

Definition EDIT_FIRST : Z := 0.
Definition EDIT_BACK : Z := EDIT_FIRST.
Definition EDIT_DURATION : Z := 1.
Definition EDIT_WR_LEVEL : Z := 2.
Definition EDIT_BL_LEVEL : Z := 3.
Definition EDIT_LAST : Z := EDIT_BL_LEVEL.

(** The string literals of the factory profiles, zero-padded to [char[16]]. *)
Definition c_name (s : list byte) : list byte :=
  s ++ repeat Byte.x00 (16 - length s)%nat.

Definition disabled : period_t := mkPeriod 0 0 0.

Definition factory_profiles : list profile_t :=
  [ mkProfile (c_name [Byte.x56; Byte.x45; Byte.x47])
      [ mkPeriod (60 * 14) 100 100; mkPeriod (60 * 10) 0 0;
        disabled; disabled; disabled; disabled ];
    mkProfile (c_name [Byte.x46; Byte.x4c; Byte.x4f; Byte.x57; Byte.x45; Byte.x52])
      [ mkPeriod (60 * 12) 100 0; mkPeriod (60 * 12) 0 0;
        disabled; disabled; disabled; disabled ];
    mkProfile (c_name [Byte.x46; Byte.x52; Byte.x55; Byte.x49; Byte.x54])
      [ mkPeriod (60 * 16) 100 0; mkPeriod (60 * 8) 0 0;
        disabled; disabled; disabled; disabled ];
    mkProfile (c_name [Byte.x43; Byte.x55; Byte.x53; Byte.x54; Byte.x4f; Byte.x4d;
                       Byte.x20; Byte.x31])
      [ disabled; disabled; disabled; disabled; disabled; disabled ];
    mkProfile (c_name [Byte.x43; Byte.x55; Byte.x53; Byte.x54; Byte.x4f; Byte.x4d;
                       Byte.x20; Byte.x32])
      [ disabled; disabled; disabled; disabled; disabled; disabled ] ].

(** ** Schedule engine: [app_calculate_state] *)

(** [us_since_start / 1000000 / 60] on [uint64_t], stored in a [uint32_t]. *)
Definition minutes_since (now start : Z) : Z :=
  wrap_u32 (wrap_u64 (now - start) / 1000000 / 60).

(** The first loop: [profile_total_minutes += profile->periods[i].duration]. *)
Definition profile_total_minutes (profile : profile_t) : Z :=
  fold_left (fun total p => wrap_u32 (total + duration p)) (periods profile) 0.

(** The pump block.  It returns the state and the value left in [ret]. *)
Definition pump_block (minutes_since_boot : Z) (st : app_state_t)
  : app_state_t * bool :=
  let pump_cycle_position := minutes_since_boot mod PUMP_TOTAL_MINUTES in
  let set_pump (on : bool) (left : Z) :=
    mkAppState (period_index st) (white_red st) (blue st) on (wrap_int left)
               (period_minutes_left st) in
  if pump_cycle_position <? PUMP_RUN_MINUTES then
    let left := wrap_u32 (PUMP_RUN_MINUTES - pump_cycle_position) in
    if negb (pump st) then (set_pump true left, true)
    else (set_pump (pump st) left,
          negb (wrap_u32 (pump_minutes_left st) =? left))
  else
    let left := wrap_u32 (PUMP_TOTAL_MINUTES - pump_cycle_position) in
    if pump st then (set_pump false left, true)
    else (set_pump (pump st) left,
          negb (wrap_u32 (pump_minutes_left st) =? left)).

(** The second loop, from slot [i] on with [elapsed_minutes] accumulated so
    far: the slot found, its period and [elapsed_minutes + period->duration],
    or [None] when the loop runs to its end. *)
Fixpoint period_walk (ps : list period_t) (i : Z) (elapsed_minutes : Z)
    (minutes_since_start : Z) : option (Z * period_t * Z) :=
  match ps with
  | [] => None
  | period :: rest =>
      if duration period =? 0 then
        period_walk rest (i + 1) elapsed_minutes minutes_since_start
      else
        let period_end := wrap_u32 (elapsed_minutes + duration period) in
        if minutes_since_start <? period_end then Some (i, period, period_end)
        else period_walk rest (i + 1) period_end minutes_since_start
  end.

(** [if(minutes_since_start >= profile_total_minutes) minutes_since_start %=
    profile_total_minutes]: the position the second loop looks for. *)
Definition light_position (total minutes_shifted : Z) : Z :=
  if total <=? minutes_shifted then minutes_shifted mod total
  else minutes_shifted.

(** The body of [app_calculate_state] as a function of the two elapsed-minute
    counts it derives from the clock, the active profile and the previous
    output state. *)
Definition calculate_state (minutes_shifted minutes_since_boot : Z)
    (profile : profile_t) (st : app_state_t) : app_state_t * bool :=
  let total := profile_total_minutes profile in
  if total =? 0 then
    if negb (white_red st =? 0) || negb (blue st =? 0) then
      (mkAppState (period_index st) 0 0 (pump st) (pump_minutes_left st)
                  (period_minutes_left st), true)
    else (st, false)
  else
    let '(st, ret) := pump_block minutes_since_boot st in
    let minutes_since_start := light_position total minutes_shifted in
    match period_walk (periods profile) 0 0 minutes_since_start with
    | Some (i, period, period_end) =>
        let left := wrap_u32 (period_end - minutes_since_start) in
        if negb (white_red st =? led_white_red_power period)
           || negb (blue st =? led_blue_power period)
           || negb (wrap_u32 (period_minutes_left st) =? left)
           || negb (period_index st =? i)
        then
          (mkAppState i (led_white_red_power period) (led_blue_power period)
                      (pump st) (pump_minutes_left st) (wrap_int left), true)
        else (st, ret)
    | None =>
        if negb (white_red st =? 0) || negb (blue st =? 0)
           || negb (period_minutes_left st =? 0)
        then
          (mkAppState (period_index st) 0 0 (pump st) (pump_minutes_left st) 0,
           true)
        else (st, ret)
    end.

(** ** The globals of [app.c] and the devices around them *)

Record app_t := mkApp {
  profiles : list profile_t;
  current_profile : Z;
  app_start_time : Z;
  app_start_time_without_shift : Z;
  last_encoder_time : Z;
  current_app_state : app_state_t;
  current_app_mode : app_mode_t;
  menu_profile_index : Z;
  current_edit_period_index : Z;
  current_edit_value : Z;
  current_top_menu_action : Z;
  time_shift_hours : Z;
  flash_buffer : list byte;
  (* the devices: the last flash sector as seen through XIP, the pump pin,
     the two PWM levels, the number of calls of app_redraw, and whether the
     firmware has handed over to the bootloader *)
  flash_sector : list byte;
  gpio_pump : bool;
  pwm_white_red : Z;
  pwm_blue : Z;
  redraws : nat;
  in_bootloader : bool
}.

Definition set_profiles (v : list profile_t) (s : app_t) : app_t :=
  mkApp v (current_profile s) (app_start_time s) (app_start_time_without_shift s)
    (last_encoder_time s) (current_app_state s) (current_app_mode s)
    (menu_profile_index s) (current_edit_period_index s) (current_edit_value s)
    (current_top_menu_action s) (time_shift_hours s) (flash_buffer s)
    (flash_sector s) (gpio_pump s) (pwm_white_red s) (pwm_blue s) (redraws s)
    (in_bootloader s).

Definition set_current_profile (v : Z) (s : app_t) : app_t :=
  mkApp (profiles s) v (app_start_time s) (app_start_time_without_shift s)
    (last_encoder_time s) (current_app_state s) (current_app_mode s)
    (menu_profile_index s) (current_edit_period_index s) (current_edit_value s)
    (current_top_menu_action s) (time_shift_hours s) (flash_buffer s)
    (flash_sector s) (gpio_pump s) (pwm_white_red s) (pwm_blue s) (redraws s)
    (in_bootloader s).

Definition set_app_start_time (v : Z) (s : app_t) : app_t :=
  mkApp (profiles s) (current_profile s) v (app_start_time_without_shift s)
    (last_encoder_time s) (current_app_state s) (current_app_mode s)
    (menu_profile_index s) (current_edit_period_index s) (current_edit_value s)
    (current_top_menu_action s) (time_shift_hours s) (flash_buffer s)
    (flash_sector s) (gpio_pump s) (pwm_white_red s) (pwm_blue s) (redraws s)
    (in_bootloader s).

Definition set_app_start_time_without_shift (v : Z) (s : app_t) : app_t :=
  mkApp (profiles s) (current_profile s) (app_start_time s) v
    (last_encoder_time s) (current_app_state s) (current_app_mode s)
    (menu_profile_index s) (current_edit_period_index s) (current_edit_value s)
    (current_top_menu_action s) (time_shift_hours s) (flash_buffer s)
    (flash_sector s) (gpio_pump s) (pwm_white_red s) (pwm_blue s) (redraws s)
    (in_bootloader s).

Definition set_last_encoder_time (v : Z) (s : app_t) : app_t :=
  mkApp (profiles s) (current_profile s) (app_start_time s)
    (app_start_time_without_shift s) v (current_app_state s)
    (current_app_mode s) (menu_profile_index s) (current_edit_period_index s)
    (current_edit_value s) (current_top_menu_action s) (time_shift_hours s)
    (flash_buffer s) (flash_sector s) (gpio_pump s) (pwm_white_red s)
    (pwm_blue s) (redraws s) (in_bootloader s).

Definition set_current_app_state (v : app_state_t) (s : app_t) : app_t :=
  mkApp (profiles s) (current_profile s) (app_start_time s)
    (app_start_time_without_shift s) (last_encoder_time s) v
    (current_app_mode s) (menu_profile_index s) (current_edit_period_index s)
    (current_edit_value s) (current_top_menu_action s) (time_shift_hours s)
    (flash_buffer s) (flash_sector s) (gpio_pump s) (pwm_white_red s)
    (pwm_blue s) (redraws s) (in_bootloader s).

Definition set_current_app_mode (v : app_mode_t) (s : app_t) : app_t :=
  mkApp (profiles s) (current_profile s) (app_start_time s)
    (app_start_time_without_shift s) (last_encoder_time s)
    (current_app_state s) v (menu_profile_index s)
    (current_edit_period_index s) (current_edit_value s)
    (current_top_menu_action s) (time_shift_hours s) (flash_buffer s)
    (flash_sector s) (gpio_pump s) (pwm_white_red s) (pwm_blue s) (redraws s)
    (in_bootloader s).

Definition set_menu_profile_index (v : Z) (s : app_t) : app_t :=
  mkApp (profiles s) (current_profile s) (app_start_time s)
    (app_start_time_without_shift s) (last_encoder_time s)
    (current_app_state s) (current_app_mode s) v
    (current_edit_period_index s) (current_edit_value s)
    (current_top_menu_action s) (time_shift_hours s) (flash_buffer s)
    (flash_sector s) (gpio_pump s) (pwm_white_red s) (pwm_blue s) (redraws s)
    (in_bootloader s).

Definition set_current_edit_period_index (v : Z) (s : app_t) : app_t :=
  mkApp (profiles s) (current_profile s) (app_start_time s)
    (app_start_time_without_shift s) (last_encoder_time s)
    (current_app_state s) (current_app_mode s) (menu_profile_index s) v
    (current_edit_value s) (current_top_menu_action s) (time_shift_hours s)
    (flash_buffer s) (flash_sector s) (gpio_pump s) (pwm_white_red s)
    (pwm_blue s) (redraws s) (in_bootloader s).

Definition set_current_edit_value (v : Z) (s : app_t) : app_t :=
  mkApp (profiles s) (current_profile s) (app_start_time s)
    (app_start_time_without_shift s) (last_encoder_time s)
    (current_app_state s) (current_app_mode s) (menu_profile_index s)
    (current_edit_period_index s) v (current_top_menu_action s)
    (time_shift_hours s) (flash_buffer s) (flash_sector s) (gpio_pump s)
    (pwm_white_red s) (pwm_blue s) (redraws s) (in_bootloader s).

Definition set_current_top_menu_action (v : Z) (s : app_t) : app_t :=
  mkApp (profiles s) (current_profile s) (app_start_time s)
    (app_start_time_without_shift s) (last_encoder_time s)
    (current_app_state s) (current_app_mode s) (menu_profile_index s)
    (current_edit_period_index s) (current_edit_value s) v
    (time_shift_hours s) (flash_buffer s) (flash_sector s) (gpio_pump s)
    (pwm_white_red s) (pwm_blue s) (redraws s) (in_bootloader s).

Definition set_time_shift_hours (v : Z) (s : app_t) : app_t :=
  mkApp (profiles s) (current_profile s) (app_start_time s)
    (app_start_time_without_shift s) (last_encoder_time s)
    (current_app_state s) (current_app_mode s) (menu_profile_index s)
    (current_edit_period_index s) (current_edit_value s)
    (current_top_menu_action s) v (flash_buffer s) (flash_sector s)
    (gpio_pump s) (pwm_white_red s) (pwm_blue s) (redraws s)
    (in_bootloader s).

Definition set_flash (buffer sector : list byte) (s : app_t) : app_t :=
  mkApp (profiles s) (current_profile s) (app_start_time s)
    (app_start_time_without_shift s) (last_encoder_time s)
    (current_app_state s) (current_app_mode s) (menu_profile_index s)
    (current_edit_period_index s) (current_edit_value s)
    (current_top_menu_action s) (time_shift_hours s) buffer sector
    (gpio_pump s) (pwm_white_red s) (pwm_blue s) (redraws s)
    (in_bootloader s).

Definition set_outputs (p : bool) (wr bl : Z) (s : app_t) : app_t :=
  mkApp (profiles s) (current_profile s) (app_start_time s)
    (app_start_time_without_shift s) (last_encoder_time s)
    (current_app_state s) (current_app_mode s) (menu_profile_index s)
    (current_edit_period_index s) (current_edit_value s)
    (current_top_menu_action s) (time_shift_hours s) (flash_buffer s)
    (flash_sector s) p wr bl (redraws s) (in_bootloader s).

Definition set_redraws (v : nat) (s : app_t) : app_t :=
  mkApp (profiles s) (current_profile s) (app_start_time s)
    (app_start_time_without_shift s) (last_encoder_time s)
    (current_app_state s) (current_app_mode s) (menu_profile_index s)
    (current_edit_period_index s) (current_edit_value s)
    (current_top_menu_action s) (time_shift_hours s) (flash_buffer s)
    (flash_sector s) (gpio_pump s) (pwm_white_red s) (pwm_blue s) v
    (in_bootloader s).

Definition set_in_bootloader (v : bool) (s : app_t) : app_t :=
  mkApp (profiles s) (current_profile s) (app_start_time s)
    (app_start_time_without_shift s) (last_encoder_time s)
    (current_app_state s) (current_app_mode s) (menu_profile_index s)
    (current_edit_period_index s) (current_edit_value s)
    (current_top_menu_action s) (time_shift_hours s) (flash_buffer s)
    (flash_sector s) (gpio_pump s) (pwm_white_red s) (pwm_blue s)
    (redraws s) v.

(** [app_calculate_state] on the globals, with [now] the reading of
    [get_absolute_time].  An active index outside [profiles] is undefined in
    the source; the model then leaves the state alone. *)
Definition app_calculate_state (now : Z) (s : app_t) : app_t * bool :=
  match zlookup (profiles s) (current_profile s) with
  | Some profile =>
      let '(st, changed) :=
        calculate_state (minutes_since now (app_start_time s))
                        (minutes_since now (app_start_time_without_shift s))
                        profile (current_app_state s) in
      (set_current_app_state st s, changed)
  | None => (s, false)
  end.

(** [pwm_set_gpio_level] takes a [uint16_t]; the level is computed in [int]. *)
Definition pwm_level (percent : Z) : Z :=
  wrap_u16 (Z.quot (wrap_int (percent * PWM_WRAP)) 100).

Definition app_apply_state (s : app_t) : app_t :=
  let st := current_app_state s in
  set_outputs (pump st) (pwm_level (white_red st)) (pwm_level (blue st)) s.

(** [app_redraw] paints the screen of the current mode; the model counts the
    calls. *)
Definition app_redraw (s : app_t) : app_t := set_redraws (S (redraws s)) s.

(** ** Persistence: [app_save_profiles], [app_reload_profiles] *)

(** One erase unit of the flash (pico-sdk's [FLASH_SECTOR_SIZE]). *)
Definition FLASH_SECTOR_SIZE : nat := 4096.

Definition flash_magic : list byte := [Byte.xa5; Byte.x5a; Byte.xa5; Byte.x5a].

(** The object representation [memcpy] moves: a little-endian 32-bit [int],
    [period_t] as three of them, [profile_t] as [char name[16]] followed by
    its six periods (88 bytes, no padding), [profiles] as five of those. *)
Definition bytes_of_int (z : Z) : list byte := le_split 4 z.
Definition int_of_bytes (bs : list byte) : Z := wrap_int (le_combine bs).

Definition bytes_of_period (p : period_t) : list byte :=
  bytes_of_int (duration p) ++ bytes_of_int (led_white_red_power p)
    ++ bytes_of_int (led_blue_power p).

Definition bytes_of_profile (p : profile_t) : list byte :=
  name p ++ concat (map bytes_of_period (periods p)).

Definition bytes_of_profiles (ps : list profile_t) : list byte :=
  concat (map bytes_of_profile ps).

Definition slice (off len : nat) (mem : list byte) : list byte :=
  firstn len (skipn off mem).

Definition period_of_bytes (bs : list byte) : period_t :=
  mkPeriod (int_of_bytes (slice 0 4 bs)) (int_of_bytes (slice 4 4 bs))
           (int_of_bytes (slice 8 4 bs)).

Definition profile_of_bytes (bs : list byte) : profile_t :=
  mkProfile (slice 0 16 bs)
    (map (fun i => period_of_bytes (slice (16 + 12 * i) 12 bs)) (seq 0 6)).

Definition profiles_of_bytes (bs : list byte) : list profile_t :=
  map (fun k => profile_of_bytes (slice (88 * k) 88 bs)) (seq 0 5).

(** The flash primitives of the SDK: erasing sets every bit of the sector,
    programming can only clear bits. *)
Definition flash_range_erase (sector : list byte) : list byte :=
  repeat Byte.xff FLASH_SECTOR_SIZE.

Fixpoint flash_range_program (sector data : list byte) : list byte :=
  match sector, data with
  | b :: sector', d :: data' => byte.and b d :: flash_range_program sector' data'
  | _, _ => sector
  end.

Definition app_save_profiles (s : app_t) : app_t :=
  let written :=
    flash_magic ++ bytes_of_int (current_profile s)
      ++ bytes_of_profiles (profiles s) in
  let buffer := written ++ skipn (length written) (flash_buffer s) in
  let sector := flash_range_program (flash_range_erase (flash_sector s)) buffer in
  let s := set_flash buffer sector s in
  let s := set_menu_profile_index (current_profile s) s in
  let s := set_current_app_mode MODE_SHOW_STATE s in
  app_redraw s.

Definition magic_matches (address : list byte) : bool :=
  (byte.unsigned (nth 0 address Byte.x00) =? 0xA5)
  && (byte.unsigned (nth 1 address Byte.x00) =? 0x5A)
  && (byte.unsigned (nth 2 address Byte.x00) =? 0xA5)
  && (byte.unsigned (nth 3 address Byte.x00) =? 0x5A).

Definition app_reload_profiles (with_ui : bool) (s : app_t) : app_t :=
  let address := flash_sector s in
  if negb (magic_matches address) then
    (* no valid data *)
    if with_ui then app_redraw s else s
  else
    let s := set_current_profile (int_of_bytes (slice 4 4 address)) s in
    let s := set_profiles (profiles_of_bytes (slice 8 440 address)) s in
    let s :=
      if (current_profile s <? 0) || (MAX_PROFILES <=? current_profile s)
      then set_current_profile 0 s else s in
    let s := set_menu_profile_index (current_profile s) s in
    let s := set_current_app_mode MODE_SHOW_STATE s in
    if with_ui then app_redraw s else s.

(** ** The periodic tick *)

(** The bound [app_tick] compares the idle time with, in microseconds. *)
Definition IDLE_TIMEOUT_US : Z := 10000 * 6000.

Definition app_tick (now : Z) (s : app_t) : app_t :=
  let s :=
    if (IDLE_TIMEOUT_US <? wrap_u64 (now - last_encoder_time s))
       && negb (app_mode_eqb (current_app_mode s) MODE_SHOW_STATE)
    then
      let s := set_current_app_mode MODE_SHOW_STATE s in
      let s := set_menu_profile_index (current_profile s) s in
      app_redraw s
    else s in
  if app_mode_eqb (current_app_mode s) MODE_SHOW_STATE then
    let '(s', changed) := app_calculate_state now s in
    if changed then app_redraw (app_apply_state s') else s'
  else s.

(** ** Rotation handlers *)

Definition app_encoder_show_profile (delta : Z) (s : app_t) : app_t :=
  let new_profile := wrap_int (menu_profile_index s + delta) in
  if new_profile <? 0 then
    let s := set_current_app_mode MODE_TOP_MENU s in
    let s := set_current_top_menu_action TOP_MENU_FIRST s in
    app_redraw s
  else
    let new_profile := if MAX_PROFILES <=? new_profile then 0 else new_profile in
    let s :=
      if negb (new_profile =? menu_profile_index s)
      then set_menu_profile_index new_profile s else s in
    let s :=
      if negb (menu_profile_index s =? current_profile s)
      then set_current_app_mode MODE_SHOW_PROFILE s
      else set_current_app_mode MODE_SHOW_STATE s in
    app_redraw s.

Definition app_encoder_edit_profile (delta : Z) (s : app_t) : app_t :=
  let new_index := wrap_int (current_edit_period_index s + delta) in
  let new_index :=
    if new_index <? -1 then MAX_PERIODS - 1
    else if MAX_PERIODS <=? new_index then -1
    else new_index in
  if negb (new_index =? current_edit_period_index s) then
    app_redraw (set_current_edit_period_index new_index s)
  else s.

(** [&profiles[current_profile].periods[current_edit_period_index]]: the
    period the edit handlers read and write.  Outside the arrays the source
    is undefined; the model reads nothing and writes nothing there. *)
Definition edited_period (s : app_t) : option period_t :=
  match zlookup (profiles s) (current_profile s) with
  | Some profile => zlookup (periods profile) (current_edit_period_index s)
  | None => None
  end.

Definition store_edited_period (p : period_t) (s : app_t) : app_t :=
  match zlookup (profiles s) (current_profile s) with
  | Some profile =>
      let profile' :=
        mkProfile (name profile)
                  (zinsert (current_edit_period_index s) p (periods profile)) in
      set_profiles (zinsert (current_profile s) profile' (profiles s)) s
  | None => s
  end.

Definition app_encoder_edit_duration (delta : Z) (s : app_t) : app_t :=
  match edited_period s with
  | Some period =>
      let new_duration := wrap_int (duration period + wrap_int (delta * 60)) in
      let new_duration :=
        if new_duration <? 0 then 0
        else if 24 * 60 <? new_duration then 24 * 60
        else new_duration in
      if negb (new_duration =? duration period) then
        app_redraw
          (store_edited_period
             (mkPeriod new_duration (led_white_red_power period)
                       (led_blue_power period)) s)
      else s
  | None => s
  end.

Definition app_encoder_edit_period (delta : Z) (s : app_t) : app_t :=
  let new_value := wrap_int (current_edit_value s + delta) in
  let new_value :=
    if new_value <? EDIT_FIRST then EDIT_LAST
    else if EDIT_LAST <? new_value then EDIT_FIRST
    else new_value in
  if negb (new_value =? current_edit_value s) then
    app_redraw (set_current_edit_value new_value s)
  else s.

Definition app_encoder_edit_white_red_level (delta : Z) (s : app_t) : app_t :=
  match edited_period s with
  | Some period =>
      let new_level :=
        wrap_int (led_white_red_power period + wrap_int (delta * 5)) in
      let new_level :=
        if new_level <? 0 then 0
        else if 100 <? new_level then 100
        else new_level in
      let s :=
        if negb (new_level =? led_white_red_power period) then
          app_redraw
            (store_edited_period
               (mkPeriod (duration period) new_level (led_blue_power period)) s)
        else s in
      let st := current_app_state s in
      let s :=
        set_current_app_state
          (mkAppState (period_index st) new_level (blue st) (pump st)
                      (pump_minutes_left st) (period_minutes_left st)) s in
      app_apply_state s
  | None => s
  end.

Definition app_encoder_edit_blue_level (delta : Z) (s : app_t) : app_t :=
  match edited_period s with
  | Some period =>
      let new_level := wrap_int (led_blue_power period + wrap_int (delta * 5)) in
      let new_level :=
        if new_level <? 0 then 0
        else if 100 <? new_level then 100
        else new_level in
      let s :=
        if negb (new_level =? led_blue_power period) then
          app_redraw
            (store_edited_period
               (mkPeriod (duration period) (led_white_red_power period)
                         new_level) s)
        else s in
      let st := current_app_state s in
      let s :=
        set_current_app_state
          (mkAppState (period_index st) (white_red st) new_level (pump st)
                      (pump_minutes_left st) (period_minutes_left st)) s in
      app_apply_state s
  | None => s
  end.

Definition app_encoder_top_menu (delta : Z) (s : app_t) : app_t :=
  let new_action := wrap_int (current_top_menu_action s + delta) in
  let s :=
    if new_action <? TOP_MENU_FIRST then
      let s := set_menu_profile_index 0 s in
      if negb (menu_profile_index s =? current_profile s)
      then set_current_app_mode MODE_SHOW_PROFILE s
      else set_current_app_mode MODE_SHOW_STATE s
    else if TOP_MENU_LAST <? new_action then
      set_current_top_menu_action TOP_MENU_FIRST s
    else set_current_top_menu_action new_action s in
  app_redraw s.

Definition app_encoder_time_shift (delta : Z) (s : app_t) : app_t :=
  let new_shift := wrap_int (time_shift_hours s + delta) in
  let new_shift :=
    if new_shift <? -23 then -23
    else if 23 <? new_shift then 23
    else new_shift in
  if negb (new_shift =? time_shift_hours s) then
    app_redraw (set_time_shift_hours new_shift s)
  else s.

Definition app_on_encoder_change (now : Z) (delta : Z) (s : app_t) : app_t :=
  if delta =? 0 then s
  else
    let s := set_last_encoder_time now s in
    match current_app_mode s with
    | MODE_SHOW_PROFILE | MODE_SHOW_STATE => app_encoder_show_profile delta s
    | MODE_EDIT_PROFILE => app_encoder_edit_profile delta s
    | MODE_EDIT_PERIOD => app_encoder_edit_period delta s
    | MODE_EDIT_DURATION => app_encoder_edit_duration delta s
    | MODE_EDIT_WR_LEVEL => app_encoder_edit_white_red_level delta s
    | MODE_EDIT_BL_LEVEL => app_encoder_edit_blue_level delta s
    | MODE_TOP_MENU => app_encoder_top_menu delta s
    | MODE_TIME_SHIFT => app_encoder_time_shift delta s
    end.

(** ** The click handler *)

(** [reset_usb_boot] followed by [while(1);]: control never comes back. *)
Definition app_reboot_to_bootloader (s : app_t) : app_t :=
  set_in_bootloader true s.

Definition app_on_click (now : Z) (s : app_t) : app_t :=
  let s := set_last_encoder_time now s in
  let s :=
    match current_app_mode s with
    | MODE_SHOW_PROFILE =>
        if negb (menu_profile_index s =? current_profile s) then
          (* Switch to selected profile *)
          let s := set_current_profile (menu_profile_index s) s in
          let s := set_current_app_mode MODE_SHOW_STATE s in
          let s := fst (app_calculate_state now s) in
          app_apply_state s
        else s
    | MODE_SHOW_STATE =>
        (* Enter profile edit mode *)
        let s := set_current_edit_period_index (-1) s in
        set_current_app_mode MODE_EDIT_PROFILE s
    | MODE_EDIT_PROFILE =>
        if current_edit_period_index s =? -1 then
          (* Back button *)
          set_current_app_mode MODE_SHOW_STATE s
        else
          (* Edit selected period *)
          let s := set_current_app_mode MODE_EDIT_PERIOD s in
          let s := set_current_edit_value EDIT_BACK s in
          match edited_period s with
          | Some period =>
              let st := current_app_state s in
              let s :=
                set_current_app_state
                  (mkAppState (period_index st) (led_white_red_power period)
                              (led_blue_power period) (pump st)
                              (pump_minutes_left st) (period_minutes_left st))
                  s in
              app_apply_state s
          | None => s
          end
    | MODE_EDIT_PERIOD =>
        if current_edit_value s =? EDIT_BACK then
          set_current_app_mode MODE_EDIT_PROFILE s
        else if current_edit_value s =? EDIT_WR_LEVEL then
          set_current_app_mode MODE_EDIT_WR_LEVEL s
        else if current_edit_value s =? EDIT_BL_LEVEL then
          set_current_app_mode MODE_EDIT_BL_LEVEL s
        else if current_edit_value s =? EDIT_DURATION then
          set_current_app_mode MODE_EDIT_DURATION s
        else s
    | MODE_EDIT_DURATION | MODE_EDIT_WR_LEVEL | MODE_EDIT_BL_LEVEL =>
        set_current_app_mode MODE_EDIT_PERIOD s
    | MODE_TOP_MENU =>
        if current_top_menu_action s =? TOP_MENU_SAVE then app_save_profiles s
        else if current_top_menu_action s =? TOP_MENU_RELOAD then
          app_reload_profiles true s
        else if current_top_menu_action s =? TOP_MENU_FLASH then
          app_reboot_to_bootloader s
        else if current_top_menu_action s =? TOP_MENU_SHIFT then
          let s := set_time_shift_hours 0 s in
          set_current_app_mode MODE_TIME_SHIFT s
        else s
    | MODE_TIME_SHIFT =>
        let s := set_current_app_mode MODE_TOP_MENU s in
        if negb (time_shift_hours s =? 0) then
          (* apply time shift *)
          let shift_us :=
            wrap_u64 (wrap_u64 (time_shift_hours s) * (60 * 60 * 1000 * 1000)) in
          let s := set_app_start_time (wrap_u64 (app_start_time s + shift_us)) s in
          fst (app_calculate_state now s)
        else s
    end in
  if in_bootloader s then s else app_redraw s.

(** ** Start-up and the main loop *)

(** The static initialisers of [app.c], over a given content of the flash
    sector. *)
Definition power_on (flash : list byte) : app_t :=
  {| profiles := factory_profiles;
     current_profile := 0;
     app_start_time := 0;
     app_start_time_without_shift := 0;
     last_encoder_time := 0;
     current_app_state := mkAppState 0 (-1) (-1) false 0 0;
     current_app_mode := MODE_SHOW_STATE;
     menu_profile_index := 0;
     current_edit_period_index := 0;
     current_edit_value := EDIT_BACK;
     current_top_menu_action := TOP_MENU_SAVE;
     time_shift_hours := 0;
     flash_buffer := repeat Byte.x00 FLASH_SECTOR_SIZE;
     flash_sector := flash;
     gpio_pump := false;
     pwm_white_red := 0;
     pwm_blue := 0;
     redraws := 0;
     in_bootloader := false |}.

Definition app_init (now : Z) (s : app_t) : app_t :=
  let s := set_current_profile 0 s in
  let s := set_app_start_time now s in
  let s := set_app_start_time_without_shift (app_start_time s) s in
  let s := set_outputs (gpio_pump s) 0 0 s in
  let s := app_reload_profiles false s in
  app_tick now s.

(** What the loop of [main] feeds the application. *)
Inductive event :=
| Rotate (delta : Z)
| Click
| Tick.

(** One event at clock reading [now]; nothing runs once the bootloader has
    taken over. *)
Definition step (now : Z) (e : event) (s : app_t) : app_t :=
  if in_bootloader s then s
  else
    match e with
    | Rotate delta => app_on_encoder_change now delta s
    | Click => app_on_click now s
    | Tick => app_tick now s
    end.

Definition run (evs : list (Z * event)) (s : app_t) : app_t :=
  fold_left (fun s '(now, e) => step now e s) evs s.

Inductive reachable : app_t -> Prop :=
| reachable_init (flash : list byte) (now : Z) :
    reachable (app_init now (power_on flash))
| reachable_step (s : app_t) (now : Z) (e : event) :
    reachable s -> reachable (step now e s).

(** ** Predicates of the specification *)

(** The ranges the data model gives a period and a profile. *)
Definition valid_period (p : period_t) : Prop :=
  0 <= duration p <= 1440
  /\ 0 <= led_white_red_power p <= 100
  /\ 0 <= led_blue_power p <= 100.

Definition valid_profile (p : profile_t) : Prop :=
  length (name p) = 16%nat
  /\ length (periods p) = 6%nat
  /\ Forall valid_period (periods p).

Definition valid_profile_set (ps : list profile_t) (active : Z) : Prop :=
  length ps = 5%nat /\ Forall valid_profile ps /\ 0 <= active < MAX_PROFILES.

(** The pump cadence of the specification: on for the first [RUN] minutes of
    every [RUN + WAIT] minutes since boot, with the minutes left in the
    current phase. *)
Definition pump_on_at (minutes_since_boot : Z) : bool :=
  minutes_since_boot mod PUMP_TOTAL_MINUTES <? PUMP_RUN_MINUTES.

Definition pump_left_at (minutes_since_boot : Z) : Z :=
  let c := minutes_since_boot mod PUMP_TOTAL_MINUTES in
  if c <? PUMP_RUN_MINUTES then PUMP_RUN_MINUTES - c else PUMP_TOTAL_MINUTES - c.

(** [lightTotal] and the cumulative windows of the slots: slot [i] covers
    the minutes from [window_start ps i] up to, not including,
    [window_start ps i + duration]. *)
Definition sum_durations (ps : list period_t) : Z :=
  fold_right (fun p acc => duration p + acc) 0 ps.

Definition window_start (ps : list period_t) (i : nat) : Z :=
  sum_durations (firstn i ps).

(** Slot [k] holds the active period at position [m]: it is enabled, its
    window contains [m], and no enabled slot before it has [m] in its
    window. *)
Definition first_window_containing (ps : list period_t) (m : Z) (k : nat)
    (period : period_t) : Prop :=
  ps !! k = Some period
  /\ 0 < duration period
  /\ window_start ps k <= m < window_start ps k + duration period
  /\ forall (j : nat) (q : period_t),
       (j < k)%nat -> ps !! j = Some q ->
       ~ (0 < duration q
          /\ window_start ps j <= m < window_start ps j + duration q).

(** The output state reports the active period at position [m]. *)
Definition reports_active_period (ps : list period_t) (m : Z)
    (st : app_state_t) : Prop :=
  exists (k : nat) (period : period_t),
    first_window_containing ps m k period
    /\ period_index st = Z.of_nat k
    /\ white_red st = led_white_red_power period
    /\ blue st = led_blue_power period
    /\ period_minutes_left st = window_start ps k + duration period - m.

(** The modes whose handlers work on
    [profiles[current_profile].periods[current_edit_period_index]]. *)
Definition edits_a_period (m : app_mode_t) : bool :=
  match m with
  | MODE_EDIT_PERIOD | MODE_EDIT_WR_LEVEL | MODE_EDIT_BL_LEVEL
  | MODE_EDIT_DURATION => true
  | _ => false
  end.

(** Index safety of the navigation state. *)
Definition index_safe (s : app_t) : Prop :=
  -1 <= current_edit_period_index s <= 5
  /\ (edits_a_period (current_app_mode s) = true ->
      0 <= current_edit_period_index s <= 5).

(** Five profiles of six periods each. *)
Definition well_shaped (ps : list profile_t) : Prop :=
  length ps = 5%nat /\ Forall (fun p => length (periods p) = 6%nat) ps.

(** What the handlers keep true between events. *)
Definition nav_invariant (s : app_t) : Prop :=
  index_safe s
  /\ 0 <= current_profile s < MAX_PROFILES
  /\ 0 <= menu_profile_index s < MAX_PROFILES
  /\ well_shaped (profiles s).

(** The modes whose rotation handler redraws only behind a comparison of the
    new value with the old one. *)
Definition redraw_guarded (m : app_mode_t) : bool :=
  match m with
  | MODE_EDIT_PROFILE | MODE_EDIT_PERIOD | MODE_EDIT_DURATION
  | MODE_EDIT_WR_LEVEL | MODE_EDIT_BL_LEVEL | MODE_TIME_SHIFT => true
  | _ => false
  end.

(** The navigation state and the profile set are the same in [s] and [s']
    (the time stamp of the last input, which every event renews, is not
    compared). *)
Definition same_nav_and_profiles (s s' : app_t) : Prop :=
  profiles s' = profiles s
  /\ current_profile s' = current_profile s
  /\ current_app_mode s' = current_app_mode s
  /\ menu_profile_index s' = menu_profile_index s
  /\ current_edit_period_index s' = current_edit_period_index s
  /\ current_edit_value s' = current_edit_value s
  /\ current_top_menu_action s' = current_top_menu_action s
  /\ time_shift_hours s' = time_shift_hours s.

(** The fields of a period fit an [int]. *)
Definition int_period (q : period_t) : Prop :=
  in_int (duration q) /\ in_int (led_white_red_power q)
  /\ in_int (led_blue_power q).

(** A profile [memcpy] reproduces: sixteen name bytes and six periods whose
    fields fit an [int]. *)
Definition representable (p : profile_t) : Prop :=
  length (name p) = 16%nat
  /\ length (periods p) = 6%nat
  /\ Forall int_period (periods p).

(** ** Scenarios *)

(** A profile without any duration (the factory content of CUSTOM 1). *)
Definition blank_profile : profile_t :=
  mkProfile (repeat Byte.x00 16)
            [disabled; disabled; disabled; disabled; disabled; disabled].

(** Periods [480@(100,50), 960@(0,0)], the other slots disabled. *)
Definition scenario_profile : profile_t :=
  mkProfile (repeat Byte.x00 16)
            [mkPeriod 480 100 50; mkPeriod 960 0 0;
             disabled; disabled; disabled; disabled].

(** An erased sector: no saved data. *)
Definition erased_flash : list byte := repeat Byte.xff FLASH_SECTOR_SIZE.

(** The controller after start-up at clock 0 with nothing saved: the factory
    profiles, VEG active. *)
Definition fresh_start : app_t := app_init 0 (power_on erased_flash).

(** Within the first second the user browses three profiles on, to CUSTOM 1,
    whose periods are all disabled, and makes it the active profile with a
    click at 2 s; ten minutes after boot a tick follows. *)
Definition custom1_selected : app_t :=
  run [(1000000, Rotate 3); (2000000, Click); (600000000, Tick)] fresh_start.

(** From the state display: into the period list, down to period 1, into
    its fields, down to the duration, into the duration editor, and one step
    up of the duration at 5 s. *)
Definition editing_duration : app_t :=
  run [(1000000, Click); (2000000, Rotate 1); (3000000, Click);
       (4000000, Rotate 1); (4500000, Click); (5000000, Rotate 1)]
      fresh_start.

(** From the state display, one click: the period list with the BACK row
    selected. *)
Definition browsing_periods : app_t := run [(1000000, Click)] fresh_start.

(** From the state display one step back, into the top menu, and two rows
    down to RELOAD. *)
Definition reload_selected : app_t :=
  run [(1000000, Rotate (-1)); (2000000, Rotate 2)] fresh_start.

(** Into the top menu, a click on TIME SHIFT, and three hours forward. *)
Definition shift_chosen : app_t :=
  run [(1000000, Rotate (-1)); (2000000, Click); (3000000, Rotate 3)]
      fresh_start.

(** A sector that holds the magic marker, the active index 7 and the factory
    profiles. *)
Definition index7_flash : list byte :=
  flash_magic ++ bytes_of_int 7 ++ bytes_of_profiles factory_profiles.

(** The controller just powered on (clock 0), with the scenario profile in
    the first slot and active. *)
Definition scenario_state : app_t :=
  set_profiles (scenario_profile :: tail factory_profiles)
               (power_on erased_flash).

(** ** The loop of [main] *)

(** [absolute_time_diff_us] returns an [int64_t]. *)
Definition wrap_i64 (z : Z) : Z :=
  (z + 9223372036854775808) mod 18446744073709551616 - 9223372036854775808.

Definition DEBOUNCE_MS : Z := 50.

(** The locals of [main] that live across iterations. *)
Record loop_t := mkLoop {
  old_value : Z;
  last_value : Z;
  last_delta : Z;
  last_button_state : Z;
  last_changed : Z
}.

Definition loop_start : loop_t := mkLoop 0 (-1) (-1) 0 0.

(** "Process encoder": [count] is what [quadrature_encoder_get_count]
    returns; the result tells whether [app_on_encoder_change] is called, and
    with which argument. *)
Definition encoder_poll (count : Z) (l : loop_t) : loop_t * option Z :=
  let new_value := Z.quot count 4 in
  let delta := wrap_int (new_value - old_value l) in
  if negb (new_value =? last_value l) || negb (delta =? last_delta l) then
    (mkLoop new_value new_value delta (last_button_state l) (last_changed l),
     Some (wrap_int (- delta)))
  else
    (mkLoop new_value (last_value l) (last_delta l) (last_button_state l)
            (last_changed l),
     None).

(** "Process encoder button with debounce": [pin] is what [gpio_get] reads
    (the button pulls the pin low), [now] the clock; the result tells whether
    [app_on_click] is called. *)
Definition button_poll (pin : bool) (now : Z) (l : loop_t) : loop_t * bool :=
  let button_state := Z.b2z pin in
  if negb (button_state =? last_button_state l) then
    (mkLoop (old_value l) (last_value l) (last_delta l) button_state now, false)
  else if negb (last_changed l =? 0)
          && (DEBOUNCE_MS * 1000 <? wrap_i64 (now - last_changed l)) then
    (mkLoop (old_value l) (last_value l) (last_delta l) (last_button_state l) 0,
     last_button_state l =? 0)
  else (l, false).

(** What one iteration reads: the encoder count, the button pin, and the
    clock as read by the rotation handler, by [main], by the click handler
    and by the tick. *)
Record sample_t := mkSample {
  enc_count : Z;
  button_pin : bool;
  t_rotate : Z;
  t_main : Z;
  t_click : Z;
  t_tick : Z
}.

(** One iteration of [while(true)].  A click on FLASH does not return, so
    the iteration and the loop end there. *)
Definition main_iteration (i : sample_t) (ls : loop_t * app_t) : loop_t * app_t :=
  let '(l, s) := ls in
  if in_bootloader s then (l, s)
  else
    let '(l, rotation) := encoder_poll (enc_count i) l in
    let s :=
      match rotation with
      | Some d => app_on_encoder_change (t_rotate i) d s
      | None => s
      end in
    let '(l, click) := button_poll (button_pin i) (t_main i) l in
    let s := if click then app_on_click (t_click i) s else s in
    if in_bootloader s then (l, s)
    else (l, app_tick (t_tick i) s).

(** [main]: initialisation at clock [t0] over the given flash content, then
    the loop over the samples. *)
Definition main (flash : list byte) (t0 : Z) (samples : list sample_t)
  : loop_t * app_t :=
  fold_left (fun ls i => main_iteration i ls) samples
            (loop_start, app_init t0 (power_on flash)).

(** The button part of the loop over a run of samples (pin, clock): the
    state after them and the number of calls of [app_on_click]. *)
Fixpoint button_polls (samples : list (bool * Z)) (l : loop_t) : loop_t * nat :=
  match samples with
  | [] => (l, 0%nat)
  | (pin, now) :: rest =>
      let '(l1, click) := button_poll pin now l in
      let '(l2, n) := button_polls rest l1 in
      (l2, ((if click then 1 else 0) + n)%nat)
  end.

(** ** Further predicates *)

(** Period [j] of profile [i]. *)
Definition period_at (ps : list profile_t) (i j : Z) : option period_t :=
  match zlookup ps i with
  | Some profile => zlookup (periods profile) j
  | None => None
  end.

(** The sector holds no marker, or it holds what a save of a profile set in
    its ranges wrote. *)
Definition flash_good (sector : list byte) : Prop :=
  magic_matches sector = false
  \/ exists (cur : Z) (ps : list profile_t) (tail : list byte),
       sector = flash_magic ++ bytes_of_int cur ++ bytes_of_profiles ps ++ tail
       /\ length ps = 5%nat /\ Forall valid_profile ps /\ in_int cur.

(** Every profile in memory is in its ranges, and so is what a load would
    bring in. *)
Definition data_valid (s : app_t) : Prop :=
  length (profiles s) = 5%nat
  /\ Forall valid_profile (profiles s)
  /\ flash_good (flash_sector s).

(** The screens show the profile they act on, and the selectors stay inside
    their enumerations. *)
Definition nav_consistent (s : app_t) : Prop :=
  (current_app_mode s = MODE_SHOW_PROFILE ->
   menu_profile_index s <> current_profile s)
  /\ (current_app_mode s = MODE_SHOW_STATE
      \/ current_app_mode s = MODE_EDIT_PROFILE
      \/ edits_a_period (current_app_mode s) = true ->
      menu_profile_index s = current_profile s)
  /\ EDIT_FIRST <= current_edit_value s <= EDIT_LAST
  /\ TOP_MENU_FIRST <= current_top_menu_action s <= TOP_MENU_LAST
  /\ -23 <= time_shift_hours s <= 23
  /\ (current_app_mode s = MODE_EDIT_DURATION ->
      current_edit_value s = EDIT_DURATION)
  /\ (current_app_mode s = MODE_EDIT_WR_LEVEL ->
      current_edit_value s = EDIT_WR_LEVEL)
  /\ (current_app_mode s = MODE_EDIT_BL_LEVEL ->
      current_edit_value s = EDIT_BL_LEVEL).

(** A profile set as a sector written elsewhere could hold it: the first
    period of the first profile has a negative duration and powers outside
    0..100. *)
Definition out_of_range_state : app_t :=
  set_profiles
    (mkProfile (repeat Byte.x00 16)
               [mkPeriod (-5) 250 (-1); disabled; disabled; disabled;
                disabled; disabled]
     :: tail factory_profiles)
    (power_on erased_flash).

(** The button has been read low for the first time at 1 ms. *)
Definition button_pressed : loop_t := mkLoop 0 0 0 0 1000.

(** From the state display one step back, into the top menu, and one row
    down to SAVE. *)
Definition save_selected : app_t :=
  run [(1000000, Rotate (-1)); (2000000, Rotate 1)] fresh_start.

(** From the state display three profiles on: the preview of CUSTOM 1. *)
Definition previewing_custom1 : app_t := run [(1000000, Rotate 3)] fresh_start.

(** A save right after start-up, and then the edit of [editing_duration]:
    the memory no longer holds what the sector holds. *)
Definition edited_after_save : app_t :=
  run [(1000000, Click); (2000000, Rotate 1); (3000000, Click);
       (4000000, Rotate 1); (4500000, Click); (5000000, Rotate 1)]
      (app_save_profiles fresh_start).

(** A power cycle after a save of [out_of_range_state]: the memory holds the
    factory profiles again, the sector what was saved. *)
Definition out_of_range_power_cycled : app_t :=
  power_on (flash_sector (app_save_profiles out_of_range_state)).

(** ** The screens: [app_draw_*] and the dispatch of [app_redraw] *)

(** What is handed to [ssd1306_draw_string]: a string literal, a profile
    name as stored, or the buffer [snprintf] fills from a format and its
    integer arguments. *)
Inductive text_t :=
| Literal (s : String.string)
| Name (bytes : list byte)
| Printf (format : String.string) (args : list Z).

(** The calls on the display, in order. *)
Inductive draw_t :=
| Ssd1306_clear
| Ssd1306_draw_string (x y scale : Z) (t : text_t)
| Ssd1306_draw_line (x0 y0 x1 y1 : Z)
| Ssd1306_show.

(** [ssd1306_init(&disp, 128, 64, ...)]. *)
Definition DISPLAY_WIDTH : Z := 128.
Definition DISPLAY_HEIGHT : Z := 64.

Definition app_draw_current_state (s : app_t) : list draw_t :=
  match zlookup (profiles s) (current_profile s) with
  | Some profile =>
      let st := current_app_state s in
      let hours := Z.quot (period_minutes_left st) 60 in
      let minutes := Z.rem (period_minutes_left st) 60 in
      [ Ssd1306_clear;
        Ssd1306_draw_string 0 0 2 (Name (name profile));
        Ssd1306_draw_line 0 16 128 16;
        Ssd1306_draw_line 0 17 128 17;
        Ssd1306_draw_string 0 20 2
          (Printf "#%d %d:%02d"%string
                  [wrap_int (period_index st + 1); hours; minutes]);
        Ssd1306_draw_string 0 38 1
          (Printf "W/R:%d%% B:%d%%"%string [white_red st; blue st]);
        Ssd1306_draw_string 0 48 2
          (if pump st
           then Printf "P:ON %dm"%string [pump_minutes_left st]
           else Printf "P:OFF %dm"%string [pump_minutes_left st]);
        Ssd1306_show ]
  | None => []
  end.

Definition app_draw_profile (s : app_t) : list draw_t :=
  match zlookup (profiles s) (menu_profile_index s) with
  | Some profile =>
      [Ssd1306_clear; Ssd1306_draw_string 0 0 2 (Name (name profile))]
      ++ concat
           (map (fun i : nat =>
                   match periods profile !! i with
                   | Some period =>
                       [Ssd1306_draw_string 0 (16 + 8 * Z.of_nat i) 1
                          (Printf "%d-T:%2d|W:%3d|B:%3d"%string
                             [Z.of_nat i + 1; Z.quot (duration period) 60;
                              led_white_red_power period;
                              led_blue_power period])]
                   | None => []
                   end)
                (seq 0 (Z.to_nat MAX_PERIODS)))
      ++ [Ssd1306_show]
  | None => []
  end.

(** The rows of the period list, from [top_index] on: row [r] shows period
    [top_index + r] of [profiles[menu_profile_index]] at [y = 16 + 16 * r]. *)
Definition edit_profile_row (s : app_t) (top_index : Z) (r : nat)
  : list draw_t :=
  let i := top_index + Z.of_nat r in
  let y := 16 + 16 * Z.of_nat r in
  match period_at (profiles s) (menu_profile_index s) i with
  | Some period =>
      (if i =? current_edit_period_index s
       then [Ssd1306_draw_string 0 y 2 (Literal ">"%string)] else [])
      ++ [ Ssd1306_draw_string 10 y 2
             (Printf "%d-T:%2d"%string [i + 1; Z.quot (duration period) 60]);
           Ssd1306_draw_string 85 y 1
             (Printf "W:%3d%%"%string [led_white_red_power period]);
           Ssd1306_draw_string 85 (y + 8) 1
             (Printf "B:%3d%%"%string [led_blue_power period]) ]
  | None => []
  end.

Definition app_draw_edit_profile (s : app_t) : list draw_t :=
  let top_index := wrap_int (current_edit_period_index s - 2) in
  let top_index := if top_index <? 0 then 0 else top_index in
  [Ssd1306_clear]
  ++ (if current_edit_period_index s <? 0
      then [Ssd1306_draw_string 0 0 2 (Literal ">"%string)] else [])
  ++ [Ssd1306_draw_string 11 0 2 (Literal "BACK"%string)]
  ++ concat (map (edit_profile_row s top_index)
                 (seq 0 (Z.to_nat (MAX_PERIODS - top_index))))
  ++ [Ssd1306_show].

(** The mark in front of a field of the period screen: [=] while the field
    is being edited, [>] while it is only selected. *)
Definition field_mark (s : app_t) (field : Z) (editing : app_mode_t) (y : Z)
  : list draw_t :=
  if current_edit_value s =? field then
    if app_mode_eqb (current_app_mode s) editing
    then [Ssd1306_draw_string 0 y 2 (Literal "="%string)]
    else [Ssd1306_draw_string 0 y 2 (Literal ">"%string)]
  else [].

Definition app_draw_edit_period (s : app_t) : list draw_t :=
  match edited_period s with
  | Some period =>
      [Ssd1306_clear]
      ++ (if current_edit_value s =? EDIT_BACK
          then [Ssd1306_draw_string 0 0 2 (Literal ">"%string)] else [])
      ++ [Ssd1306_draw_string 11 0 2 (Literal "BACK"%string)]
      ++ field_mark s EDIT_DURATION MODE_EDIT_DURATION 16
      ++ [Ssd1306_draw_string 11 16 2
            (Printf "TIME:%d"%string [Z.quot (duration period) 60])]
      ++ field_mark s EDIT_WR_LEVEL MODE_EDIT_WR_LEVEL 32
      ++ [Ssd1306_draw_string 11 32 2
            (Printf "WRED:%3d%%"%string [led_white_red_power period])]
      ++ field_mark s EDIT_BL_LEVEL MODE_EDIT_BL_LEVEL 48
      ++ [Ssd1306_draw_string 11 48 2
            (Printf "BLUE:%3d%%"%string [led_blue_power period]);
          Ssd1306_show]
  | None => []
  end.

Definition app_draw_time_shift (s : app_t) : list draw_t :=
  [ Ssd1306_clear;
    Ssd1306_draw_string 0 0 2 (Printf "SHIFT HOURS:"%string []);
    Ssd1306_draw_string 40 16 4 (Printf "%+d"%string [time_shift_hours s]);
    Ssd1306_show ].

Definition menu_mark (s : app_t) (action y : Z) : list draw_t :=
  if current_top_menu_action s =? action
  then [Ssd1306_draw_string 0 y 2 (Literal ">"%string)] else [].

Definition app_draw_top_menu (s : app_t) : list draw_t :=
  [Ssd1306_clear]
  ++ menu_mark s TOP_MENU_SHIFT 0
  ++ [Ssd1306_draw_string 11 0 2 (Literal "TIME SHIFT"%string)]
  ++ menu_mark s TOP_MENU_SAVE 16
  ++ [Ssd1306_draw_string 11 16 2 (Literal "SAVE"%string)]
  ++ menu_mark s TOP_MENU_RELOAD 32
  ++ [Ssd1306_draw_string 11 32 2 (Literal "RELOAD"%string)]
  ++ menu_mark s TOP_MENU_FLASH 48
  ++ [Ssd1306_draw_string 11 48 2 (Literal "FLASH"%string); Ssd1306_show].

(** What [app_redraw] paints in a state. *)
Definition screen (s : app_t) : list draw_t :=
  match current_app_mode s with
  | MODE_SHOW_STATE => app_draw_current_state s
  | MODE_SHOW_PROFILE => app_draw_profile s
  | MODE_EDIT_PROFILE => app_draw_edit_profile s
  | MODE_EDIT_PERIOD | MODE_EDIT_BL_LEVEL | MODE_EDIT_WR_LEVEL
  | MODE_EDIT_DURATION => app_draw_edit_period s
  | MODE_TOP_MENU => app_draw_top_menu s
  | MODE_TIME_SHIFT => app_draw_time_shift s
  end.

(** The selection marks of a screen: the rows ([y]) at which [>] or [=] is
    drawn in the first column, with whether the mark is [=]. *)
Fixpoint marks (cmds : list draw_t) : list (Z * bool) :=
  match cmds with
  | [] => []
  | Ssd1306_draw_string 0 y 2 (Literal m) :: rest =>
      if String.eqb m ">"%string then (y, false) :: marks rest
      else if String.eqb m "="%string then (y, true) :: marks rest
      else marks rest
  | _ :: rest => marks rest
  end.

(** The modes in which one value is being turned. *)
Definition edits_a_value (m : app_mode_t) : bool :=
  match m with
  | MODE_EDIT_WR_LEVEL | MODE_EDIT_BL_LEVEL | MODE_EDIT_DURATION => true
  | _ => false
  end.

(** * Properties *)

(** ** Integer conversions *)

Lemma wrap_u32_range z : 0 <= wrap_u32 z < 4294967296.
Proof. unfold wrap_u32; lia. Qed.

Lemma wrap_u32_small z : 0 <= z < 4294967296 -> wrap_u32 z = z.
Proof. unfold wrap_u32; lia. Qed.

Lemma wrap_int_small z : in_int z -> wrap_int z = z.
Proof. unfold wrap_int, in_int; lia. Qed.

Lemma wrap_int_range z : in_int (wrap_int z).
Proof. unfold wrap_int, in_int; lia. Qed.

Lemma wrap_u32_wrap_int z : wrap_u32 (wrap_int z) = wrap_u32 z.
Proof. unfold wrap_u32, wrap_int; lia. Qed.

Lemma wrap_u32_idem z : wrap_u32 (wrap_u32 z) = wrap_u32 z.
Proof. unfold wrap_u32; lia. Qed.

Lemma minutes_since_range now start :
  0 <= minutes_since now start < 4294967296.
Proof. apply wrap_u32_range. Qed.

(** ** The pump block *)

Lemma pump_left_at_range m : 1 <= pump_left_at m <= 30.
Proof.
  unfold pump_left_at, PUMP_TOTAL_MINUTES, PUMP_RUN_MINUTES, PUMP_WAIT_MINUTES.
  destruct (Z.ltb_spec (m mod (5 + 30)) 5); lia.
Qed.

Lemma pump_block_fields m st :
  let st' := fst (pump_block m st) in
  pump st' = pump_on_at m
  /\ pump_minutes_left st' = pump_left_at m
  /\ period_index st' = period_index st
  /\ white_red st' = white_red st
  /\ blue st' = blue st
  /\ period_minutes_left st' = period_minutes_left st.
Proof.
  unfold pump_block, pump_on_at, pump_left_at.
  unfold PUMP_TOTAL_MINUTES, PUMP_RUN_MINUTES, PUMP_WAIT_MINUTES.
  destruct (Z.ltb_spec (m mod (5 + 30)) 5), (pump st) eqn:Hp; cbn;
    rewrite ?Hp; repeat split;
    rewrite wrap_int_small, wrap_u32_small; unfold in_int;
    rewrite ?wrap_u32_small; lia.
Qed.

(** Once the pump fields hold the values of this minute, the block changes
    nothing and reports no change. *)
Lemma pump_block_settled m st :
  pump st = pump_on_at m ->
  pump_minutes_left st = pump_left_at m ->
  pump_block m st = (st, false).
Proof.
  intros Hp Hl. destruct st as [pi wr bl p pl ql]; cbn in Hp, Hl; subst p pl.
  pose proof (pump_left_at_range m) as Hr.
  unfold pump_block, pump_on_at, pump_left_at in *.
  unfold PUMP_TOTAL_MINUTES, PUMP_RUN_MINUTES, PUMP_WAIT_MINUTES in *.
  cbn [pump pump_minutes_left period_index white_red blue period_minutes_left].
  destruct (Z.ltb_spec (m mod (5 + 30)) 5); cbn [negb];
    rewrite !(wrap_u32_small (_ - _)) by lia;
    rewrite wrap_int_small by (unfold in_int; lia);
    rewrite Z.eqb_refl; reflexivity.
Qed.

(** ** Evaluating twice *)

Lemma calculate_state_twice ms mb profile st :
  snd (calculate_state ms mb profile (fst (calculate_state ms mb profile st)))
  = false.
Proof.
  unfold calculate_state.
  destruct (profile_total_minutes profile =? 0) eqn:Htot.
  - destruct (negb (white_red st =? 0) || negb (blue st =? 0)) eqn:Hc; cbn.
    + reflexivity.
    + rewrite Hc. reflexivity.
  - pose proof (pump_block_fields mb st) as Hf.
    destruct (pump_block mb st) as [st1 ret]. cbn in Hf.
    destruct Hf as (Hp & Hl & _).
    set (m := light_position (profile_total_minutes profile) ms).
    destruct (period_walk (periods profile) 0 0 m) as [[[i period] pend]|].
    + match goal with |- context [if ?c then _ else _] =>
        destruct c eqn:Hc end; cbn [fst].
      * rewrite pump_block_settled by assumption.
        cbn [white_red blue period_minutes_left period_index].
        rewrite wrap_u32_wrap_int, wrap_u32_idem, !Z.eqb_refl. reflexivity.
      * rewrite pump_block_settled by assumption. rewrite Hc. reflexivity.
    + match goal with |- context [if ?c then _ else _] =>
        destruct c eqn:Hc end; cbn [fst].
      * rewrite pump_block_settled by assumption. reflexivity.
      * rewrite pump_block_settled by assumption. rewrite Hc. reflexivity.
Qed.

(** ** The light schedule *)

Lemma sum_durations_bounds ps :
  Forall valid_period ps ->
  0 <= sum_durations ps <= 1440 * Z.of_nat (length ps).
Proof.
  induction 1 as [|p ps Hp _ IH]; cbn [sum_durations fold_right length].
  - lia.
  - fold (sum_durations ps). destruct Hp as (Hd & _). lia.
Qed.

Lemma total_minutes_sum ps acc :
  Forall valid_period ps ->
  0 <= acc ->
  acc + 1440 * Z.of_nat (length ps) < 4294967296 ->
  fold_left (fun total p => wrap_u32 (total + duration p)) ps acc
  = acc + sum_durations ps.
Proof.
  intros Hv; revert acc.
  induction Hv as [|p ps Hp Hv IH]; intros acc Hacc Hb;
    cbn [fold_left sum_durations fold_right length] in *.
  - lia.
  - fold (sum_durations ps). destruct Hp as (Hd & _).
    rewrite wrap_u32_small by lia. rewrite IH by lia. lia.
Qed.

Lemma profile_total_minutes_valid profile :
  valid_profile profile ->
  profile_total_minutes profile = sum_durations (periods profile).
Proof.
  intros (_ & Hlen & Hv). unfold profile_total_minutes.
  rewrite total_minutes_sum by (rewrite ?Hlen; auto; lia). lia.
Qed.

(** The walk from a slot on, when the position lies in the windows that are
    left: it stops at slot [k] of the rest, which is enabled and whose window
    holds the position, having passed only windows that end at or before it. *)
Lemma period_walk_finds rest :
  Forall valid_period rest ->
  forall i elapsed m,
    0 <= elapsed ->
    elapsed + 1440 * Z.of_nat (length rest) < 4294967296 ->
    elapsed <= m < elapsed + sum_durations rest ->
    exists (k : nat) (period : period_t),
      rest !! k = Some period
      /\ 0 < duration period
      /\ elapsed + window_start rest k <= m
         < elapsed + window_start rest k + duration period
      /\ period_walk rest i elapsed m
         = Some (i + Z.of_nat k, period,
                 elapsed + window_start rest k + duration period).
Proof.
  induction 1 as [|p rest Hp Hv IH]; intros i elapsed m He Hb Hm;
    cbn [sum_durations fold_right length period_walk] in *.
  - lia.
  - fold (sum_durations rest) in Hm. destruct (Hp) as (Hd & _).
    destruct (Z.eqb_spec (duration p) 0) as [H0|H0].
    + destruct (IH (i + 1) elapsed m) as (k & q & Hk & Hq & Hw & Hwalk);
        try lia.
      exists (S k), q. unfold window_start in *. cbn [firstn sum_durations fold_right].
      fold (sum_durations (firstn k rest)).
      repeat split; try assumption; try lia.
      rewrite Hwalk. do 3 f_equal; lia.
    + rewrite wrap_u32_small by lia.
      destruct (Z.ltb_spec m (elapsed + duration p)) as [Hlt|Hge].
      * exists 0%nat, p. unfold window_start. cbn.
        repeat split; try lia. do 3 f_equal; lia.
      * destruct (IH (i + 1) (elapsed + duration p) m)
          as (k & q & Hk & Hq & Hw & Hwalk); try lia.
        exists (S k), q. unfold window_start in *.
        cbn [firstn sum_durations fold_right].
        fold (sum_durations (firstn k rest)).
        repeat split; try assumption; try lia.
        rewrite Hwalk. do 3 f_equal; lia.
Qed.

(** Windows of earlier slots end at or before the start of a later one. *)
Lemma window_start_mono ps :
  Forall valid_period ps ->
  forall (j k : nat) (q : period_t),
    (j < k)%nat -> ps !! j = Some q ->
    window_start ps j + duration q <= window_start ps k.
Proof.
  unfold window_start.
  induction 1 as [|p ps Hp Hv IH]; intros j k q Hjk Hj.
  - discriminate.
  - destruct k as [|k]; [lia|]. destruct j as [|j]; cbn in Hj.
    + injection Hj as ->. cbn [firstn sum_durations fold_right].
      fold (sum_durations (firstn k ps)).
      pose proof (sum_durations_bounds (firstn k ps)) as Hb.
      assert (Forall valid_period (firstn k ps)) as Hf by (apply Forall_take, Hv).
      specialize (Hb Hf). lia.
    + cbn [firstn sum_durations fold_right].
      fold (sum_durations (firstn j ps)). fold (sum_durations (firstn k ps)).
      specialize (IH j k q ltac:(lia) Hj). lia.
Qed.

Lemma light_position_mod total ms :
  0 < total -> 0 <= ms -> light_position total ms = ms mod total.
Proof.
  intros Ht Hms. unfold light_position.
  destruct (Z.leb_spec total ms); [reflexivity|].
  symmetry. apply Z.mod_small. lia.
Qed.

Lemma calculate_state_pump ms mb profile st :
  profile_total_minutes profile <> 0 ->
  let st' := fst (calculate_state ms mb profile st) in
  pump st' = pump_on_at mb /\ pump_minutes_left st' = pump_left_at mb.
Proof.
  intros Htot. unfold calculate_state.
  destruct (Z.eqb_spec (profile_total_minutes profile) 0) as [|_]; [contradiction|].
  pose proof (pump_block_fields mb st) as Hf.
  destruct (pump_block mb st) as [st1 ret]. cbn in Hf.
  destruct Hf as (Hp & Hl & _).
  destruct (period_walk _ _ _ _) as [[[i period] pend]|];
    match goal with |- context [if ?c then _ else _] => destruct c end;
    cbn; auto.
Qed.

Lemma calculate_state_in_period ms mb profile st i period pend :
  profile_total_minutes profile <> 0 ->
  period_walk (periods profile) 0 0
    (light_position (profile_total_minutes profile) ms)
  = Some (i, period, pend) ->
  let st' := fst (calculate_state ms mb profile st) in
  period_index st' = i
  /\ white_red st' = led_white_red_power period
  /\ blue st' = led_blue_power period
  /\ (in_int (period_minutes_left st) ->
      0 <= pend - light_position (profile_total_minutes profile) ms
        < 2147483648 ->
      period_minutes_left st'
      = pend - light_position (profile_total_minutes profile) ms).
Proof.
  intros Htot Hwalk. unfold calculate_state.
  destruct (Z.eqb_spec (profile_total_minutes profile) 0) as [|_]; [contradiction|].
  pose proof (pump_block_fields mb st) as Hf.
  destruct (pump_block mb st) as [st1 ret]. cbn in Hf.
  destruct Hf as (_ & _ & Hi & Hw & Hb & Hq).
  rewrite Hwalk.
  set (m := light_position (profile_total_minutes profile) ms) in *.
  match goal with |- context [if ?c then _ else _] => destruct c eqn:Hc end;
    cbn [fst period_index white_red blue period_minutes_left].
  - repeat split. intros _ Hleft.
    rewrite (wrap_u32_small (pend - m)) by lia.
    apply wrap_int_small. unfold in_int; lia.
  - apply orb_false_elim in Hc as [Hc Hc4].
    apply orb_false_elim in Hc as [Hc Hc3].
    apply orb_false_elim in Hc as [Hc1 Hc2].
    apply negb_false_iff, Z.eqb_eq in Hc1, Hc2, Hc3, Hc4.
    repeat split; try assumption. intros Hint Hleft.
    rewrite (wrap_u32_small (pend - m)) in Hc3 by lia.
    rewrite Hq in *. unfold wrap_u32, in_int in *. lia.
Qed.

(** ** [app_calculate_state] on the globals *)

Lemma app_calculate_state_active now s profile :
  zlookup (profiles s) (current_profile s) = Some profile ->
  app_calculate_state now s
  = (set_current_app_state
       (fst (calculate_state (minutes_since now (app_start_time s))
                             (minutes_since now (app_start_time_without_shift s))
                             profile (current_app_state s))) s,
     snd (calculate_state (minutes_since now (app_start_time s))
                          (minutes_since now (app_start_time_without_shift s))
                          profile (current_app_state s))).
Proof.
  intros H. unfold app_calculate_state. rewrite H.
  destruct (calculate_state _ _ _ _); reflexivity.
Qed.

(** The engine writes nothing but [current_app_state]. *)
Lemma app_calculate_state_frame now s :
  let s' := fst (app_calculate_state now s) in
  profiles s' = profiles s
  /\ current_profile s' = current_profile s
  /\ app_start_time s' = app_start_time s
  /\ app_start_time_without_shift s' = app_start_time_without_shift s
  /\ current_app_mode s' = current_app_mode s
  /\ menu_profile_index s' = menu_profile_index s
  /\ current_edit_period_index s' = current_edit_period_index s
  /\ in_bootloader s' = in_bootloader s.
Proof.
  unfold app_calculate_state.
  destruct (zlookup _ _); [destruct (calculate_state _ _ _ _)|]; cbn; auto 10.
Qed.

(** C8: evaluating twice at the same clock reading, with the profiles
    untouched in between, reports no change the second time, whatever the
    profile and the previous output state; this holds for the body of the
    engine on any profile and for [app_calculate_state] on the globals. *)
Theorem evaluate_twice_unchanged :
  (forall (ms mb : Z) (profile : profile_t) (st : app_state_t),
      snd (calculate_state ms mb profile
             (fst (calculate_state ms mb profile st))) = false)
  /\ (forall (now : Z) (s : app_t),
         snd (app_calculate_state now (fst (app_calculate_state now s)))
         = false).
Proof.
  split; [exact calculate_state_twice|].
  intros now s.
  destruct (zlookup (profiles s) (current_profile s)) as [profile|] eqn:Hp.
  - rewrite (app_calculate_state_active now s profile Hp). cbn [fst].
    rewrite (app_calculate_state_active now _ profile) by exact Hp.
    cbn. apply calculate_state_twice.
  - unfold app_calculate_state. rewrite Hp. cbn. rewrite Hp. reflexivity.
Qed.

(** ** An empty profile *)

(** C3 (amended): when the durations of the active profile add up to 0, the
    engine leaves white-red and blue at 0, and it reports a change exactly
    when the previous white-red or blue power was not 0. *)
Theorem lights_off_when_no_duration
    (ms mb : Z) (profile : profile_t) (st : app_state_t) :
  profile_total_minutes profile = 0 ->
  white_red (fst (calculate_state ms mb profile st)) = 0
  /\ blue (fst (calculate_state ms mb profile st)) = 0
  /\ (snd (calculate_state ms mb profile st) = true
      <-> (white_red st <> 0 \/ blue st <> 0)).
Proof.
  intros Htot. unfold calculate_state. rewrite Htot. cbn [Z.eqb].
  destruct (Z.eqb_spec (white_red st) 0) as [Hw|Hw];
    destruct (Z.eqb_spec (blue st) 0) as [Hb|Hb]; cbn;
    repeat split; auto; try discriminate; intros [H|H]; congruence.
Qed.

Lemma lights_off_when_no_duration_witness :
  profile_total_minutes blank_profile = 0
  /\ white_red (fst (calculate_state 0 0 blank_profile
                       (mkAppState 0 (-1) (-1) false 0 0))) = 0
  /\ blue (fst (calculate_state 0 0 blank_profile
                  (mkAppState 0 (-1) (-1) false 0 0))) = 0
  /\ (snd (calculate_state 0 0 blank_profile
             (mkAppState 0 (-1) (-1) false 0 0)) = true
      <-> (white_red (mkAppState 0 (-1) (-1) false 0 0) <> 0
           \/ blue (mkAppState 0 (-1) (-1) false 0 0) <> 0)).
Proof.
  split; [reflexivity|].
  apply (lights_off_when_no_duration 0 0 blank_profile
           (mkAppState 0 (-1) (-1) false 0 0)).
  reflexivity.
Defined.

(** C3 as stated fails: with no duration in the profile the pump is not
    switched off.  Here the pump was running (minute 0 of its cycle) when the
    engine met a profile without durations; it is still on afterwards. *)
Lemma pump_not_switched_off_when_no_duration :
  sum_durations (periods blank_profile) = 0
  /\ profile_total_minutes blank_profile = 0
  /\ pump (fst (calculate_state 10 10 blank_profile
                  (mkAppState 0 100 100 true 5 840))) = true.
Proof. repeat split. Qed.

(** ** The active period *)

(** For a profile in its ranges with some duration, the walk stops in an
    enabled slot whose window holds the position, and the engine reports that
    slot with its powers. *)
Lemma calculate_state_light ms mb profile st :
  valid_profile profile ->
  0 < profile_total_minutes profile ->
  0 <= ms ->
  let ps := periods profile in
  let m := ms mod profile_total_minutes profile in
  let st' := fst (calculate_state ms mb profile st) in
  exists (k : nat) (period : period_t),
    ps !! k = Some period
    /\ 0 < duration period
    /\ window_start ps k <= m < window_start ps k + duration period
    /\ period_walk ps 0 0 (light_position (profile_total_minutes profile) ms)
       = Some (Z.of_nat k, period, window_start ps k + duration period)
    /\ period_index st' = Z.of_nat k
    /\ white_red st' = led_white_red_power period
    /\ blue st' = led_blue_power period
    /\ (in_int (period_minutes_left st) ->
        period_minutes_left st' = window_start ps k + duration period - m).
Proof.
  intros Hvalid Htot Hms ps m st'.
  pose proof Hvalid as (_ & Hlen & Hv).
  pose proof (profile_total_minutes_valid profile Hvalid) as Hsum.
  pose proof (light_position_mod _ ms Htot Hms) as Hpos.
  fold m in Hpos. fold ps in Hlen, Hv, Hsum.
  destruct (period_walk_finds ps Hv 0 0 m) as (k & period & Hk & Hd & Hw & Hwalk);
    [lia | rewrite Hlen; lia | subst m; rewrite <- Hsum; lia |].
  rewrite !Z.add_0_l in Hw, Hwalk.
  exists k, period.
  assert (Hd' : duration period <= 1440).
  { apply list_elem_of_lookup_2 in Hk.
    rewrite Forall_forall in Hv. apply Hv in Hk. destruct Hk as (? & _). lia. }
  destruct (calculate_state_in_period ms mb profile st (Z.of_nat k) period
              (window_start ps k + duration period))
    as (Hi & Hwr & Hbl & Hleft); [lia | rewrite Hpos; exact Hwalk |].
  rewrite Hpos in *.
  repeat split; try assumption; try lia.
  intros Hint. apply Hleft; [assumption | lia].
Qed.

Lemma minutes_since_nonneg now start : 0 <= minutes_since now start.
Proof. apply minutes_since_range. Qed.

(** C4: for a profile in its ranges whose durations add up to more than 0,
    at every clock reading, the engine reports the first enabled slot whose
    cumulative window contains [minutesSinceStart = elapsed minutes mod
    lightTotal] (elapsed minutes counted from the shiftable baseline), with
    that period's white-red and blue power and with [periodMinutesLeft =
    periodEnd - minutesSinceStart]; and for periods [480@(100,50),
    960@(0,0)] at [minutesSinceStart = 500] it reports period index 1,
    white-red 0, blue 0 and 940 minutes left. *)
Theorem light_schedule_selects_period :
  (forall (now : Z) (s : app_t) (profile : profile_t),
      zlookup (profiles s) (current_profile s) = Some profile ->
      valid_profile profile ->
      0 < profile_total_minutes profile ->
      in_int (period_minutes_left (current_app_state s)) ->
      reports_active_period (periods profile)
        (minutes_since now (app_start_time s) mod profile_total_minutes profile)
        (current_app_state (fst (app_calculate_state now s))))
  /\ (forall (mb : Z) (st : app_state_t),
         in_int (period_minutes_left st) ->
         let st' := fst (calculate_state 500 mb scenario_profile st) in
         period_index st' = 1 /\ white_red st' = 0 /\ blue st' = 0
         /\ period_minutes_left st' = 940).
Proof.
  split.
  - intros now s profile Hp Hvalid Htot Hint.
    rewrite (app_calculate_state_active now s profile Hp). cbn [fst].
    destruct (calculate_state_light (minutes_since now (app_start_time s))
                (minutes_since now (app_start_time_without_shift s))
                profile (current_app_state s) Hvalid Htot
                (minutes_since_nonneg _ _))
      as (k & period & Hk & Hd & Hw & _ & Hi & Hwr & Hbl & Hleft).
    exists k, period. repeat split; try assumption; try lia; auto.
    intros j q Hjk Hj (Hq & Hlo & Hhi).
    destruct Hvalid as (_ & _ & Hv).
    pose proof (window_start_mono (periods profile) Hv j k q Hjk Hj). lia.
  - intros mb st Hint.
    destruct (calculate_state_in_period 500 mb scenario_profile st 1
                (mkPeriod 960 0 0) 1440)
      as (Hi & Hwr & Hbl & Hleft); [discriminate | reflexivity |].
    cbn zeta. repeat split; try assumption.
    rewrite Hleft; [reflexivity | assumption |].
    change (light_position (profile_total_minutes scenario_profile) 500)
      with 500. lia.
Qed.

Lemma valid_scenario_profile : valid_profile scenario_profile.
Proof.
  repeat split; repeat constructor; cbn; lia.
Qed.

Lemma light_schedule_selects_period_witness :
  zlookup (profiles scenario_state) (current_profile scenario_state)
  = Some scenario_profile
  /\ valid_profile scenario_profile
  /\ 0 < profile_total_minutes scenario_profile
  /\ in_int (period_minutes_left (current_app_state scenario_state))
  /\ reports_active_period (periods scenario_profile)
       (minutes_since 30000000000 (app_start_time scenario_state)
          mod profile_total_minutes scenario_profile)
       (current_app_state
          (fst (app_calculate_state 30000000000 scenario_state))).
Proof.
  assert (H1 : zlookup (profiles scenario_state) (current_profile scenario_state)
               = Some scenario_profile) by reflexivity.
  assert (H2 : 0 < profile_total_minutes scenario_profile) by reflexivity.
  assert (H3 : in_int (period_minutes_left (current_app_state scenario_state)))
    by (cbn; unfold in_int; lia).
  refine (conj H1 (conj valid_scenario_profile (conj H2 (conj H3 _)))).
  exact (proj1 light_schedule_selects_period 30000000000 scenario_state
           scenario_profile H1 valid_scenario_profile H2 H3).
Defined.

(** C7: for a profile in its ranges whose durations add up to more than 0,
    at every clock reading, the second loop of the engine stops inside a slot
    (it never runs to its end, so the all-off fallback after it is not
    reached), and the period index it reports is that of a period with a
    strictly positive duration. *)
Theorem period_index_enabled (now : Z) (s : app_t) (profile : profile_t) :
  zlookup (profiles s) (current_profile s) = Some profile ->
  valid_profile profile ->
  0 < profile_total_minutes profile ->
  period_walk (periods profile) 0 0
    (light_position (profile_total_minutes profile)
                    (minutes_since now (app_start_time s))) <> None
  /\ exists period : period_t,
       zlookup (periods profile)
               (period_index (current_app_state (fst (app_calculate_state now s))))
       = Some period
       /\ 0 < duration period.
Proof.
  intros Hp Hvalid Htot.
  rewrite (app_calculate_state_active now s profile Hp). cbn [fst].
  destruct (calculate_state_light (minutes_since now (app_start_time s))
              (minutes_since now (app_start_time_without_shift s))
              profile (current_app_state s) Hvalid Htot
              (minutes_since_nonneg _ _))
    as (k & period & Hk & Hd & _ & Hwalk & Hi & _).
  split; [rewrite Hwalk; discriminate|].
  exists period. split; [|assumption].
  cbn [current_app_state set_current_app_state]. rewrite Hi.
  unfold zlookup. destruct (Z.ltb_spec (Z.of_nat k) 0); [lia|].
  rewrite Nat2Z.id. exact Hk.
Qed.

Lemma period_index_enabled_witness :
  zlookup (profiles scenario_state) (current_profile scenario_state)
  = Some scenario_profile
  /\ valid_profile scenario_profile
  /\ 0 < profile_total_minutes scenario_profile
  /\ period_walk (periods scenario_profile) 0 0
       (light_position (profile_total_minutes scenario_profile)
          (minutes_since 86400000000 (app_start_time scenario_state))) <> None
  /\ exists period : period_t,
       zlookup (periods scenario_profile)
         (period_index
            (current_app_state
               (fst (app_calculate_state 86400000000 scenario_state))))
       = Some period
       /\ 0 < duration period.
Proof.
  assert (H1 : zlookup (profiles scenario_state) (current_profile scenario_state)
               = Some scenario_profile) by reflexivity.
  assert (H2 : 0 < profile_total_minutes scenario_profile) by reflexivity.
  refine (conj H1 (conj valid_scenario_profile (conj H2 _))).
  exact (period_index_enabled 86400000000 scenario_state scenario_profile
           H1 valid_scenario_profile H2).
Defined.

(** ** The pump cadence *)

(** X1: with some duration in the active profile the pump fields follow the
    cadence counted from the unshifted baseline; neither the shiftable
    baseline nor the content of the profile enters. *)
Theorem pump_cadence_with_durations (now : Z) (s : app_t) (profile : profile_t) :
  zlookup (profiles s) (current_profile s) = Some profile ->
  profile_total_minutes profile <> 0 ->
  let boot_minutes := minutes_since now (app_start_time_without_shift s) in
  let st' := current_app_state (fst (app_calculate_state now s)) in
  pump st' = pump_on_at boot_minutes
  /\ pump_minutes_left st' = pump_left_at boot_minutes.
Proof.
  intros Hp Htot. rewrite (app_calculate_state_active now s profile Hp).
  cbn [fst current_app_state set_current_app_state].
  apply calculate_state_pump. exact Htot.
Qed.

Lemma pump_cadence_with_durations_witness :
  zlookup (profiles scenario_state) (current_profile scenario_state)
  = Some scenario_profile
  /\ profile_total_minutes scenario_profile <> 0
  /\ pump (current_app_state (fst (app_calculate_state 420000000 scenario_state)))
     = pump_on_at (minutes_since 420000000
                     (app_start_time_without_shift scenario_state))
  /\ pump_minutes_left
       (current_app_state (fst (app_calculate_state 420000000 scenario_state)))
     = pump_left_at (minutes_since 420000000
                       (app_start_time_without_shift scenario_state)).
Proof.
  assert (H1 : zlookup (profiles scenario_state) (current_profile scenario_state)
               = Some scenario_profile) by reflexivity.
  assert (H2 : profile_total_minutes scenario_profile <> 0) by discriminate.
  refine (conj H1 (conj H2 _)).
  exact (pump_cadence_with_durations 420000000 scenario_state scenario_profile
           H1 H2).
Defined.

(** C1 fails on a profile without durations: the engine returns before the
    pump block.  After CUSTOM 1 was made active while the pump was running,
    the tick ten minutes after boot finds the pump still on with 5 minutes
    left, and the pin still high, where the cadence has the pump off with 25
    minutes to go. *)
Theorem pump_frozen_without_durations :
  option_map profile_total_minutes
    (zlookup (profiles custom1_selected) (current_profile custom1_selected))
  = Some 0
  /\ minutes_since 600000000 (app_start_time_without_shift custom1_selected) = 10
  /\ pump_on_at 10 = false
  /\ pump_left_at 10 = 25
  /\ pump (current_app_state custom1_selected) = true
  /\ pump_minutes_left (current_app_state custom1_selected) = 5
  /\ gpio_pump custom1_selected = true.
Proof. vm_compute. repeat split. Qed.

(** ** The idle timeout *)

Lemma app_tick_not_idle now s :
  wrap_u64 (now - last_encoder_time s) <= IDLE_TIMEOUT_US ->
  current_app_mode s <> MODE_SHOW_STATE ->
  app_tick now s = s.
Proof.
  intros Hidle Hmode. unfold app_tick.
  destruct (Z.ltb_spec IDLE_TIMEOUT_US (wrap_u64 (now - last_encoder_time s)));
    [lia|].
  cbn [andb]. destruct (current_app_mode s); try reflexivity. contradiction.
Qed.

(** C2 fails between 10 and 60 seconds: the bound in [app_tick] is
    [10000 * 6000] microseconds.  Eleven seconds after the last rotation, in
    the duration editor, the tick changes nothing: the mode is still
    [MODE_EDIT_DURATION]. *)
Theorem idle_eleven_seconds_stays_in_editor :
  current_app_mode editing_duration = MODE_EDIT_DURATION
  /\ last_encoder_time editing_duration = 5000000
  /\ IDLE_TIMEOUT_US = 60000000
  /\ app_tick 16000000 editing_duration = editing_duration
  /\ current_app_mode (app_tick 16000000 editing_duration) = MODE_EDIT_DURATION.
Proof.
  assert (Hm : current_app_mode editing_duration = MODE_EDIT_DURATION)
    by (vm_compute; reflexivity).
  assert (Hl : last_encoder_time editing_duration = 5000000)
    by (vm_compute; reflexivity).
  assert (Ht : app_tick 16000000 editing_duration = editing_duration).
  { apply app_tick_not_idle.
    - rewrite Hl. vm_compute. discriminate.
    - rewrite Hm. discriminate. }
  refine (conj Hm (conj Hl (conj eq_refl (conj Ht _)))).
  rewrite Ht. exact Hm.
Qed.

(** X2: past the bound of [app_tick] the tick does what the idle policy says:
    from any other mode it goes to the state display, [menu_profile_index]
    becomes the active index, and the profiles keep every edit. *)
Theorem idle_timeout_returns_to_state (now : Z) (s : app_t) :
  IDLE_TIMEOUT_US < wrap_u64 (now - last_encoder_time s) ->
  current_app_mode s <> MODE_SHOW_STATE ->
  current_app_mode (app_tick now s) = MODE_SHOW_STATE
  /\ menu_profile_index (app_tick now s) = current_profile s
  /\ profiles (app_tick now s) = profiles s
  /\ current_profile (app_tick now s) = current_profile s.
Proof.
  intros Hidle Hmode. unfold app_tick.
  destruct (Z.ltb_spec IDLE_TIMEOUT_US (wrap_u64 (now - last_encoder_time s)));
    [|lia].
  assert (Hn : negb (app_mode_eqb (current_app_mode s) MODE_SHOW_STATE) = true)
    by (destruct (current_app_mode s); try reflexivity; contradiction).
  rewrite Hn. cbn [andb].
  set (s1 := app_redraw _).
  change (app_mode_eqb (current_app_mode s1) MODE_SHOW_STATE) with true.
  cbn match.
  pose proof (app_calculate_state_frame now s1) as Hf.
  destruct (app_calculate_state now s1) as [s2 changed]. cbn in Hf.
  destruct Hf as (Hp & Hc & _ & _ & Hm & Hi & _).
  destruct changed; cbn; rewrite ?Hp, ?Hc, ?Hm, ?Hi; auto.
Qed.

Lemma idle_timeout_returns_to_state_witness :
  IDLE_TIMEOUT_US < wrap_u64 (66000000 - last_encoder_time editing_duration)
  /\ current_app_mode editing_duration <> MODE_SHOW_STATE
  /\ current_app_mode (app_tick 66000000 editing_duration) = MODE_SHOW_STATE
  /\ menu_profile_index (app_tick 66000000 editing_duration)
     = current_profile editing_duration
  /\ profiles (app_tick 66000000 editing_duration) = profiles editing_duration
  /\ current_profile (app_tick 66000000 editing_duration)
     = current_profile editing_duration.
Proof.
  assert (H1 : IDLE_TIMEOUT_US
               < wrap_u64 (66000000 - last_encoder_time editing_duration))
    by (vm_compute; reflexivity).
  assert (H2 : current_app_mode editing_duration <> MODE_SHOW_STATE)
    by (vm_compute; discriminate).
  refine (conj H1 (conj H2 _)).
  exact (idle_timeout_returns_to_state 66000000 editing_duration H1 H2).
Defined.

(** ** Index safety of the navigation state machine *)

Lemma zlookup_Some {A : Type} (l : list A) (i : Z) :
  0 <= i < Z.of_nat (length l) -> exists x, zlookup l i = Some x.
Proof.
  intros Hi. unfold zlookup. destruct (Z.ltb_spec i 0); [lia|].
  apply lookup_lt_is_Some_2. lia.
Qed.

Lemma zlookup_bounds {A : Type} (l : list A) (i : Z) (x : A) :
  zlookup l i = Some x -> 0 <= i < Z.of_nat (length l).
Proof.
  unfold zlookup. destruct (Z.ltb_spec i 0) as [Hneg|Hpos]; [discriminate|].
  intros Hx. apply lookup_lt_Some in Hx. lia.
Qed.

Lemma zlookup_zinsert {A : Type} (l : list A) (i : Z) (x y : A) :
  zlookup l i = Some y -> zlookup (zinsert i x l) i = Some x.
Proof.
  intros H. pose proof (zlookup_bounds l i y H) as Hb.
  unfold zlookup, zinsert in *. destruct (Z.ltb_spec i 0); [lia|].
  apply list_lookup_insert_eq. lia.
Qed.

Lemma length_zinsert {A : Type} (l : list A) (i : Z) (x : A) :
  length (zinsert i x l) = length l.
Proof.
  unfold zinsert. destruct (i <? 0); [reflexivity|]. apply length_insert.
Qed.

Lemma Forall_zinsert {A : Type} (P : A -> Prop) (l : list A) (i : Z) (x : A) :
  Forall P l -> P x -> Forall P (zinsert i x l).
Proof.
  intros Hl Hx. unfold zinsert. destruct (i <? 0); [assumption|].
  apply Forall_insert; assumption.
Qed.

Lemma zlookup_elem {A : Type} (l : list A) (i : Z) (x : A) :
  zlookup l i = Some x -> x ∈ l.
Proof.
  unfold zlookup. destruct (i <? 0); [discriminate|].
  apply list_elem_of_lookup_2.
Qed.

Lemma well_shaped_store p s :
  well_shaped (profiles s) -> well_shaped (profiles (store_edited_period p s)).
Proof.
  intros (Hlen & Hall). unfold store_edited_period.
  destruct (zlookup (profiles s) (current_profile s)) as [profile|] eqn:Hp;
    [|split; assumption].
  cbn [profiles set_profiles]. split.
  - rewrite length_zinsert. exact Hlen.
  - apply Forall_zinsert; [assumption|]. cbn [periods].
    rewrite length_zinsert.
    rewrite Forall_forall in Hall. apply Hall.
    eapply zlookup_elem. exact Hp.
Qed.

Lemma well_shaped_loaded bs : well_shaped (profiles_of_bytes bs).
Proof.
  split; [reflexivity|]. unfold profiles_of_bytes.
  repeat constructor.
Qed.

Lemma well_shaped_factory : well_shaped factory_profiles.
Proof. split; [reflexivity|]. repeat constructor. Qed.

(** In a state of the invariant the edit handlers find their period. *)
Lemma edited_period_in_bounds s :
  nav_invariant s ->
  0 <= current_edit_period_index s ->
  exists period, edited_period s = Some period.
Proof.
  intros ((Hi & _) & Hc & _ & Hlen & Hall) H0. unfold edited_period.
  unfold MAX_PROFILES in Hc.
  destruct (zlookup_Some (profiles s) (current_profile s)) as [profile Hp];
    [lia|].
  rewrite Hp. apply zlookup_Some.
  rewrite Forall_forall in Hall.
  rewrite (Hall profile); [lia|].
  eapply zlookup_elem. exact Hp.
Qed.

(** Tactics for the handlers: case analysis on every test of the source,
    the tests turned into arithmetic facts, the fields of the updated record
    computed. *)
Ltac break_ifs :=
  repeat match goal with
  | |- context [if ?c then _ else _] => destruct c eqn:?
  end.

Ltac bool_to_prop :=
  repeat match goal with
  | H : negb _ = true |- _ => apply negb_true_iff in H
  | H : negb _ = false |- _ => apply negb_false_iff in H
  | H : (_ || _) = false |- _ => apply orb_false_elim in H; destruct H
  | H : (_ && _) = true |- _ => apply andb_prop in H; destruct H
  | H : (_ <? _) = true |- _ => apply Z.ltb_lt in H
  | H : (_ <? _) = false |- _ => apply Z.ltb_ge in H
  | H : (_ <=? _) = true |- _ => apply Z.leb_le in H
  | H : (_ <=? _) = false |- _ => apply Z.leb_gt in H
  | H : (_ =? _) = true |- _ => apply Z.eqb_eq in H
  | H : (_ =? _) = false |- _ => apply Z.eqb_neq in H
  end.

Ltac simpl_fields :=
  cbn [profiles current_profile app_start_time app_start_time_without_shift
       last_encoder_time current_app_state current_app_mode menu_profile_index
       current_edit_period_index current_edit_value current_top_menu_action
       time_shift_hours flash_buffer flash_sector gpio_pump pwm_white_red
       pwm_blue redraws in_bootloader
       set_profiles set_current_profile set_app_start_time
       set_app_start_time_without_shift set_last_encoder_time
       set_current_app_state set_current_app_mode set_menu_profile_index
       set_current_edit_period_index set_current_edit_value
       set_current_top_menu_action set_time_shift_hours set_flash set_outputs
       set_redraws set_in_bootloader edits_a_period] in *.

Ltac nav_goal :=
  first
    [ assumption
    | lia
    | discriminate
    | apply well_shaped_store; assumption
    | apply well_shaped_loaded
    | match goal with
      | H : current_app_mode ?s = _ |- context [current_app_mode ?s] =>
          rewrite H; cbn; first [ discriminate | intros _; lia | lia ]
      end
    | intros _; lia
    | intros; lia ].

Ltac nav_crush :=
  unfold nav_invariant, index_safe, MAX_PROFILES, MAX_PERIODS,
         EDIT_BACK, EDIT_FIRST, EDIT_LAST, EDIT_WR_LEVEL, EDIT_BL_LEVEL, EDIT_DURATION,
         TOP_MENU_FIRST, TOP_MENU_LAST, TOP_MENU_FLASH in *;
  intros; break_ifs;
  try match goal with
      | Hm : current_app_mode ?s = _ |- _ => rewrite Hm in *
      end;
  simpl_fields; bool_to_prop;
  repeat match goal with
  | H : _ /\ _ |- _ => destruct H
  | H : true = true -> _ |- _ => specialize (H eq_refl)
  | H : false = true -> _ |- _ => clear H
  end;
  (refine (conj (conj _ _) (conj _ (conj _ _))); nav_goal).

Lemma nav_redraw s : nav_invariant s -> nav_invariant (app_redraw s).
Proof. unfold app_redraw. nav_crush. Qed.

Lemma nav_apply s : nav_invariant s -> nav_invariant (app_apply_state s).
Proof. unfold app_apply_state. nav_crush. Qed.

Lemma nav_show_profile d s : nav_invariant s -> nav_invariant (app_encoder_show_profile d s).
Proof. unfold app_encoder_show_profile, app_redraw. nav_crush. Qed.

Lemma nav_edit_profile d s : current_app_mode s = MODE_EDIT_PROFILE -> nav_invariant s -> nav_invariant (app_encoder_edit_profile d s).
Proof. unfold app_encoder_edit_profile, app_redraw. nav_crush. Qed.

Lemma nav_edit_period d s : nav_invariant s -> nav_invariant (app_encoder_edit_period d s).
Proof. unfold app_encoder_edit_period, app_redraw. nav_crush. Qed.

Lemma nav_time_shift d s : nav_invariant s -> nav_invariant (app_encoder_time_shift d s).
Proof. unfold app_encoder_time_shift, app_redraw. nav_crush. Qed.

Lemma nav_top_menu d s : current_app_mode s = MODE_TOP_MENU -> nav_invariant s -> nav_invariant (app_encoder_top_menu d s).
Proof. unfold app_encoder_top_menu, app_redraw. nav_crush. Qed.


Lemma nav_invariant_ext s s' :
  current_edit_period_index s' = current_edit_period_index s ->
  current_app_mode s' = current_app_mode s ->
  current_profile s' = current_profile s ->
  menu_profile_index s' = menu_profile_index s ->
  well_shaped (profiles s') ->
  nav_invariant s -> nav_invariant s'.
Proof.
  unfold nav_invariant, index_safe. intros -> -> -> -> Hw (Hi & Hc & Hm & _).
  auto.
Qed.

Lemma store_edited_period_frame p s :
  let s' := store_edited_period p s in
  current_edit_period_index s' = current_edit_period_index s
  /\ current_app_mode s' = current_app_mode s
  /\ current_profile s' = current_profile s
  /\ menu_profile_index s' = menu_profile_index s
  /\ current_edit_value s' = current_edit_value s
  /\ current_top_menu_action s' = current_top_menu_action s
  /\ time_shift_hours s' = time_shift_hours s
  /\ redraws s' = redraws s
  /\ in_bootloader s' = in_bootloader s.
Proof.
  unfold store_edited_period. destruct (zlookup _ _); cbn; auto 10.
Qed.

Ltac nav_edit :=
  intros Hinv;
  match goal with
  | |- nav_invariant (match edited_period ?s with _ => _ end) =>
      destruct (edited_period s); [|exact Hinv]
  end;
  break_ifs;
  try exact Hinv;
  (eapply nav_invariant_ext; [ .. | exact Hinv ]);
  cbn;
  try apply store_edited_period_frame;
  try reflexivity;
  try (apply well_shaped_store);
  try apply Hinv.

Lemma nav_edit_duration d s : nav_invariant s -> nav_invariant (app_encoder_edit_duration d s).
Proof. unfold app_encoder_edit_duration, app_redraw. nav_edit. Qed.

Lemma nav_edit_wr d s : nav_invariant s -> nav_invariant (app_encoder_edit_white_red_level d s).
Proof. unfold app_encoder_edit_white_red_level, app_redraw, app_apply_state. nav_edit. Qed.

Lemma nav_edit_bl d s : nav_invariant s -> nav_invariant (app_encoder_edit_blue_level d s).
Proof. unfold app_encoder_edit_blue_level, app_redraw, app_apply_state. nav_edit. Qed.

Lemma nav_calculate now s :
  nav_invariant s -> nav_invariant (fst (app_calculate_state now s)).
Proof.
  intros Hinv. pose proof (app_calculate_state_frame now s) as Hf.
  cbn zeta in Hf. destruct Hf as (Hp & Hc & _ & _ & Hm & Hi & He & _).
  eapply nav_invariant_ext; [ .. | exact Hinv]; try assumption.
  rewrite Hp. apply Hinv.
Qed.

Lemma nav_on_encoder_change now d s :
  nav_invariant s -> nav_invariant (app_on_encoder_change now d s).
Proof.
  intros Hinv. unfold app_on_encoder_change.
  destruct (d =? 0); [exact Hinv|].
  assert (Hinv' : nav_invariant (set_last_encoder_time now s)) by exact Hinv.
  destruct (current_app_mode (set_last_encoder_time now s)) eqn:Hm;
    auto using nav_show_profile, nav_edit_profile, nav_edit_period,
      nav_edit_duration, nav_edit_wr, nav_edit_bl, nav_top_menu, nav_time_shift.
Qed.

Lemma nav_tick now s : nav_invariant s -> nav_invariant (app_tick now s).
Proof.
  intros Hinv. unfold app_tick.
  match goal with |- context [if ?c then ?a else s] =>
    assert (Hs1 : nav_invariant (if c then a else s));
    [ destruct c; [|exact Hinv] | generalize dependent (if c then a else s) ]
  end.
  - revert Hinv. unfold app_redraw. nav_crush.
  - intros s1 Hs1. destruct (app_mode_eqb (current_app_mode s1) MODE_SHOW_STATE);
      [|exact Hs1].
    pose proof (nav_calculate now s1 Hs1) as Hc.
    destruct (app_calculate_state now s1) as [s2 changed]. cbn in Hc.
    destruct changed; [|exact Hc].
    apply nav_redraw, nav_apply, Hc.
Qed.

Lemma nav_save s : nav_invariant s -> nav_invariant (app_save_profiles s).
Proof. unfold app_save_profiles, app_redraw. nav_crush. Qed.

Lemma nav_reload ui s : nav_invariant s -> nav_invariant (app_reload_profiles ui s).
Proof. unfold app_reload_profiles, app_redraw. nav_crush. Qed.

Lemma nav_on_click now s : nav_invariant s -> nav_invariant (app_on_click now s).
Proof.
  intros Hinv. unfold app_on_click.
  assert (Hinv0 : nav_invariant (set_last_encoder_time now s)) by exact Hinv.
  cbv zeta.
  generalize dependent (set_last_encoder_time now s). clear Hinv s.
  intros s Hinv.
  match goal with |- nav_invariant (if in_bootloader ?b then _ else _) =>
    assert (Hbody : nav_invariant b);
    [ | destruct (in_bootloader b); [exact Hbody | apply nav_redraw, Hbody] ]
  end.
  destruct (current_app_mode s) eqn:Hm.
  - revert Hinv. nav_crush.
  - destruct (negb (menu_profile_index s =? current_profile s)); [|exact Hinv].
    apply nav_apply, nav_calculate. revert Hinv. nav_crush.
  - destruct (current_edit_period_index s =? -1) eqn:Hidx.
    + revert Hinv. nav_crush.
    + assert (Hinv1 : nav_invariant
                (set_current_edit_value EDIT_BACK
                   (set_current_app_mode MODE_EDIT_PERIOD s)))
        by (revert Hinv; nav_crush).
      destruct (edited_period _); [|exact Hinv1].
      apply nav_apply. exact Hinv1.
  - revert Hinv. nav_crush.
  - revert Hinv. nav_crush.
  - revert Hinv. nav_crush.
  - revert Hinv. nav_crush.
  - break_ifs; try exact Hinv.
    + apply nav_save, Hinv.
    + apply nav_reload, Hinv.
    + revert Hinv. nav_crush.
  - destruct (negb (time_shift_hours (set_current_app_mode MODE_TOP_MENU s) =? 0)).
    + apply nav_calculate. revert Hinv. nav_crush.
    + revert Hinv. nav_crush.
Qed.

Lemma nav_power_on flash : nav_invariant (power_on flash).
Proof.
  unfold nav_invariant, index_safe; cbn.
  refine (conj (conj _ _) (conj _ (conj _ _)));
    first [ unfold MAX_PROFILES; lia
          | apply well_shaped_factory
          | intros H; discriminate H ].
Qed.

Lemma nav_init now s : nav_invariant s -> nav_invariant (app_init now s).
Proof.
  intros Hinv. unfold app_init. apply nav_tick, nav_reload.
  revert Hinv. nav_crush.
Qed.

Lemma nav_step now e s : nav_invariant s -> nav_invariant (step now e s).
Proof.
  intros Hinv. unfold step. destruct (in_bootloader s); [exact Hinv|].
  destruct e; auto using nav_on_encoder_change, nav_on_click, nav_tick.
Qed.

Lemma reachable_nav_invariant s : reachable s -> nav_invariant s.
Proof.
  induction 1 as [flash now | s now e _ IH].
  - apply nav_init, nav_power_on.
  - apply nav_step, IH.
Qed.

Lemma reachable_run evs s : reachable s -> reachable (run evs s).
Proof.
  revert s. unfold run.
  induction evs as [|[now e] evs IH]; intros s Hs; cbn [fold_left].
  - exact Hs.
  - apply IH. apply reachable_step. exact Hs.
Qed.

(** C9: in every state reachable from start-up by rotations, clicks and
    ticks, [current_edit_period_index] lies in [-1, 5]; and whenever the mode
    is one of [MODE_EDIT_PERIOD], [MODE_EDIT_DURATION], [MODE_EDIT_WR_LEVEL],
    [MODE_EDIT_BL_LEVEL] it lies in [0, 5], and the period the duration and
    power handlers work on, [profiles[current_profile].periods[index]], is
    inside both arrays. *)
Theorem edit_index_in_bounds (s : app_t) :
  reachable s ->
  -1 <= current_edit_period_index s <= 5
  /\ (edits_a_period (current_app_mode s) = true ->
      0 <= current_edit_period_index s <= 5
      /\ exists period : period_t, edited_period s = Some period).
Proof.
  intros Hr. pose proof (reachable_nav_invariant s Hr) as Hinv.
  pose proof Hinv as ((Hi & He) & _).
  split; [exact Hi|]. intros Hm. specialize (He Hm).
  split; [exact He|]. apply edited_period_in_bounds; [exact Hinv | lia].
Qed.

Lemma edit_index_in_bounds_witness :
  reachable editing_duration
  /\ -1 <= current_edit_period_index editing_duration <= 5
  /\ (edits_a_period (current_app_mode editing_duration) = true ->
      0 <= current_edit_period_index editing_duration <= 5
      /\ exists period : period_t,
           edited_period editing_duration = Some period).
Proof.
  assert (H1 : reachable editing_duration)
    by (apply reachable_run, reachable_init).
  exact (conj H1 (edit_index_in_bounds editing_duration H1)).
Defined.

(** ** Redraws on rotation *)

Lemma edited_period_store p q s :
  edited_period s = Some q ->
  edited_period (store_edited_period p s) = Some p.
Proof.
  unfold edited_period, store_edited_period.
  destruct (zlookup (profiles s) (current_profile s)) as [profile|] eqn:Hp;
    [|discriminate].
  intros Hq. cbn [profiles current_profile current_edit_period_index set_profiles].
  rewrite (zlookup_zinsert _ _ _ _ Hp). cbn [periods].
  exact (zlookup_zinsert _ _ _ _ Hq).
Qed.

(** A stored period that differs from the one read changes [profiles]. *)
Lemma store_changes_profiles p q s :
  edited_period s = Some q -> p <> q ->
  profiles (store_edited_period p s) <> profiles s.
Proof.
  intros Hq Hne Heq. pose proof (edited_period_store p q s Hq) as Hs.
  pose proof (store_edited_period_frame p s) as Hf. cbn zeta in Hf.
  destruct Hf as (Hi & _ & Hc & _).
  unfold edited_period in Hs, Hq. rewrite Heq, Hc, Hi in Hs.
  rewrite Hq in Hs. congruence.
Qed.

Lemma edit_profile_redraw d s :
  current_edit_period_index (app_encoder_edit_profile d s)
  = current_edit_period_index s ->
  redraws (app_encoder_edit_profile d s) = redraws s.
Proof.
  unfold app_encoder_edit_profile, app_redraw.
  break_ifs; simpl_fields; bool_to_prop; intros; try reflexivity; lia.
Qed.

Lemma edit_period_redraw d s :
  current_edit_value (app_encoder_edit_period d s) = current_edit_value s ->
  redraws (app_encoder_edit_period d s) = redraws s.
Proof.
  unfold app_encoder_edit_period, app_redraw.
  break_ifs; simpl_fields; bool_to_prop; intros; try reflexivity; lia.
Qed.

Lemma time_shift_redraw d s :
  time_shift_hours (app_encoder_time_shift d s) = time_shift_hours s ->
  redraws (app_encoder_time_shift d s) = redraws s.
Proof.
  unfold app_encoder_time_shift, app_redraw.
  break_ifs; simpl_fields; bool_to_prop; intros; try reflexivity; lia.
Qed.

Ltac store_redraw :=
  match goal with
  | |- context [match edited_period ?s with _ => _ end] =>
      destruct (edited_period s) as [[? ? ?]|] eqn:?; [|reflexivity]
  end;
  match goal with
  | |- context [if negb (?a =? ?b) then _ else _] =>
      destruct (Z.eqb_spec a b); cbn [negb]; [reflexivity|]
  end;
  simpl_fields; intros; exfalso;
  match goal with
  | Hq : edited_period _ = Some _, Hsame : profiles _ = profiles _ |- _ =>
      eapply store_changes_profiles; [exact Hq | | exact Hsame]
  end;
  cbn in *; congruence.

Lemma edit_duration_redraw d s :
  profiles (app_encoder_edit_duration d s) = profiles s ->
  redraws (app_encoder_edit_duration d s) = redraws s.
Proof. unfold app_encoder_edit_duration, app_redraw. store_redraw. Qed.

Lemma edit_white_red_redraw d s :
  profiles (app_encoder_edit_white_red_level d s) = profiles s ->
  redraws (app_encoder_edit_white_red_level d s) = redraws s.
Proof.
  unfold app_encoder_edit_white_red_level, app_redraw, app_apply_state.
  store_redraw.
Qed.

Lemma edit_blue_redraw d s :
  profiles (app_encoder_edit_blue_level d s) = profiles s ->
  redraws (app_encoder_edit_blue_level d s) = redraws s.
Proof.
  unfold app_encoder_edit_blue_level, app_redraw, app_apply_state.
  store_redraw.
Qed.

(** C6 as stated fails in the state display: a rotation by five steps wraps
    the browsed index from 0 back to 0, so that no variable of the
    application differs afterwards (the rotation arrives at the clock reading
    already stored as the last input), and [app_redraw] is called all the
    same. *)
Lemma rotation_without_change_redraws :
  current_app_mode fresh_start = MODE_SHOW_STATE
  /\ menu_profile_index fresh_start = 0
  /\ last_encoder_time fresh_start = 0
  /\ app_on_encoder_change 0 5 fresh_start
     = set_redraws (S (redraws fresh_start)) fresh_start
  /\ redraws (app_on_encoder_change 0 5 fresh_start) <> redraws fresh_start.
Proof.
  assert (H : app_on_encoder_change 0 5 fresh_start
              = set_redraws (S (redraws fresh_start)) fresh_start)
    by (vm_compute; reflexivity).
  refine (conj eq_refl (conj eq_refl (conj eq_refl (conj H _)))).
  rewrite H. cbn [redraws set_redraws]. lia.
Qed.

(** C6 (amended): in the modes [MODE_EDIT_PROFILE], [MODE_EDIT_PERIOD],
    [MODE_EDIT_DURATION], [MODE_EDIT_WR_LEVEL], [MODE_EDIT_BL_LEVEL] and
    [MODE_TIME_SHIFT] a rotation that leaves the navigation state and the
    profiles as they were calls no redraw; in [MODE_SHOW_STATE],
    [MODE_SHOW_PROFILE] and [MODE_TOP_MENU] every rotation by a non-zero
    delta calls the redraw once, changed or not. *)
Theorem rotation_redraws (now delta : Z) (s : app_t) :
  (redraw_guarded (current_app_mode s) = true ->
   same_nav_and_profiles s (app_on_encoder_change now delta s) ->
   redraws (app_on_encoder_change now delta s) = redraws s)
  /\ (redraw_guarded (current_app_mode s) = false ->
      delta <> 0 ->
      redraws (app_on_encoder_change now delta s) = S (redraws s)).
Proof.
  unfold app_on_encoder_change.
  destruct (Z.eqb_spec delta 0) as [Hz|Hz].
  - split; [reflexivity | contradiction].
  - change (current_app_mode (set_last_encoder_time now s))
      with (current_app_mode s).
    destruct (current_app_mode s) eqn:Hm; cbn [redraw_guarded]; split;
      try discriminate; intros Hg Hsame.
    + unfold app_encoder_show_profile, app_redraw. break_ifs; reflexivity.
    + unfold app_encoder_show_profile, app_redraw. break_ifs; reflexivity.
    + destruct Hsame as (_ & _ & _ & _ & Hi & _).
      exact (edit_profile_redraw delta (set_last_encoder_time now s) Hi).
    + destruct Hsame as (_ & _ & _ & _ & _ & Hv & _).
      exact (edit_period_redraw delta (set_last_encoder_time now s) Hv).
    + destruct Hsame as (Hp & _).
      exact (edit_white_red_redraw delta (set_last_encoder_time now s) Hp).
    + destruct Hsame as (Hp & _).
      exact (edit_blue_redraw delta (set_last_encoder_time now s) Hp).
    + destruct Hsame as (Hp & _).
      exact (edit_duration_redraw delta (set_last_encoder_time now s) Hp).
    + unfold app_encoder_top_menu, app_redraw. break_ifs; reflexivity.
    + destruct Hsame as (_ & _ & _ & _ & _ & _ & _ & Ht).
      exact (time_shift_redraw delta (set_last_encoder_time now s) Ht).
Qed.

Lemma rotation_redraws_witness :
  redraw_guarded (current_app_mode browsing_periods) = true
  /\ same_nav_and_profiles browsing_periods
       (app_on_encoder_change 2000000 7 browsing_periods)
  /\ redraws (app_on_encoder_change 2000000 7 browsing_periods)
     = redraws browsing_periods.
Proof.
  assert (H1 : redraw_guarded (current_app_mode browsing_periods) = true)
    by (vm_compute; reflexivity).
  assert (H2 : same_nav_and_profiles browsing_periods
                 (app_on_encoder_change 2000000 7 browsing_periods))
    by (vm_compute; repeat apply conj; reflexivity).
  refine (conj H1 (conj H2 _)).
  exact (proj1 (rotation_redraws 2000000 7 browsing_periods) H1 H2).
Defined.

(** ** Persistence *)

Lemma int_of_bytes_of_int z : in_int z -> int_of_bytes (bytes_of_int z) = z.
Proof.
  intros Hz. unfold int_of_bytes, bytes_of_int. rewrite le_combine_split.
  change (2 ^ (Z.of_nat 4 * 8)) with 4294967296.
  unfold wrap_int, in_int in *. lia.
Qed.

Lemma length_bytes_of_int z : length (bytes_of_int z) = 4%nat.
Proof. apply length_le_split. Qed.

Lemma slice_app_skip (pre l : list byte) (off len : nat) :
  slice (length pre + off) len (pre ++ l) = slice off len l.
Proof. unfold slice. rewrite drop_app_add. reflexivity. Qed.

Lemma slice_head (c rest : list byte) : slice 0 (length c) (c ++ rest) = c.
Proof. unfold slice. cbn [skipn]. apply take_app_length. Qed.

(** A region made of chunks of [n] bytes: chunk [k] starts at [n * k]. *)
Lemma slice_chunk (n : nat) (chunks : list (list byte)) :
  Forall (fun c => length c = n) chunks ->
  forall (k : nat) (c rest : list byte),
    chunks !! k = Some c ->
    slice (n * k) n (concat chunks ++ rest) = c.
Proof.
  induction 1 as [|c0 chunks Hc0 _ IH]; intros k c rest Hk.
  - discriminate.
  - cbn [concat]. rewrite <- app_assoc. destruct k as [|k]; cbn in Hk.
    + injection Hk as ->. rewrite Nat.mul_0_r. subst n. apply slice_head.
    + replace (n * S k)%nat with (length c0 + n * k)%nat by lia.
      rewrite slice_app_skip. apply IH. exact Hk.
Qed.

Lemma length_bytes_of_period q : length (bytes_of_period q) = 12%nat.
Proof.
  unfold bytes_of_period. rewrite !length_app, !length_bytes_of_int.
  reflexivity.
Qed.

Lemma slice_head_n (c rest : list byte) (n : nat) :
  length c = n -> slice 0 n (c ++ rest) = c.
Proof. intros <-. apply slice_head. Qed.

Lemma slice_app_skip_n (pre l : list byte) (n off len : nat) :
  length pre = n -> slice (n + off) len (pre ++ l) = slice off len l.
Proof. intros <-. apply slice_app_skip. Qed.

Lemma period_of_bytes_of_period q :
  int_period q -> period_of_bytes (bytes_of_period q) = q.
Proof.
  intros (Hd & Hw & Hb). destruct q as [d w b]; cbn in Hd, Hw, Hb.
  unfold period_of_bytes, bytes_of_period.
  cbn [duration led_white_red_power led_blue_power].
  set (bd := bytes_of_int d). set (bw := bytes_of_int w).
  set (bb := bytes_of_int b).
  assert (Ld : length bd = 4%nat) by apply length_bytes_of_int.
  assert (Lw : length bw = 4%nat) by apply length_bytes_of_int.
  assert (Lb : length bb = 4%nat) by apply length_bytes_of_int.
  assert (E0 : slice 0 4 (bd ++ bw ++ bb) = bd) by (apply slice_head_n, Ld).
  assert (E1 : slice 4 4 (bd ++ bw ++ bb) = bw).
  { etransitivity; [exact (slice_app_skip_n bd (bw ++ bb) 4 0 4 Ld)|].
    apply slice_head_n, Lw. }
  assert (E2 : slice 8 4 (bd ++ bw ++ bb) = bb).
  { etransitivity; [exact (slice_app_skip_n bd (bw ++ bb) 4 4 4 Ld)|].
    etransitivity; [exact (slice_app_skip_n bw bb 4 0 4 Lw)|].
    rewrite <- (app_nil_r bb) at 1. apply slice_head_n, Lb. }
  rewrite E0, E1, E2. subst bd bw bb.
  rewrite !int_of_bytes_of_int by assumption. reflexivity.
Qed.

Lemma length_bytes_of_profile p :
  representable p -> length (bytes_of_profile p) = 88%nat.
Proof.
  intros (Hn & Hl & _). unfold bytes_of_profile. rewrite length_app, Hn.
  destruct (periods p) as [|q0 [|q1 [|q2 [|q3 [|q4 [|q5 [|]]]]]]];
    try discriminate.
  cbn [map concat]. rewrite !length_app, !length_bytes_of_period. reflexivity.
Qed.

(** Chunk [k] of a region that starts after [off] bytes. *)
Lemma slice_chunk_after (pre : list byte) (off n : nat)
    (chunks : list (list byte)) (k : nat) (c rest : list byte) :
  length pre = off ->
  Forall (fun c => length c = n) chunks ->
  chunks !! k = Some c ->
  slice (off + n * k) n (pre ++ concat chunks ++ rest) = c.
Proof.
  intros <- Hall Hk. rewrite slice_app_skip. apply slice_chunk; assumption.
Qed.

Lemma profile_of_bytes_of_profile p rest :
  representable p -> profile_of_bytes (bytes_of_profile p ++ rest) = p.
Proof.
  intros (Hn & Hl & Hall). destruct p as [nm ps]; cbn in Hn, Hl, Hall.
  unfold profile_of_bytes, bytes_of_profile. cbn [name periods].
  rewrite <- app_assoc. f_equal.
  - apply slice_head_n, Hn.
  - assert (Hc : Forall (fun c => length c = 12%nat) (map bytes_of_period ps))
      by (apply Forall_map, Forall_forall; intros; apply length_bytes_of_period).
    destruct ps as [|q0 [|q1 [|q2 [|q3 [|q4 [|q5 [|]]]]]]]; try discriminate.
    cbn [seq map].
    repeat match goal with
    | |- context [slice (16 + 12 * ?k) 12 (nm ++ concat ?cs ++ rest)] =>
        rewrite (slice_chunk_after nm 16 12 cs k _ rest Hn Hc eq_refl)
    end.
    inversion Hall as [|? ? H0 Hall1]; subst.
    inversion Hall1 as [|? ? H1 Hall2]; subst.
    inversion Hall2 as [|? ? H2 Hall3]; subst.
    inversion Hall3 as [|? ? H3 Hall4]; subst.
    inversion Hall4 as [|? ? H4 Hall5]; subst.
    inversion Hall5 as [|? ? H5 _]; subst.
    rewrite !period_of_bytes_of_period by assumption. reflexivity.
Qed.

Lemma length_bytes_of_profiles ps :
  length ps = 5%nat -> Forall representable ps ->
  length (bytes_of_profiles ps) = 440%nat.
Proof.
  intros Hl Hall. unfold bytes_of_profiles.
  destruct ps as [|p0 [|p1 [|p2 [|p3 [|p4 [|]]]]]]; try discriminate.
  cbn [map concat]. rewrite !length_app.
  repeat match goal with
  | H : Forall _ (_ :: _) |- _ => inversion H; subst; clear H
  end.
  rewrite !length_bytes_of_profile by assumption. reflexivity.
Qed.

Lemma profiles_of_bytes_of_profiles ps :
  length ps = 5%nat -> Forall representable ps ->
  profiles_of_bytes (bytes_of_profiles ps) = ps.
Proof.
  intros Hl Hall. unfold profiles_of_bytes, bytes_of_profiles.
  assert (Hc : Forall (fun c => length c = 88%nat) (map bytes_of_profile ps)).
  { apply Forall_map. eapply Forall_impl; [exact Hall|].
    intros p Hp. apply length_bytes_of_profile, Hp. }
  destruct ps as [|p0 [|p1 [|p2 [|p3 [|p4 [|]]]]]]; try discriminate.
  cbn [seq map].
  rewrite <- (app_nil_r (concat _)).
  repeat match goal with
  | |- context [slice (88 * ?k) 88 (concat ?cs ++ [])] =>
      rewrite (slice_chunk 88 cs Hc k _ [] eq_refl)
  end.
  repeat match goal with
  | H : Forall _ (_ :: _) |- _ => inversion H; subst; clear H
  end.
  repeat match goal with
  | |- context [profile_of_bytes (bytes_of_profile ?p)] =>
      rewrite <- (app_nil_r (bytes_of_profile p)),
        (profile_of_bytes_of_profile p []) by assumption
  end.
  reflexivity.
Qed.

Lemma byte_and_xff d : byte.and Byte.xff d = d.
Proof. destruct d; reflexivity. Qed.

(** Programming an erased region stores the data written at its start. *)
Lemma flash_range_program_erased (written : list byte) :
  forall (n : nat) (rest : list byte),
    (length written <= n)%nat ->
    exists tail : list byte,
      flash_range_program (repeat Byte.xff n) (written ++ rest)
      = written ++ tail.
Proof.
  induction written as [|d written IH]; intros n rest Hn.
  - eexists. reflexivity.
  - destruct n as [|n]; [cbn in Hn; lia|].
    destruct (IH n rest) as [tail Ht]; [cbn in Hn; lia|].
    exists tail. cbn [repeat flash_range_program app].
    rewrite byte_and_xff, Ht. reflexivity.
Qed.

Lemma valid_representable p : valid_profile p -> representable p.
Proof.
  intros (Hn & Hl & Hall). repeat split; try assumption.
  eapply Forall_impl; [exact Hall|].
  intros q (Hd & Hw & Hb). unfold int_period, in_int. lia.
Qed.

(** What [app_save_profiles] leaves in the sector. *)
Lemma saved_sector s :
  length (profiles s) = 5%nat -> Forall representable (profiles s) ->
  exists tail : list byte,
    flash_sector (app_save_profiles s)
    = flash_magic ++ bytes_of_int (current_profile s)
        ++ bytes_of_profiles (profiles s) ++ tail.
Proof.
  intros Hl Hall. unfold app_save_profiles, app_redraw. simpl_fields.
  unfold flash_range_erase.
  set (written := flash_magic ++ bytes_of_int (current_profile s)
                    ++ bytes_of_profiles (profiles s)).
  destruct (flash_range_program_erased written FLASH_SECTOR_SIZE
              (skipn (length written) (flash_buffer s))) as [tail Ht].
  { subst written. rewrite !length_app, length_bytes_of_int,
      length_bytes_of_profiles by assumption.
    unfold FLASH_SECTOR_SIZE, flash_magic. cbn [length]. lia. }
  exists tail. rewrite Ht. subst written. rewrite <- !app_assoc. reflexivity.
Qed.

Lemma reload_image with_ui s cur ps tail :
  flash_sector s = flash_magic ++ bytes_of_int cur ++ bytes_of_profiles ps ++ tail ->
  length ps = 5%nat -> Forall representable ps -> in_int cur ->
  profiles (app_reload_profiles with_ui s) = ps
  /\ current_profile (app_reload_profiles with_ui s)
     = (if (cur <? 0) || (MAX_PROFILES <=? cur) then 0 else cur).
Proof.
  intros Hs Hl Hall Hcur. unfold app_reload_profiles.
  rewrite Hs.
  change (magic_matches (flash_magic ++ _)) with true. cbn [negb].
  assert (E1 : slice 4 4 (flash_magic ++ bytes_of_int cur
                            ++ bytes_of_profiles ps ++ tail)
               = bytes_of_int cur).
  { etransitivity;
      [exact (slice_app_skip_n flash_magic _ 4 0 4 eq_refl)|].
    apply slice_head_n, length_bytes_of_int. }
  assert (E2 : slice 8 440 (flash_magic ++ bytes_of_int cur
                              ++ bytes_of_profiles ps ++ tail)
               = bytes_of_profiles ps).
  { etransitivity;
      [exact (slice_app_skip_n flash_magic _ 4 4 440 eq_refl)|].
    etransitivity;
      [exact (slice_app_skip_n (bytes_of_int cur) _ 4 0 440
                (length_bytes_of_int cur))|].
    apply slice_head_n, length_bytes_of_profiles; assumption. }
  rewrite E1, E2, int_of_bytes_of_int, profiles_of_bytes_of_profiles
    by assumption.
  simpl_fields.
  destruct ((cur <? 0) || (MAX_PROFILES <=? cur)); simpl_fields;
    destruct with_ui; split; reflexivity.
Qed.

Lemma valid_factory_profiles : Forall valid_profile factory_profiles.
Proof.
  unfold factory_profiles, valid_profile, valid_period, disabled.
  repeat constructor; cbn; lia.
Qed.

(** C5: saving and then loading gives back the profiles and the active index
    that were saved, for every profile set in its ranges (five profiles with
    sixteen name bytes and six periods each, durations in 0..1440, powers in
    0..100, active index in 0..4), whatever the memory holds when the load
    runs: the load is applied to any state [s'] whose sector is the one the
    save left, so what comes back is read from the sector; and whenever the
    sector holds the marker and a stored active index outside 0..4, the load
    leaves the active index at 0. *)
Theorem save_then_reload_round_trip :
  (forall (with_ui : bool) (s s' : app_t),
      valid_profile_set (profiles s) (current_profile s) ->
      flash_sector s' = flash_sector (app_save_profiles s) ->
      profiles (app_reload_profiles with_ui s') = profiles s
      /\ current_profile (app_reload_profiles with_ui s') = current_profile s)
  /\ (forall (with_ui : bool) (s : app_t),
         magic_matches (flash_sector s) = true ->
         int_of_bytes (slice 4 4 (flash_sector s)) < 0
         \/ MAX_PROFILES <= int_of_bytes (slice 4 4 (flash_sector s)) ->
         current_profile (app_reload_profiles with_ui s) = 0).
Proof.
  split.
  - intros with_ui s s' (Hl & Hall & Hcur) Hsector.
    assert (Hrep : Forall representable (profiles s))
      by (eapply Forall_impl; [exact Hall | exact valid_representable]).
    destruct (saved_sector s Hl Hrep) as [tail Hs].
    rewrite <- Hsector in Hs.
    destruct (reload_image with_ui s' (current_profile s)
                (profiles s) tail Hs Hl Hrep) as (Hp & Hc).
    { unfold in_int, MAX_PROFILES in *. lia. }
    split; [exact Hp|]. rewrite Hc.
    unfold MAX_PROFILES in *.
    destruct (Z.ltb_spec (current_profile s) 0); [lia|].
    destruct (Z.leb_spec 5 (current_profile s)); [lia|]. reflexivity.
  - intros with_ui s Hm Hout. unfold app_reload_profiles.
    rewrite Hm. cbn [negb]. simpl_fields.
    unfold MAX_PROFILES in *.
    destruct (Z.ltb_spec (int_of_bytes (slice 4 4 (flash_sector s))) 0);
      destruct (Z.leb_spec 5 (int_of_bytes (slice 4 4 (flash_sector s))));
      try lia; cbn [orb]; simpl_fields; destruct with_ui; reflexivity.
Qed.

(** The saved set is the factory one; by the time of the load the first
    period of VEG has been edited in memory, and the load brings the saved
    duration back. *)
Lemma save_then_reload_round_trip_witness :
  valid_profile_set (profiles fresh_start) (current_profile fresh_start)
  /\ flash_sector edited_after_save
     = flash_sector (app_save_profiles fresh_start)
  /\ profiles edited_after_save <> profiles fresh_start
  /\ profiles (app_reload_profiles true edited_after_save)
     = profiles fresh_start
  /\ current_profile (app_reload_profiles true edited_after_save)
     = current_profile fresh_start.
Proof.
  assert (H1 : valid_profile_set (profiles fresh_start)
                 (current_profile fresh_start)).
  { change (profiles fresh_start) with factory_profiles.
    change (current_profile fresh_start) with 0.
    refine (conj eq_refl (conj valid_factory_profiles _)).
    unfold MAX_PROFILES. lia. }
  assert (H2 : flash_sector edited_after_save
               = flash_sector (app_save_profiles fresh_start))
    by (vm_compute; reflexivity).
  assert (H3 : profiles edited_after_save <> profiles fresh_start).
  { intros H.
    apply (f_equal (fun ps => match ps with
                              | p :: _ => map duration (periods p)
                              | [] => []
                              end)) in H.
    vm_compute in H. discriminate H. }
  exact (conj H1 (conj H2 (conj H3
           (proj1 save_then_reload_round_trip true fresh_start
              edited_after_save H1 H2)))).
Defined.

(** The other half at a sector that stores the index 7. *)
Example reload_resets_index_7 :
  magic_matches index7_flash = true
  /\ int_of_bytes (slice 4 4 index7_flash) = 7
  /\ current_profile (app_reload_profiles false (power_on index7_flash)) = 0.
Proof. vm_compute. repeat split. Qed.

(** The test of [app_reload_profiles] is the comparison of the first four
    bytes of the sector with the marker. *)
Lemma magic_matches_marker (address : list byte) :
  (4 <= length address)%nat ->
  magic_matches address = true <-> slice 0 4 address = flash_magic.
Proof.
  intros Hlen.
  destruct address as [|b0 [|b1 [|b2 [|b3 rest]]]]; cbn in Hlen; try lia.
  unfold magic_matches, slice, flash_magic. cbn [nth skipn firstn].
  rewrite !andb_true_iff, !Z.eqb_eq.
  change 0xA5 with (byte.unsigned Byte.xa5).
  change 0x5A with (byte.unsigned Byte.x5a).
  split.
  - intros (((H0 & H1) & H2) & H3).
    apply byte.unsigned_inj in H0. apply byte.unsigned_inj in H1.
    apply byte.unsigned_inj in H2. apply byte.unsigned_inj in H3.
    subst. reflexivity.
  - intros H. injection H as -> -> -> ->. auto.
Qed.

(** C10: when the marker does not match, [app_reload_profiles] returns with
    the profiles, the active index, [menu_profile_index] and the mode as they
    were, and a click on RELOAD in the top menu leaves the mode at
    [MODE_TOP_MENU] with the profiles and the active index untouched; when it
    matches, the profiles are those of the sector, [menu_profile_index] is the
    active index and the mode is [MODE_SHOW_STATE]. *)
Theorem reload_atomic_on_failure (with_ui : bool) (now : Z) (s : app_t) :
  (magic_matches (flash_sector s) = false ->
   (profiles (app_reload_profiles with_ui s) = profiles s
    /\ current_profile (app_reload_profiles with_ui s) = current_profile s
    /\ menu_profile_index (app_reload_profiles with_ui s)
       = menu_profile_index s
    /\ current_app_mode (app_reload_profiles with_ui s) = current_app_mode s)
   /\ (current_app_mode s = MODE_TOP_MENU ->
       current_top_menu_action s = TOP_MENU_RELOAD ->
       in_bootloader s = false ->
       current_app_mode (app_on_click now s) = MODE_TOP_MENU
       /\ profiles (app_on_click now s) = profiles s
       /\ current_profile (app_on_click now s) = current_profile s
       /\ menu_profile_index (app_on_click now s) = menu_profile_index s))
  /\ (magic_matches (flash_sector s) = true ->
      profiles (app_reload_profiles with_ui s)
      = profiles_of_bytes (slice 8 440 (flash_sector s))
      /\ menu_profile_index (app_reload_profiles with_ui s)
         = current_profile (app_reload_profiles with_ui s)
      /\ current_app_mode (app_reload_profiles with_ui s) = MODE_SHOW_STATE).
Proof.
  split.
  - intros Hm. split.
    + unfold app_reload_profiles. rewrite Hm. cbn [negb].
      destruct with_ui; repeat split.
    + intros Hmode Haction Hboot. unfold app_on_click. cbv zeta.
      simpl_fields. rewrite Hmode, Haction.
      change (TOP_MENU_RELOAD =? TOP_MENU_SAVE) with false.
      change (TOP_MENU_RELOAD =? TOP_MENU_RELOAD) with true. cbv iota.
      unfold app_reload_profiles. simpl_fields. rewrite Hm. cbn [negb].
      unfold app_redraw. simpl_fields. rewrite Hboot. simpl_fields.
      rewrite Hmode. repeat split.
  - intros Hm. unfold app_reload_profiles. rewrite Hm. cbn [negb].
    simpl_fields.
    destruct ((int_of_bytes (slice 4 4 (flash_sector s)) <? 0)
              || (MAX_PROFILES <=? int_of_bytes (slice 4 4 (flash_sector s))));
      destruct with_ui; unfold app_redraw; simpl_fields; repeat split.
Qed.

Lemma reload_atomic_on_failure_witness :
  magic_matches (flash_sector reload_selected) = false
  /\ current_app_mode reload_selected = MODE_TOP_MENU
  /\ current_top_menu_action reload_selected = TOP_MENU_RELOAD
  /\ in_bootloader reload_selected = false
  /\ (profiles (app_reload_profiles true reload_selected)
      = profiles reload_selected
      /\ current_profile (app_reload_profiles true reload_selected)
         = current_profile reload_selected
      /\ menu_profile_index (app_reload_profiles true reload_selected)
         = menu_profile_index reload_selected
      /\ current_app_mode (app_reload_profiles true reload_selected)
         = current_app_mode reload_selected)
  /\ current_app_mode (app_on_click 3000000 reload_selected) = MODE_TOP_MENU
  /\ profiles (app_on_click 3000000 reload_selected) = profiles reload_selected
  /\ current_profile (app_on_click 3000000 reload_selected)
     = current_profile reload_selected
  /\ menu_profile_index (app_on_click 3000000 reload_selected)
     = menu_profile_index reload_selected.
Proof.
  assert (H1 : magic_matches (flash_sector reload_selected) = false)
    by (vm_compute; reflexivity).
  assert (H2 : current_app_mode reload_selected = MODE_TOP_MENU)
    by (vm_compute; reflexivity).
  assert (H3 : current_top_menu_action reload_selected = TOP_MENU_RELOAD)
    by (vm_compute; reflexivity).
  assert (H4 : in_bootloader reload_selected = false)
    by (vm_compute; reflexivity).
  pose proof (proj1 (reload_atomic_on_failure true 3000000 reload_selected) H1)
    as (Hr & Hc).
  exact (conj H1 (conj H2 (conj H3 (conj H4 (conj Hr (Hc H2 H3 H4)))))).
Defined.

(** ** Further properties of the handlers *)

(** X3: one step back from the BACK row of the period list lands on the last
    period, not on -2. *)
Theorem edit_profile_wraps_below_back (s : app_t) :
  current_edit_period_index s = -1 ->
  current_edit_period_index (app_encoder_edit_profile (-1) s) = 5
  /\ redraws (app_encoder_edit_profile (-1) s) = S (redraws s).
Proof.
  intros Hi. unfold app_encoder_edit_profile, app_redraw. rewrite Hi.
  cbn. split; reflexivity.
Qed.

Lemma edit_profile_wraps_below_back_witness :
  current_edit_period_index browsing_periods = -1
  /\ current_edit_period_index (app_encoder_edit_profile (-1) browsing_periods)
     = 5
  /\ redraws (app_encoder_edit_profile (-1) browsing_periods)
     = S (redraws browsing_periods).
Proof.
  assert (H1 : current_edit_period_index browsing_periods = -1)
    by (vm_compute; reflexivity).
  exact (conj H1 (edit_profile_wraps_below_back browsing_periods H1)).
Defined.

(** X4: leaving the time-shift screen moves the shiftable baseline by the
    chosen hours and leaves the baseline of the pump where it was. *)
Theorem time_shift_moves_light_baseline_only (now : Z) (s : app_t) :
  current_app_mode s = MODE_TIME_SHIFT ->
  in_bootloader s = false ->
  time_shift_hours s <> 0 ->
  app_start_time_without_shift (app_on_click now s)
  = app_start_time_without_shift s
  /\ app_start_time (app_on_click now s)
     = wrap_u64 (app_start_time s
                 + wrap_u64 (wrap_u64 (time_shift_hours s) * 3600000000))
  /\ current_app_mode (app_on_click now s) = MODE_TOP_MENU.
Proof.
  intros Hmode Hboot Hshift. unfold app_on_click. cbv zeta. simpl_fields.
  rewrite Hmode. cbv iota. simpl_fields.
  destruct (Z.eqb_spec (time_shift_hours s) 0) as [|_]; [contradiction|].
  cbn [negb].
  match goal with |- context [app_calculate_state now ?x] =>
    pose proof (app_calculate_state_frame now x) as Hf;
    destruct (app_calculate_state now x) as [s2 changed]
  end.
  cbn [fst] in *. simpl_fields.
  destruct Hf as (_ & _ & Hst & Hns & Hm & _ & _ & Hb).
  rewrite Hb, Hboot. unfold app_redraw. simpl_fields.
  rewrite Hst, Hns, Hm. repeat split.
Qed.

Lemma time_shift_moves_light_baseline_only_witness :
  current_app_mode shift_chosen = MODE_TIME_SHIFT
  /\ in_bootloader shift_chosen = false
  /\ time_shift_hours shift_chosen <> 0
  /\ app_start_time_without_shift (app_on_click 4000000 shift_chosen)
     = app_start_time_without_shift shift_chosen
  /\ app_start_time (app_on_click 4000000 shift_chosen)
     = wrap_u64 (app_start_time shift_chosen
                 + wrap_u64 (wrap_u64 (time_shift_hours shift_chosen)
                             * 3600000000))
  /\ current_app_mode (app_on_click 4000000 shift_chosen) = MODE_TOP_MENU.
Proof.
  assert (H1 : current_app_mode shift_chosen = MODE_TIME_SHIFT)
    by (vm_compute; reflexivity).
  assert (H2 : in_bootloader shift_chosen = false)
    by (vm_compute; reflexivity).
  assert (H3 : time_shift_hours shift_chosen <> 0)
    by (vm_compute; discriminate).
  exact (conj H1 (conj H2 (conj H3
           (time_shift_moves_light_baseline_only 4000000 shift_chosen
              H1 H2 H3)))).
Defined.

(** ** What the handlers leave alone *)

Lemma set_current_app_state_same s : set_current_app_state (current_app_state s) s = s.
Proof. destruct s; reflexivity. Qed.

(** The engine writes [current_app_state] and nothing else. *)
Lemma app_calculate_state_sets now s :
  exists st : app_state_t,
    fst (app_calculate_state now s) = set_current_app_state st s.
Proof.
  unfold app_calculate_state. destruct (zlookup _ _).
  - destruct (calculate_state _ _ _ _) as [st c]. exists st. reflexivity.
  - exists (current_app_state s). symmetry. apply set_current_app_state_same.
Qed.

(** A store replaces the edited period and nothing else. *)
Lemma zlookup_zinsert_ne {A : Type} (l : list A) (i j : Z) (x : A) :
  i <> j -> zlookup (zinsert i x l) j = zlookup l j.
Proof.
  intros Hne. unfold zlookup, zinsert.
  destruct (Z.ltb_spec j 0); [reflexivity|].
  destruct (Z.ltb_spec i 0); [reflexivity|].
  apply list_lookup_insert_ne. lia.
Qed.

Lemma store_other_periods p s i j :
  i <> current_profile s \/ j <> current_edit_period_index s ->
  period_at (profiles (store_edited_period p s)) i j = period_at (profiles s) i j.
Proof.
  intros Hne. unfold store_edited_period, period_at.
  destruct (zlookup (profiles s) (current_profile s)) as [profile|] eqn:Hp;
    [|reflexivity].
  cbn [profiles set_profiles].
  destruct (Z.eq_dec i (current_profile s)) as [->|Hi].
  - rewrite (zlookup_zinsert _ _ _ _ Hp), Hp. cbn [periods].
    apply zlookup_zinsert_ne. destruct Hne; congruence.
  - rewrite zlookup_zinsert_ne by congruence. reflexivity.
Qed.

Lemma store_names p s :
  map name (profiles (store_edited_period p s)) = map name (profiles s).
Proof.
  unfold store_edited_period.
  destruct (zlookup (profiles s) (current_profile s)) as [profile|] eqn:Hp;
    [|reflexivity].
  cbn [profiles set_profiles]. unfold zlookup, zinsert in *.
  destruct (current_profile s <? 0); [reflexivity|].
  rewrite list_fmap_insert. cbn [name].
  apply list_insert_id. rewrite list_lookup_fmap, Hp. reflexivity.
Qed.

(** ** The value editors *)

Lemma pwm_level_percent p : 0 <= p <= 100 -> pwm_level p = 250 * p.
Proof.
  intros Hp. unfold pwm_level, PWM_WRAP, wrap_u16.
  rewrite wrap_int_small by (unfold in_int; lia).
  replace (p * 25000) with (250 * p * 100) by lia.
  rewrite Z.quot_mul by lia. lia.
Qed.


Lemma edited_period_redraw s : edited_period (app_redraw s) = edited_period s.
Proof. reflexivity. Qed.

(** X8: a rotation in the duration editor moves the duration of the edited
    period by 60 minutes a step, clamped to 0..1440 (for every [delta], also
    one whose product wraps); it redraws exactly when the duration changed,
    and leaves the powers of that period, every other period, the profile
    names and the output state as they were. *)
Theorem edit_duration_effect (delta : Z) (s : app_t) (period : period_t) :
  edited_period s = Some period ->
  let s' := app_encoder_edit_duration delta s in
  exists d : Z,
    edited_period s'
    = Some (mkPeriod d (led_white_red_power period) (led_blue_power period))
    /\ 0 <= d <= 1440
    /\ (in_int (delta * 60) -> in_int (duration period + delta * 60) ->
        d = Z.max 0 (Z.min 1440 (duration period + delta * 60)))
    /\ redraws s' = (if d =? duration period then redraws s else S (redraws s))
    /\ (forall i j : Z,
          i <> current_profile s \/ j <> current_edit_period_index s ->
          period_at (profiles s') i j = period_at (profiles s) i j)
    /\ map name (profiles s') = map name (profiles s)
    /\ current_app_state s' = current_app_state s.
Proof.
  intros Hq. cbv zeta. unfold app_encoder_edit_duration. rewrite Hq.
  set (raw := wrap_int (duration period + wrap_int (delta * 60))).
  set (d := if raw <? 0 then 0 else if 24 * 60 <? raw then 24 * 60 else raw).
  assert (Hd : 0 <= d <= 1440).
  { subst d. destruct (Z.ltb_spec raw 0); [lia|].
    destruct (Z.ltb_spec (24 * 60) raw); lia. }
  assert (Hexact : in_int (delta * 60) -> in_int (duration period + delta * 60) ->
                   d = Z.max 0 (Z.min 1440 (duration period + delta * 60))).
  { intros H1 H2. subst d raw.
    rewrite (wrap_int_small (delta * 60)) by assumption.
    rewrite wrap_int_small by assumption.
    destruct (Z.ltb_spec (duration period + delta * 60) 0); [lia|].
    destruct (Z.ltb_spec (24 * 60) (duration period + delta * 60)); lia. }
  exists d. destruct (Z.eqb_spec d (duration period)) as [Heq|Hne]; cbn [negb].
  - refine (conj _ (conj Hd (conj Hexact
             (conj eq_refl (conj (fun _ _ _ => eq_refl) (conj eq_refl eq_refl)))))).
    rewrite Hq, Heq. destruct period; reflexivity.
  - rewrite edited_period_redraw, (edited_period_store _ period s Hq).
    refine (conj eq_refl (conj Hd (conj Hexact (conj _ (conj _ (conj _ _)))))).
    + cbn [redraws app_redraw set_redraws]. f_equal.
      apply store_edited_period_frame.
    + intros i j Hij. apply store_other_periods, Hij.
    + apply store_names.
    + unfold store_edited_period. destruct (zlookup _ _); reflexivity.
Qed.

(** X9: a rotation in the white/red editor moves the power of the edited
    period by 5 a step, clamped to 0..100, and previews it at once: the
    output state's [white_red] and the PWM level (250 times the power) follow
    the new value, also when it did not change; blue, the pump flag, the
    duration and every other period stay as they were, and the screen is
    redrawn exactly when the power changed. *)
Theorem edit_white_red_level_effect (delta : Z) (s : app_t) (period : period_t) :
  edited_period s = Some period ->
  let s' := app_encoder_edit_white_red_level delta s in
  exists w : Z,
    edited_period s' = Some (mkPeriod (duration period) w (led_blue_power period))
    /\ 0 <= w <= 100
    /\ (in_int (delta * 5) -> in_int (led_white_red_power period + delta * 5) ->
        w = Z.max 0 (Z.min 100 (led_white_red_power period + delta * 5)))
    /\ redraws s'
       = (if w =? led_white_red_power period then redraws s else S (redraws s))
    /\ white_red (current_app_state s') = w
    /\ pwm_white_red s' = 250 * w
    /\ blue (current_app_state s') = blue (current_app_state s)
    /\ pump (current_app_state s') = pump (current_app_state s)
    /\ (forall i j : Z,
          i <> current_profile s \/ j <> current_edit_period_index s ->
          period_at (profiles s') i j = period_at (profiles s) i j).
Proof.
  intros Hq. cbv zeta. unfold app_encoder_edit_white_red_level. rewrite Hq.
  set (raw := wrap_int (led_white_red_power period + wrap_int (delta * 5))).
  set (w := if raw <? 0 then 0 else if 100 <? raw then 100 else raw).
  assert (Hw : 0 <= w <= 100).
  { subst w. destruct (Z.ltb_spec raw 0); [lia|].
    destruct (Z.ltb_spec 100 raw); lia. }
  assert (Hexact : in_int (delta * 5) ->
                   in_int (led_white_red_power period + delta * 5) ->
                   w = Z.max 0 (Z.min 100 (led_white_red_power period + delta * 5))).
  { intros H1 H2. subst w raw.
    rewrite (wrap_int_small (delta * 5)) by assumption.
    rewrite wrap_int_small by assumption.
    destruct (Z.ltb_spec (led_white_red_power period + delta * 5) 0); [lia|].
    destruct (Z.ltb_spec 100 (led_white_red_power period + delta * 5)); lia. }
  exists w. unfold app_apply_state.
  destruct (Z.eqb_spec w (led_white_red_power period)) as [Heq|Hne]; cbn [negb].
  - refine (conj _ (conj Hw (conj Hexact (conj eq_refl (conj eq_refl
             (conj _ (conj eq_refl (conj eq_refl (fun _ _ _ => eq_refl))))))))).
    + change (edited_period s = Some (mkPeriod (duration period) w (led_blue_power period))).
      rewrite Hq, Heq. destruct period; reflexivity.
    + cbn [pwm_white_red set_outputs current_app_state set_current_app_state
           white_red].
      apply pwm_level_percent, Hw.
  - pose proof (store_edited_period_frame (mkPeriod (duration period) w (led_blue_power period)) s) as Hf.
    cbv zeta in Hf. destruct Hf as (_ & _ & _ & _ & _ & _ & _ & Hr & _).
    refine (conj _ (conj Hw (conj Hexact (conj _ (conj eq_refl
             (conj _ (conj _ (conj _ _)))))))).
    + change (edited_period (store_edited_period (mkPeriod (duration period) w (led_blue_power period)) s) = Some (mkPeriod (duration period) w (led_blue_power period))).
      apply (edited_period_store _ period s Hq).
    + cbn [redraws set_outputs set_current_app_state app_redraw set_redraws].
      f_equal. exact Hr.
    + cbn [pwm_white_red set_outputs current_app_state set_current_app_state
           white_red].
      apply pwm_level_percent, Hw.
    + cbn. unfold store_edited_period. destruct (zlookup _ _); reflexivity.
    + cbn. unfold store_edited_period. destruct (zlookup _ _); reflexivity.
    + intros i j Hij.
      change (period_at (profiles (store_edited_period (mkPeriod (duration period) w (led_blue_power period)) s)) i j
              = period_at (profiles s) i j).
      apply store_other_periods, Hij.
Qed.

(** X10: the same for the blue editor: steps of 5 clamped to 0..100, the
    output state's [blue] and the blue PWM level follow at once, white/red,
    the pump flag, the duration and every other period stay as they were,
    and the screen is redrawn exactly when the power changed. *)
Theorem edit_blue_level_effect (delta : Z) (s : app_t) (period : period_t) :
  edited_period s = Some period ->
  let s' := app_encoder_edit_blue_level delta s in
  exists w : Z,
    edited_period s' = Some (mkPeriod (duration period) (led_white_red_power period) w)
    /\ 0 <= w <= 100
    /\ (in_int (delta * 5) -> in_int (led_blue_power period + delta * 5) ->
        w = Z.max 0 (Z.min 100 (led_blue_power period + delta * 5)))
    /\ redraws s'
       = (if w =? led_blue_power period then redraws s else S (redraws s))
    /\ blue (current_app_state s') = w
    /\ pwm_blue s' = 250 * w
    /\ white_red (current_app_state s') = white_red (current_app_state s)
    /\ pump (current_app_state s') = pump (current_app_state s)
    /\ (forall i j : Z,
          i <> current_profile s \/ j <> current_edit_period_index s ->
          period_at (profiles s') i j = period_at (profiles s) i j).
Proof.
  intros Hq. cbv zeta. unfold app_encoder_edit_blue_level. rewrite Hq.
  set (raw := wrap_int (led_blue_power period + wrap_int (delta * 5))).
  set (w := if raw <? 0 then 0 else if 100 <? raw then 100 else raw).
  assert (Hw : 0 <= w <= 100).
  { subst w. destruct (Z.ltb_spec raw 0); [lia|].
    destruct (Z.ltb_spec 100 raw); lia. }
  assert (Hexact : in_int (delta * 5) ->
                   in_int (led_blue_power period + delta * 5) ->
                   w = Z.max 0 (Z.min 100 (led_blue_power period + delta * 5))).
  { intros H1 H2. subst w raw.
    rewrite (wrap_int_small (delta * 5)) by assumption.
    rewrite wrap_int_small by assumption.
    destruct (Z.ltb_spec (led_blue_power period + delta * 5) 0); [lia|].
    destruct (Z.ltb_spec 100 (led_blue_power period + delta * 5)); lia. }
  exists w. unfold app_apply_state.
  destruct (Z.eqb_spec w (led_blue_power period)) as [Heq|Hne]; cbn [negb].
  - refine (conj _ (conj Hw (conj Hexact (conj eq_refl (conj eq_refl
             (conj _ (conj eq_refl (conj eq_refl (fun _ _ _ => eq_refl))))))))).
    + change (edited_period s = Some (mkPeriod (duration period) (led_white_red_power period) w)).
      rewrite Hq, Heq. destruct period; reflexivity.
    + cbn [pwm_blue set_outputs current_app_state set_current_app_state
           blue].
      apply pwm_level_percent, Hw.
  - pose proof (store_edited_period_frame (mkPeriod (duration period) (led_white_red_power period) w) s) as Hf.
    cbv zeta in Hf. destruct Hf as (_ & _ & _ & _ & _ & _ & _ & Hr & _).
    refine (conj _ (conj Hw (conj Hexact (conj _ (conj eq_refl
             (conj _ (conj _ (conj _ _)))))))).
    + change (edited_period (store_edited_period (mkPeriod (duration period) (led_white_red_power period) w) s) = Some (mkPeriod (duration period) (led_white_red_power period) w)).
      apply (edited_period_store _ period s Hq).
    + cbn [redraws set_outputs set_current_app_state app_redraw set_redraws].
      f_equal. exact Hr.
    + cbn [pwm_blue set_outputs current_app_state set_current_app_state
           blue].
      apply pwm_level_percent, Hw.
    + cbn. unfold store_edited_period. destruct (zlookup _ _); reflexivity.
    + cbn. unfold store_edited_period. destruct (zlookup _ _); reflexivity.
    + intros i j Hij.
      change (period_at (profiles (store_edited_period (mkPeriod (duration period) (led_white_red_power period) w) s)) i j
              = period_at (profiles s) i j).
      apply store_other_periods, Hij.
Qed.

(** ** Profiles stay in their ranges *)

Lemma data_valid_ext s s' :
  profiles s' = profiles s -> flash_sector s' = flash_sector s ->
  data_valid s -> data_valid s'.
Proof. unfold data_valid. intros -> ->. auto. Qed.

Lemma edited_period_valid s q :
  Forall valid_profile (profiles s) -> edited_period s = Some q ->
  valid_period q.
Proof.
  intros Hall. unfold edited_period.
  destruct (zlookup (profiles s) (current_profile s)) as [profile|] eqn:Hp;
    [|discriminate].
  intros Hq. apply zlookup_elem in Hp, Hq.
  rewrite Forall_forall in Hall. destruct (Hall profile Hp) as (_ & _ & Hv).
  rewrite Forall_forall in Hv. exact (Hv q Hq).
Qed.

Lemma data_valid_store p s :
  valid_period p -> data_valid s -> data_valid (store_edited_period p s).
Proof.
  intros Hp (Hlen & Hall & Hflash). unfold store_edited_period.
  destruct (zlookup (profiles s) (current_profile s)) as [profile|] eqn:Hprof;
    [|repeat split; assumption].
  unfold data_valid. cbn [profiles set_profiles flash_sector].
  refine (conj _ (conj _ Hflash)).
  - rewrite length_zinsert. exact Hlen.
  - apply Forall_zinsert; [exact Hall|].
    apply zlookup_elem in Hprof. rewrite Forall_forall in Hall.
    destruct (Hall profile Hprof) as (Hn & Hl & Hv).
    refine (conj Hn (conj _ _)); cbn [name periods].
    + rewrite length_zinsert. exact Hl.
    + apply Forall_zinsert; assumption.
Qed.

Ltac frame_crush :=
  intros; break_ifs; simpl_fields;
  first [ assumption
        | eapply data_valid_ext; [ | | eassumption ]; reflexivity ].

Lemma data_valid_redraw s : data_valid s -> data_valid (app_redraw s).
Proof. exact (fun H => H). Qed.

Lemma data_valid_apply s : data_valid s -> data_valid (app_apply_state s).
Proof. exact (fun H => H). Qed.

Lemma data_valid_calculate now s :
  data_valid s -> data_valid (fst (app_calculate_state now s)).
Proof.
  intros H. destruct (app_calculate_state_sets now s) as [st ->]. exact H.
Qed.

Lemma data_valid_tick now s : data_valid s -> data_valid (app_tick now s).
Proof.
  intros Hinv. unfold app_tick.
  match goal with |- context [if ?c then ?a else s] =>
    assert (Hs1 : data_valid (if c then a else s)) by (destruct c; exact Hinv);
    generalize dependent (if c then a else s)
  end.
  intros s1 Hs1. destruct (app_mode_eqb (current_app_mode s1) MODE_SHOW_STATE);
    [|exact Hs1].
  pose proof (data_valid_calculate now s1 Hs1) as Hc.
  destruct (app_calculate_state now s1) as [s2 changed]. cbn in Hc.
  destruct changed; exact Hc.
Qed.

Lemma data_valid_edit_duration d s :
  data_valid s -> data_valid (app_encoder_edit_duration d s).
Proof.
  intros Hinv. unfold app_encoder_edit_duration.
  destruct (edited_period s) as [q|] eqn:Hq; [|exact Hinv].
  destruct (edited_period_valid s q (proj1 (proj2 Hinv)) Hq) as (Hd & Hw & Hb).
  break_ifs; try exact Hinv; bool_to_prop;
    apply data_valid_redraw, data_valid_store; try exact Hinv;
    unfold valid_period; cbn; lia.
Qed.

Lemma data_valid_edit_wr d s :
  data_valid s -> data_valid (app_encoder_edit_white_red_level d s).
Proof.
  intros Hinv. unfold app_encoder_edit_white_red_level.
  destruct (edited_period s) as [q|] eqn:Hq; [|exact Hinv].
  destruct (edited_period_valid s q (proj1 (proj2 Hinv)) Hq) as (Hd & Hw & Hb).
  apply data_valid_apply.
  match goal with |- data_valid (set_current_app_state _ ?x) =>
    change (data_valid x) end.
  break_ifs; try exact Hinv; bool_to_prop;
    apply data_valid_redraw, data_valid_store; try exact Hinv;
    unfold valid_period; cbn; lia.
Qed.

Lemma data_valid_edit_bl d s :
  data_valid s -> data_valid (app_encoder_edit_blue_level d s).
Proof.
  intros Hinv. unfold app_encoder_edit_blue_level.
  destruct (edited_period s) as [q|] eqn:Hq; [|exact Hinv].
  destruct (edited_period_valid s q (proj1 (proj2 Hinv)) Hq) as (Hd & Hw & Hb).
  apply data_valid_apply.
  match goal with |- data_valid (set_current_app_state _ ?x) =>
    change (data_valid x) end.
  break_ifs; try exact Hinv; bool_to_prop;
    apply data_valid_redraw, data_valid_store; try exact Hinv;
    unfold valid_period; cbn; lia.
Qed.

Lemma data_valid_on_encoder_change now d s :
  data_valid s -> data_valid (app_on_encoder_change now d s).
Proof.
  intros Hinv. unfold app_on_encoder_change.
  destruct (d =? 0); [exact Hinv|].
  assert (Hinv' : data_valid (set_last_encoder_time now s)) by exact Hinv.
  destruct (current_app_mode (set_last_encoder_time now s));
    auto using data_valid_edit_duration, data_valid_edit_wr, data_valid_edit_bl.
  - unfold app_encoder_show_profile. frame_crush.
  - unfold app_encoder_show_profile. frame_crush.
  - unfold app_encoder_edit_profile. frame_crush.
  - unfold app_encoder_edit_period. frame_crush.
  - unfold app_encoder_top_menu. frame_crush.
  - unfold app_encoder_time_shift. frame_crush.
Qed.

Lemma data_valid_save s :
  nav_invariant s -> data_valid s -> data_valid (app_save_profiles s).
Proof.
  intros (_ & Hcur & _) (Hlen & Hall & _).
  assert (Hrep : Forall representable (profiles s))
    by (eapply Forall_impl; [exact Hall | exact valid_representable]).
  destruct (saved_sector s Hlen Hrep) as [tail Hs].
  refine (conj Hlen (conj Hall _)). right.
  exists (current_profile s), (profiles s), tail.
  refine (conj Hs (conj Hlen (conj Hall _))).
  unfold in_int, MAX_PROFILES in *. lia.
Qed.

Lemma data_valid_reload with_ui s :
  data_valid s -> data_valid (app_reload_profiles with_ui s).
Proof.
  intros (Hlen & Hall & Hflash).
  assert (Hsec : flash_sector (app_reload_profiles with_ui s) = flash_sector s).
  { unfold app_reload_profiles, app_redraw. break_ifs; reflexivity. }
  unfold data_valid. rewrite Hsec.
  destruct Hflash as [Hno | (cur & ps & tail & Hs & Hl & Hv & Hc)].
  - unfold app_reload_profiles. rewrite Hno. cbn [negb].
    destruct with_ui; (refine (conj Hlen (conj Hall _)); left; exact Hno).
  - assert (Hrep : Forall representable ps)
      by (eapply Forall_impl; [exact Hv | exact valid_representable]).
    destruct (reload_image with_ui s cur ps tail Hs Hl Hrep Hc) as (Hp & _).
    rewrite Hp. refine (conj Hl (conj Hv _)). right.
    exists cur, ps, tail. auto.
Qed.

Lemma data_valid_on_click now s :
  nav_invariant s -> data_valid s -> data_valid (app_on_click now s).
Proof.
  intros Hnav Hinv. unfold app_on_click. cbv zeta.
  assert (Hnav0 : nav_invariant (set_last_encoder_time now s)) by exact Hnav.
  assert (Hinv0 : data_valid (set_last_encoder_time now s)) by exact Hinv.
  generalize dependent (set_last_encoder_time now s). clear Hnav Hinv s.
  intros s Hnav Hinv.
  match goal with |- data_valid (if in_bootloader ?b then _ else _) =>
    assert (Hbody : data_valid b);
    [ | destruct (in_bootloader b); exact Hbody ]
  end.
  destruct (current_app_mode s).
  - exact Hinv.
  - destruct (negb _); [|exact Hinv].
    apply data_valid_apply, data_valid_calculate. exact Hinv.
  - destruct (_ =? _); [exact Hinv|].
    destruct (edited_period _); exact Hinv.
  - break_ifs; exact Hinv.
  - exact Hinv.
  - exact Hinv.
  - exact Hinv.
  - break_ifs; try exact Hinv.
    + apply data_valid_save; assumption.
    + apply data_valid_reload, Hinv.
  - destruct (negb _); [|exact Hinv].
    apply data_valid_calculate. exact Hinv.
Qed.

Lemma data_valid_step now e s :
  nav_invariant s -> data_valid s -> data_valid (step now e s).
Proof.
  intros Hnav Hinv. unfold step. destruct (in_bootloader s); [exact Hinv|].
  destruct e;
    auto using data_valid_on_encoder_change, data_valid_on_click,
      data_valid_tick.
Qed.

Lemma data_valid_init now flash :
  flash_good flash -> data_valid (app_init now (power_on flash)).
Proof.
  intros Hflash. unfold app_init. apply data_valid_tick, data_valid_reload.
  refine (conj eq_refl (conj valid_factory_profiles Hflash)).
Qed.

Lemma run_snoc evs now e s : run (evs ++ [(now, e)]) s = step now e (run evs s).
Proof. unfold run. rewrite fold_left_app. reflexivity. Qed.

(** X11: started over a sector that holds no marker, or what a save of
    profiles in their ranges wrote, every sequence of rotations, clicks and
    ticks leaves the profiles in memory in their ranges (five profiles of six
    periods, durations in 0..1440, powers in 0..100, active index in 0..4)
    and the sector in such a state again. *)
Theorem profiles_stay_valid (flash : list byte) (t0 : Z)
    (evs : list (Z * event)) :
  flash_good flash ->
  let s := run evs (app_init t0 (power_on flash)) in
  valid_profile_set (profiles s) (current_profile s)
  /\ flash_good (flash_sector s).
Proof.
  intros Hflash. cbv zeta.
  induction evs as [|[now e] evs IH] using rev_ind.
  - pose proof (data_valid_init t0 flash Hflash) as (Hl & Hv & Hf).
    pose proof (nav_init t0 _ (nav_power_on flash)) as (_ & Hc & _).
    exact (conj (conj Hl (conj Hv Hc)) Hf).
  - rewrite run_snoc.
    assert (Hr : reachable (run evs (app_init t0 (power_on flash))))
      by apply reachable_run, reachable_init.
    pose proof (reachable_nav_invariant _ Hr) as Hnav.
    destruct IH as ((Hl & Hv & _) & Hf).
    pose proof (data_valid_step now e _ Hnav (conj Hl (conj Hv Hf)))
      as (Hl' & Hv' & Hf').
    pose proof (nav_step now e _ Hnav) as (_ & Hc' & _).
    exact (conj (conj Hl' (conj Hv' Hc')) Hf').
Qed.

(** ** Consistency of the navigation state *)

Ltac ui_goal :=
  first [ assumption | lia | discriminate | congruence
        | intuition (first [ discriminate | lia | congruence ]) ].

Ltac ui_crush :=
  unfold nav_consistent, MAX_PROFILES, MAX_PERIODS,
         EDIT_BACK, EDIT_FIRST, EDIT_LAST, EDIT_WR_LEVEL, EDIT_BL_LEVEL,
         EDIT_DURATION, TOP_MENU_SHIFT, TOP_MENU_SAVE, TOP_MENU_RELOAD,
         TOP_MENU_FIRST, TOP_MENU_LAST, TOP_MENU_FLASH in *;
  intros; cbv zeta; simpl_fields; break_ifs; simpl_fields;
  try match goal with
      | Hm : current_app_mode ?s = _ |- _ => rewrite Hm in *
      end;
  simpl_fields; bool_to_prop;
  repeat match goal with
  | H : _ /\ _ |- _ => destruct H
  end;
  repeat apply conj; ui_goal.

Lemma ui_show_profile d s :
  current_app_mode s = MODE_SHOW_STATE \/ current_app_mode s = MODE_SHOW_PROFILE ->
  nav_consistent s -> nav_consistent (app_encoder_show_profile d s).
Proof.
  intros [Hm|Hm]; unfold app_encoder_show_profile, app_redraw; ui_crush.
Qed.

Lemma ui_edit_profile d s :
  nav_consistent s -> nav_consistent (app_encoder_edit_profile d s).
Proof. unfold app_encoder_edit_profile, app_redraw. ui_crush. Qed.

Lemma ui_edit_period d s :
  current_app_mode s = MODE_EDIT_PERIOD ->
  nav_consistent s -> nav_consistent (app_encoder_edit_period d s).
Proof. unfold app_encoder_edit_period, app_redraw. ui_crush. Qed.

Lemma ui_time_shift d s :
  nav_consistent s -> nav_consistent (app_encoder_time_shift d s).
Proof. unfold app_encoder_time_shift, app_redraw. ui_crush. Qed.

Lemma ui_top_menu d s :
  current_app_mode s = MODE_TOP_MENU ->
  nav_consistent s -> nav_consistent (app_encoder_top_menu d s).
Proof. unfold app_encoder_top_menu, app_redraw. ui_crush. Qed.

Lemma nav_consistent_ext s s' :
  current_app_mode s' = current_app_mode s ->
  menu_profile_index s' = menu_profile_index s ->
  current_profile s' = current_profile s ->
  current_edit_value s' = current_edit_value s ->
  current_top_menu_action s' = current_top_menu_action s ->
  time_shift_hours s' = time_shift_hours s ->
  nav_consistent s -> nav_consistent s'.
Proof. unfold nav_consistent. intros -> -> -> -> -> ->. auto. Qed.

Ltac ui_edit :=
  intros Hinv;
  match goal with
  | |- nav_consistent (match edited_period ?s with _ => _ end) =>
      destruct (edited_period s); [|exact Hinv]
  end;
  break_ifs;
  try exact Hinv;
  (eapply nav_consistent_ext; [ .. | exact Hinv ]);
  cbn;
  try apply store_edited_period_frame;
  reflexivity.

Lemma ui_edit_duration d s :
  nav_consistent s -> nav_consistent (app_encoder_edit_duration d s).
Proof. unfold app_encoder_edit_duration, app_redraw. ui_edit. Qed.

Lemma ui_edit_wr d s :
  nav_consistent s -> nav_consistent (app_encoder_edit_white_red_level d s).
Proof.
  unfold app_encoder_edit_white_red_level, app_redraw, app_apply_state. ui_edit.
Qed.

Lemma ui_edit_bl d s :
  nav_consistent s -> nav_consistent (app_encoder_edit_blue_level d s).
Proof.
  unfold app_encoder_edit_blue_level, app_redraw, app_apply_state. ui_edit.
Qed.

Lemma ui_on_encoder_change now d s :
  nav_consistent s -> nav_consistent (app_on_encoder_change now d s).
Proof.
  intros Hinv. unfold app_on_encoder_change.
  destruct (d =? 0); [exact Hinv|].
  assert (Hinv' : nav_consistent (set_last_encoder_time now s)) by exact Hinv.
  destruct (current_app_mode (set_last_encoder_time now s)) eqn:Hm;
    auto using ui_show_profile, ui_edit_profile, ui_edit_period,
      ui_edit_duration, ui_edit_wr, ui_edit_bl, ui_top_menu, ui_time_shift.
Qed.

Lemma ui_calculate now s :
  nav_consistent s -> nav_consistent (fst (app_calculate_state now s)).
Proof.
  intros H. destruct (app_calculate_state_sets now s) as [st ->]. exact H.
Qed.

Lemma ui_tick now s : nav_consistent s -> nav_consistent (app_tick now s).
Proof.
  intros Hinv. unfold app_tick.
  match goal with |- context [if ?c then ?a else s] =>
    assert (Hs1 : nav_consistent (if c then a else s));
    [ destruct c; [|exact Hinv] | generalize dependent (if c then a else s) ]
  end.
  - revert Hinv. unfold app_redraw. ui_crush.
  - intros s1 Hs1. destruct (app_mode_eqb (current_app_mode s1) MODE_SHOW_STATE);
      [|exact Hs1].
    pose proof (ui_calculate now s1 Hs1) as Hc.
    destruct (app_calculate_state now s1) as [s2 changed]. cbn in Hc.
    destruct changed; exact Hc.
Qed.

Lemma ui_save s : nav_consistent s -> nav_consistent (app_save_profiles s).
Proof. unfold app_save_profiles, app_redraw. ui_crush. Qed.

Lemma ui_reload ui s : nav_consistent s -> nav_consistent (app_reload_profiles ui s).
Proof. unfold app_reload_profiles, app_redraw. ui_crush. Qed.

Lemma ui_on_click now s : nav_consistent s -> nav_consistent (app_on_click now s).
Proof.
  intros Hinv. unfold app_on_click.
  assert (Hinv0 : nav_consistent (set_last_encoder_time now s)) by exact Hinv.
  cbv zeta.
  generalize dependent (set_last_encoder_time now s). clear Hinv s.
  intros s Hinv.
  match goal with |- nav_consistent (if in_bootloader ?b then _ else _) =>
    assert (Hbody : nav_consistent b);
    [ | destruct (in_bootloader b); exact Hbody ]
  end.
  destruct (current_app_mode s) eqn:Hm.
  - revert Hinv. ui_crush.
  - destruct (negb (menu_profile_index s =? current_profile s)) eqn:Hne;
      [|exact Hinv].
    apply ui_calculate. revert Hinv. ui_crush.
  - destruct (current_edit_period_index s =? -1) eqn:Hidx.
    + revert Hinv. ui_crush.
    + assert (Hinv1 : nav_consistent
                (set_current_edit_value EDIT_BACK
                   (set_current_app_mode MODE_EDIT_PERIOD s)))
        by (revert Hinv; ui_crush).
      destruct (edited_period _); exact Hinv1.
  - revert Hinv. ui_crush.
  - revert Hinv. ui_crush.
  - revert Hinv. ui_crush.
  - revert Hinv. ui_crush.
  - break_ifs; try exact Hinv.
    + apply ui_save, Hinv.
    + apply ui_reload, Hinv.
    + revert Hinv. ui_crush.
  - destruct (negb (time_shift_hours (set_current_app_mode MODE_TOP_MENU s) =? 0)).
    + apply ui_calculate. revert Hinv. ui_crush.
    + revert Hinv. ui_crush.
Qed.

Lemma ui_init now flash : nav_consistent (app_init now (power_on flash)).
Proof.
  unfold app_init. apply ui_tick, ui_reload.
  unfold nav_consistent, EDIT_FIRST, EDIT_LAST, EDIT_BL_LEVEL, TOP_MENU_FIRST,
    TOP_MENU_LAST, TOP_MENU_FLASH; cbn.
  repeat apply conj; first [ lia | discriminate | reflexivity
                           | intros H; discriminate H | intros _; reflexivity ].
Qed.

Lemma ui_step now e s : nav_consistent s -> nav_consistent (step now e s).
Proof.
  intros Hinv. unfold step. destruct (in_bootloader s); [exact Hinv|].
  destruct e; auto using ui_on_encoder_change, ui_on_click, ui_tick.
Qed.

Lemma reachable_nav_consistent (s : app_t) : reachable s -> nav_consistent s.
Proof.
  induction 1 as [flash now | s now e _ IH].
  - apply ui_init.
  - apply ui_step, IH.
Qed.

(** X12: in every reachable state the profile preview shows a profile other
    than the active one, the state display and the editors have
    [menu_profile_index] equal to the active index, the field selector is in
    EDIT_BACK..EDIT_BL_LEVEL, the menu selector in
    TOP_MENU_SHIFT..TOP_MENU_FLASH, the time shift in -23..23, and each value
    editor has its own field selected. *)
Theorem navigation_consistent (s : app_t) : reachable s -> nav_consistent s.
Proof. exact (reachable_nav_consistent s). Qed.

Lemma navigation_consistent_witness :
  reachable editing_duration /\ nav_consistent editing_duration.
Proof.
  assert (H1 : reachable editing_duration)
    by (apply reachable_run, reachable_init).
  exact (conj H1 (navigation_consistent editing_duration H1)).
Defined.

(** ** The change flag *)

Lemma pump_block_flag m st :
  in_int (pump_minutes_left st) ->
  snd (pump_block m st) = false <-> fst (pump_block m st) = st.
Proof.
  intros Hint. destruct st as [pi wr bl p pl ql]. cbn in Hint.
  pose proof (pump_left_at_range m) as Hr.
  unfold pump_block, pump_left_at in *.
  unfold PUMP_TOTAL_MINUTES, PUMP_RUN_MINUTES, PUMP_WAIT_MINUTES in *.
  cbn [pump pump_minutes_left period_index white_red blue period_minutes_left].
  destruct (Z.ltb_spec (m mod (5 + 30)) 5), p; cbn [negb fst snd];
    rewrite ?(wrap_u32_small (_ - _)) by lia;
    rewrite ?wrap_int_small by (unfold in_int; lia);
    (split; [intros H1 | intros H1; try discriminate]);
    try discriminate;
    try (apply negb_false_iff, Z.eqb_eq in H1;
         f_equal; unfold wrap_u32, in_int in *; lia);
    try (injection H1 as H1; apply negb_false_iff, Z.eqb_eq;
         rewrite <- H1; apply wrap_u32_small; lia).
Qed.

Lemma calculate_state_flag (ms mb : Z) (profile : profile_t) (st : app_state_t) :
  in_int (pump_minutes_left st) ->
  snd (calculate_state ms mb profile st) = false
  <-> fst (calculate_state ms mb profile st) = st.
Proof.
  intros Hint. unfold calculate_state.
  destruct (profile_total_minutes profile =? 0).
  - destruct (Z.eqb_spec (white_red st) 0) as [Hw|Hw];
      destruct (Z.eqb_spec (blue st) 0) as [Hb|Hb]; cbn;
      (split; [intros H; try discriminate; reflexivity
              | intros H; try reflexivity]);
      destruct st; cbn in *; congruence.
  - pose proof (pump_block_flag mb st Hint) as Hflag.
    pose proof (pump_block_fields mb st) as Hf.
    destruct (pump_block mb st) as [st1 ret]. cbn [fst snd] in *.
    destruct Hf as (_ & _ & Hi & Hw & Hb & Hq).
    destruct (period_walk _ _ _ _) as [[[i period] pend]|].
    + set (left := wrap_u32 (pend - _)).
      assert (Hleft : wrap_u32 (wrap_int left) = left)
        by (unfold left; rewrite wrap_u32_wrap_int; apply wrap_u32_idem).
      match goal with |- context [if ?c then _ else _] =>
        destruct c eqn:Hc end; cbn [fst snd]; [|exact Hflag].
      split; [discriminate|]. intros Heq. exfalso.
      rewrite <- Heq in Hi, Hw, Hb, Hq. cbn in Hi, Hw, Hb, Hq.
      rewrite Hi, Hw, Hb, Hq, Hleft, !Z.eqb_refl in Hc. discriminate.
    + match goal with |- context [if ?c then _ else _] =>
        destruct c eqn:Hc end; cbn [fst snd]; [|exact Hflag].
      split; [discriminate|]. intros Heq. exfalso.
      rewrite <- Heq in Hw, Hb, Hq. cbn in Hw, Hb, Hq.
      rewrite Hw, Hb, Hq in Hc. discriminate.
Qed.

(** X5: with [pump_minutes_left] inside [int], [app_calculate_state]
    returns false exactly when it leaves every global as it was: the flag
    misses no change of the output state and reports none that did not
    happen. *)
Theorem change_flag_exact (now : Z) (s : app_t) :
  in_int (pump_minutes_left (current_app_state s)) ->
  snd (app_calculate_state now s) = false
  <-> fst (app_calculate_state now s) = s.
Proof.
  intros Hint. unfold app_calculate_state.
  destruct (zlookup _ _) as [profile|]; [|cbn; tauto].
  pose proof (calculate_state_flag
                (minutes_since now (app_start_time s))
                (minutes_since now (app_start_time_without_shift s))
                profile (current_app_state s) Hint) as Hflag.
  destruct (calculate_state _ _ _ _) as [st changed]. cbn [fst snd] in *.
  rewrite Hflag. split.
  - intros ->. destruct s; reflexivity.
  - intros Hs. apply (f_equal current_app_state) in Hs.
    destruct s; exact Hs.
Qed.


(** ** Periods of the schedule *)

Lemma pump_block_period m k st : pump_block (m + 35 * k) st = pump_block m st.
Proof.
  unfold pump_block, PUMP_TOTAL_MINUTES, PUMP_RUN_MINUTES, PUMP_WAIT_MINUTES.
  replace ((m + 35 * k) mod (5 + 30)) with (m mod (5 + 30)) by lia.
  reflexivity.
Qed.

Lemma light_position_period total ms j :
  0 < total -> 0 <= ms -> 0 <= j ->
  light_position total (ms + j * total) = light_position total ms.
Proof.
  intros Ht Hms Hj. rewrite !light_position_mod by nia.
  apply Z.mod_add. lia.
Qed.

(** X6: the engine is periodic: moving the light clock by whole passes of
    the profile (the sum of its durations) and the pump clock by multiples of
    35 minutes gives the same output state and the same flag. *)
Theorem schedule_periods (ms mb j k : Z) (profile : profile_t) (st : app_state_t) :
  0 <= ms -> 0 <= j ->
  calculate_state (ms + j * profile_total_minutes profile) (mb + 35 * k)
                  profile st
  = calculate_state ms mb profile st.
Proof.
  intros Hms Hj. unfold calculate_state.
  destruct (Z.eqb_spec (profile_total_minutes profile) 0) as [H0|H0];
    [reflexivity|].
  rewrite pump_block_period.
  assert (Ht : 0 < profile_total_minutes profile).
  { unfold profile_total_minutes in *.
    destruct (periods profile) as [|p ps] using rev_ind; [cbn in H0; lia|].
    rewrite fold_left_app in *. cbn [fold_left] in *.
    pose proof (wrap_u32_range
      (fold_left (fun total p => wrap_u32 (total + duration p)) ps 0
       + duration p)). lia. }
  rewrite light_position_period by assumption. reflexivity.
Qed.

(** ** Ranges of the outputs *)

(** X7: for an active profile in its ranges with a duration that is not 0,
    one evaluation followed by [app_apply_state] leaves the period index in
    0..5, the powers in 0..100, the minutes left of the period in 1..1440 and
    of the pump phase in 1..30, drives the pump pin with the pump flag and
    each PWM channel with 250 times its power, which stays within the PWM
    wrap of 25000. *)
Theorem outputs_in_range (now : Z) (s : app_t) (profile : profile_t) :
  zlookup (profiles s) (current_profile s) = Some profile ->
  valid_profile profile ->
  0 < profile_total_minutes profile ->
  in_int (period_minutes_left (current_app_state s)) ->
  let s' := app_apply_state (fst (app_calculate_state now s)) in
  let st' := current_app_state s' in
  0 <= period_index st' <= 5
  /\ 0 <= white_red st' <= 100
  /\ 0 <= blue st' <= 100
  /\ 1 <= period_minutes_left st' <= 1440
  /\ 1 <= pump_minutes_left st' <= 30
  /\ gpio_pump s' = pump st'
  /\ pwm_white_red s' = 250 * white_red st'
  /\ pwm_blue s' = 250 * blue st'
  /\ 0 <= pwm_white_red s' <= PWM_WRAP
  /\ 0 <= pwm_blue s' <= PWM_WRAP.
Proof.
  intros Hp Hvalid Htot Hint.
  rewrite (app_calculate_state_active now s profile Hp). cbn [fst].
  unfold app_apply_state.
  cbn [current_app_state set_current_app_state set_outputs gpio_pump
       pwm_white_red pwm_blue].
  set (ms := minutes_since now (app_start_time s)).
  set (mb := minutes_since now (app_start_time_without_shift s)).
  destruct (calculate_state_light ms mb profile (current_app_state s)
              Hvalid Htot (minutes_since_nonneg _ _))
    as (k & period & Hk & Hd & Hw & _ & Hi & Hwr & Hbl & Hleft).
  destruct (calculate_state_pump ms mb profile (current_app_state s))
    as (_ & Hpl); [lia|].
  pose proof (pump_left_at_range mb) as Hpr.
  specialize (Hleft Hint).
  destruct Hvalid as (_ & Hlen & Hv).
  pose proof (lookup_lt_Some _ _ _ Hk) as Hklt. rewrite Hlen in Hklt.
  apply list_elem_of_lookup_2 in Hk. rewrite Forall_forall in Hv.
  destruct (Hv period Hk) as (Hdr & Hwrr & Hblr).
  set (st' := fst (calculate_state ms mb profile (current_app_state s))) in *.
  rewrite Hpl.
  assert (H1 : 0 <= white_red st' <= 100) by lia.
  assert (H2 : 0 <= blue st' <= 100) by lia.
  rewrite !pwm_level_percent by assumption.
  unfold PWM_WRAP. repeat split; lia.
Qed.

(** ** Saving *)

Lemma length_flash_range_program sector data :
  length (flash_range_program sector data) = length sector.
Proof.
  revert data. induction sector as [|b sector IH]; intros [|d data];
    cbn [flash_range_program length]; auto.
Qed.

(** X13: [app_save_profiles] leaves the profiles and the active index in
    memory as they were, goes to the state display of the active profile with
    one redraw, and leaves a sector of 4096 bytes that starts with the
    marker; a save cut off between the erase and the program leaves a sector
    without marker, from which a load changes neither the profiles nor the
    active index. *)
Theorem save_effect (s : app_t) :
  let s' := app_save_profiles s in
  profiles s' = profiles s
  /\ current_profile s' = current_profile s
  /\ current_app_mode s' = MODE_SHOW_STATE
  /\ menu_profile_index s' = current_profile s
  /\ redraws s' = S (redraws s)
  /\ magic_matches (flash_sector s') = true
  /\ length (flash_sector s') = FLASH_SECTOR_SIZE
  /\ (forall (with_ui : bool) (buffer : list byte),
        let interrupted :=
          set_flash buffer (flash_range_erase (flash_sector s)) s in
        magic_matches (flash_sector interrupted) = false
        /\ profiles (app_reload_profiles with_ui interrupted) = profiles s
        /\ current_profile (app_reload_profiles with_ui interrupted)
           = current_profile s).
Proof.
  cbv zeta. unfold app_save_profiles, app_redraw. simpl_fields.
  refine (conj eq_refl (conj eq_refl (conj eq_refl (conj eq_refl
           (conj eq_refl (conj _ (conj _ _))))))).
  - unfold flash_range_erase. rewrite <- !app_assoc.
    destruct (flash_range_program_erased flash_magic FLASH_SECTOR_SIZE
                (bytes_of_int (current_profile s) ++
                 bytes_of_profiles (profiles s) ++
                 skipn (length (flash_magic ++ bytes_of_int (current_profile s)
                                  ++ bytes_of_profiles (profiles s)))
                       (flash_buffer s)))
      as [tail Ht];
      [unfold FLASH_SECTOR_SIZE, flash_magic; cbn [length]; lia|].
    rewrite Ht. reflexivity.
  - rewrite length_flash_range_program. unfold flash_range_erase.
    apply repeat_length.
  - intros with_ui buffer.
    assert (Hno : magic_matches (flash_range_erase (flash_sector s)) = false)
      by reflexivity.
    refine (conj Hno _). unfold app_reload_profiles. simpl_fields.
    rewrite Hno. cbn [negb]. destruct with_ui; split; reflexivity.
Qed.

(** ** The tick *)

(** X14: [app_tick] never writes the profiles, the active index, either
    time baseline, the time of the last input, the selectors, the time shift
    or the flash; the mode and [menu_profile_index] stay, or become the state
    display of the active profile; and a tick that does not end in the state
    display changes nothing at all. *)
Theorem tick_frame (now : Z) (s : app_t) :
  let s' := app_tick now s in
  profiles s' = profiles s
  /\ current_profile s' = current_profile s
  /\ app_start_time s' = app_start_time s
  /\ app_start_time_without_shift s' = app_start_time_without_shift s
  /\ last_encoder_time s' = last_encoder_time s
  /\ current_edit_period_index s' = current_edit_period_index s
  /\ current_edit_value s' = current_edit_value s
  /\ current_top_menu_action s' = current_top_menu_action s
  /\ time_shift_hours s' = time_shift_hours s
  /\ flash_sector s' = flash_sector s
  /\ (current_app_mode s' = current_app_mode s
      /\ menu_profile_index s' = menu_profile_index s
      \/ current_app_mode s' = MODE_SHOW_STATE
         /\ menu_profile_index s' = current_profile s)
  /\ (current_app_mode s' <> MODE_SHOW_STATE -> s' = s).
Proof.
  cbv zeta. unfold app_tick.
  destruct ((IDLE_TIMEOUT_US <? wrap_u64 (now - last_encoder_time s))
            && negb (app_mode_eqb (current_app_mode s) MODE_SHOW_STATE)) eqn:Hc.
  - change (app_mode_eqb _ MODE_SHOW_STATE) with true. cbv iota.
    match goal with |- context [app_calculate_state now ?x] =>
      destruct (app_calculate_state_sets now x) as [st Hst];
      destruct (app_calculate_state now x) as [s2 changed]
    end.
    cbn [fst] in Hst. subst s2.
    destruct changed; unfold app_redraw, app_apply_state; simpl_fields;
      repeat apply conj; try reflexivity;
      first [ right; split; reflexivity | intros Hne; contradiction ].
  - destruct (app_mode_eqb (current_app_mode s) MODE_SHOW_STATE) eqn:Hm.
    + destruct (app_calculate_state_sets now s) as [st Hst].
      destruct (app_calculate_state now s) as [s2 changed].
      cbn [fst] in Hst. subst s2.
      assert (Hmode : current_app_mode s = MODE_SHOW_STATE)
        by (destruct (current_app_mode s); try discriminate; reflexivity).
      destruct changed; unfold app_redraw, app_apply_state; simpl_fields;
        repeat apply conj; try reflexivity;
        first [ left; split; reflexivity | intros Hne; contradiction ].
    + repeat apply conj; try reflexivity. left. split; reflexivity.
Qed.

(** ** Start-up *)

(** From the initial output state, whose powers are -1, the first evaluation
    of a profile in its ranges reports a change and leaves powers in range. *)
Lemma first_evaluation_changes ms mb profile st :
  valid_profile profile -> 0 <= ms ->
  white_red st = -1 -> in_int (pump_minutes_left st) ->
  snd (calculate_state ms mb profile st) = true
  /\ 0 <= white_red (fst (calculate_state ms mb profile st)) <= 100
  /\ 0 <= blue (fst (calculate_state ms mb profile st)) <= 100.
Proof.
  intros Hvalid Hms Hwr Hint.
  destruct (Z.eq_dec (profile_total_minutes profile) 0) as [H0|H0].
  - unfold calculate_state. rewrite H0, Hwr. cbn. lia.
  - assert (Htot : 0 < profile_total_minutes profile).
    { rewrite (profile_total_minutes_valid _ Hvalid) in *.
      destruct Hvalid as (_ & _ & Hv).
      pose proof (sum_durations_bounds _ Hv). lia. }
    destruct (calculate_state_light ms mb profile st Hvalid Htot Hms)
      as (k & period & Hk & _ & _ & _ & _ & Hw & Hb & _).
    destruct Hvalid as (_ & _ & Hv). apply list_elem_of_lookup_2 in Hk.
    rewrite Forall_forall in Hv. destruct (Hv period Hk) as (_ & Hwr' & Hbl').
    refine (conj _ (conj _ _)); try lia.
    destruct (snd (calculate_state ms mb profile st)) eqn:Hs; [reflexivity|].
    apply (calculate_state_flag ms mb profile st Hint) in Hs.
    rewrite Hs in Hw. lia.
Qed.

(** X15: over such a sector, [app_init] ends in the state display of the
    active profile with exactly one redraw, powers in 0..100, and the pump
    pin and both PWM levels already driven from the first evaluation. *)
Theorem start_up_pushes_outputs (flash : list byte) (now : Z) :
  flash_good flash ->
  let s := app_init now (power_on flash) in
  let st := current_app_state s in
  current_app_mode s = MODE_SHOW_STATE
  /\ menu_profile_index s = current_profile s
  /\ redraws s = 1%nat
  /\ 0 <= white_red st <= 100
  /\ 0 <= blue st <= 100
  /\ gpio_pump s = pump st
  /\ pwm_white_red s = 250 * white_red st
  /\ pwm_blue s = 250 * blue st.
Proof.
  intros Hflash. cbv zeta. unfold app_init.
  set (s0 := set_outputs _ _ _ _).
  assert (Hd0 : data_valid s0)
    by exact (conj eq_refl (conj valid_factory_profiles Hflash)).
  assert (Hn0 : nav_invariant s0) by exact (nav_power_on flash).
  pose proof (data_valid_reload false s0 Hd0) as (Hlen & Hall & _).
  pose proof (nav_reload false s0 Hn0) as (_ & Hcur & _).
  set (s1 := app_reload_profiles false s0) in *.
  assert (Hfacts : current_app_mode s1 = MODE_SHOW_STATE
                   /\ current_app_state s1 = mkAppState 0 (-1) (-1) false 0 0
                   /\ redraws s1 = 0%nat
                   /\ menu_profile_index s1 = current_profile s1).
  { subst s1. unfold app_reload_profiles. break_ifs; simpl_fields;
      repeat apply conj; reflexivity. }
  destruct Hfacts as (Hmode & Hst & Hred & Hmenu).
  destruct (zlookup_Some (profiles s1) (current_profile s1)) as [profile Hp];
    [unfold MAX_PROFILES in Hcur; lia|].
  assert (Hvalid : valid_profile profile).
  { rewrite Forall_forall in Hall. apply Hall. eapply zlookup_elem, Hp. }
  unfold app_tick. rewrite Hmode, andb_false_r. cbv iota zeta.
  rewrite Hmode.
  change (app_mode_eqb MODE_SHOW_STATE MODE_SHOW_STATE) with true. cbv iota.
  rewrite (app_calculate_state_active now s1 profile Hp).
  destruct (first_evaluation_changes
              (minutes_since now (app_start_time s1))
              (minutes_since now (app_start_time_without_shift s1))
              profile (current_app_state s1) Hvalid
              (minutes_since_nonneg _ _))
    as (Hchanged & Hw & Hb).
  { rewrite Hst. reflexivity. }
  { rewrite Hst. cbn. unfold in_int. lia. }
  rewrite Hchanged. unfold app_redraw, app_apply_state. simpl_fields.
  rewrite !pwm_level_percent by assumption.
  repeat apply conj;
    first [ assumption | lia | reflexivity | rewrite Hred; reflexivity ].
Qed.

(** ** The loop of [main] *)

Lemma in_bootloader_store p s :
  in_bootloader (store_edited_period p s) = in_bootloader s.
Proof. apply store_edited_period_frame. Qed.

Lemma in_bootloader_on_encoder_change now d s :
  in_bootloader (app_on_encoder_change now d s) = in_bootloader s.
Proof.
  unfold app_on_encoder_change. destruct (d =? 0); [reflexivity|].
  destruct (current_app_mode (set_last_encoder_time now s)).
  - unfold app_encoder_show_profile, app_redraw. break_ifs; reflexivity.
  - unfold app_encoder_show_profile, app_redraw. break_ifs; reflexivity.
  - unfold app_encoder_edit_profile, app_redraw. break_ifs; reflexivity.
  - unfold app_encoder_edit_period, app_redraw. break_ifs; reflexivity.
  - unfold app_encoder_edit_white_red_level, app_redraw, app_apply_state.
    destruct (edited_period _); [|reflexivity].
    break_ifs; simpl_fields; try reflexivity;
      exact (in_bootloader_store _ (set_last_encoder_time now s)).
  - unfold app_encoder_edit_blue_level, app_redraw, app_apply_state.
    destruct (edited_period _); [|reflexivity].
    break_ifs; simpl_fields; try reflexivity;
      exact (in_bootloader_store _ (set_last_encoder_time now s)).
  - unfold app_encoder_edit_duration, app_redraw.
    destruct (edited_period _); [|reflexivity].
    break_ifs; simpl_fields; try reflexivity;
      exact (in_bootloader_store _ (set_last_encoder_time now s)).
  - unfold app_encoder_top_menu, app_redraw. cbv zeta.
    break_ifs; reflexivity.
  - unfold app_encoder_time_shift, app_redraw. break_ifs; reflexivity.
Qed.

Lemma main_iteration_reachable i l s :
  reachable s -> reachable (snd (main_iteration i (l, s))).
Proof.
  intros Hr. unfold main_iteration.
  destruct (in_bootloader s) eqn:Hb; [exact Hr|].
  destruct (encoder_poll (enc_count i) l) as [l1 rotation].
  set (s1 := match rotation with
             | Some d => app_on_encoder_change (t_rotate i) d s
             | None => s
             end).
  assert (Hr1 : reachable s1 /\ in_bootloader s1 = false).
  { subst s1. destruct rotation as [d|]; [|auto]. split.
    - replace (app_on_encoder_change (t_rotate i) d s)
        with (step (t_rotate i) (Rotate d) s)
        by (unfold step; rewrite Hb; reflexivity).
      apply reachable_step, Hr.
    - rewrite in_bootloader_on_encoder_change. exact Hb. }
  destruct Hr1 as (Hr1 & Hb1).
  destruct (button_poll (button_pin i) (t_main i) l1) as [l2 click].
  set (s2 := if click then app_on_click (t_click i) s1 else s1).
  assert (Hr2 : reachable s2).
  { subst s2. destruct click; [|exact Hr1].
    replace (app_on_click (t_click i) s1) with (step (t_click i) Click s1)
      by (unfold step; rewrite Hb1; reflexivity).
    apply reachable_step, Hr1. }
  change (reachable (snd (if in_bootloader s2 then (l2, s2)
                          else (l2, app_tick (t_tick i) s2)))).
  replace (snd (if in_bootloader s2 then (l2, s2)
                else (l2, app_tick (t_tick i) s2)))
    with (step (t_tick i) Tick s2)
    by (unfold step; destruct (in_bootloader s2); reflexivity).
  apply reachable_step, Hr2.
Qed.

(** X16: whatever the encoder, the button and the clock read, the state of
    the application after any number of iterations of the loop of [main] is
    a reachable one, so what holds of every reachable state holds in the
    running program. *)
Theorem main_loop_reachable (flash : list byte) (t0 : Z)
    (samples : list sample_t) :
  reachable (snd (main flash t0 samples)).
Proof.
  unfold main. induction samples as [|i samples IH] using rev_ind.
  - apply reachable_init.
  - rewrite fold_left_app. cbn [fold_left].
    destruct (fold_left _ samples _) as [l s]. cbn [snd] in IH.
    apply main_iteration_reachable, IH.
Qed.

(** *** The button *)

Lemma button_poll_click (pin : bool) (now : Z) (l : loop_t) :
  snd (button_poll pin now l) = true ->
  pin = false
  /\ last_button_state l = 0
  /\ last_changed l <> 0
  /\ DEBOUNCE_MS * 1000 < wrap_i64 (now - last_changed l)
  /\ last_changed (fst (button_poll pin now l)) = 0
  /\ last_button_state (fst (button_poll pin now l)) = 0.
Proof.
  unfold button_poll.
  destruct (Z.eqb_spec (Z.b2z pin) (last_button_state l)) as [He|Hne];
    cbn [negb]; [|discriminate].
  destruct (Z.eqb_spec (last_changed l) 0) as [H0|H0]; cbn [negb andb];
    [discriminate|].
  destruct (Z.ltb_spec (DEBOUNCE_MS * 1000) (wrap_i64 (now - last_changed l)));
    [|discriminate].
  cbn [fst snd last_changed last_button_state]. intros Hz.
  apply Z.eqb_eq in Hz. rewrite Hz in He.
  destruct pin; [discriminate|]. repeat split; auto.
Qed.

(** X17: an iteration calls [app_on_click] only when the pin reads low,
    read low before, a change of level is pending and more than 50 ms
    (50000 us, as a signed 64-bit difference) have passed since it; the
    pending change is then cleared. *)
Theorem click_needs_settled_press (pin : bool) (now : Z) (l : loop_t) :
  snd (button_poll pin now l) = true ->
  pin = false
  /\ last_button_state l = 0
  /\ last_changed l <> 0
  /\ DEBOUNCE_MS * 1000 < wrap_i64 (now - last_changed l)
  /\ last_changed (fst (button_poll pin now l)) = 0
  /\ last_button_state (fst (button_poll pin now l)) = 0.
Proof. exact (button_poll_click pin now l). Qed.


(** While the pin keeps one level, the loop calls the click handler at most
    once, and never while the pin is high. *)
Lemma button_polls_settled samples l :
  last_changed l = 0 ->
  Forall (fun x => Z.b2z (fst x) = last_button_state l) samples ->
  button_polls samples l = (l, 0%nat).
Proof.
  intros H0 Hall. induction Hall as [|[pin now] samples Hx _ IH];
    cbn [button_polls]; [reflexivity|].
  cbn [fst] in Hx. unfold button_poll. rewrite Hx, Z.eqb_refl, H0.
  cbn. rewrite IH. reflexivity.
Qed.

Lemma button_polls_level (level : bool) samples :
  Forall (fun x => fst x = level) samples ->
  forall l,
    (snd (button_polls samples l) <= 1)%nat
    /\ (level = true -> snd (button_polls samples l) = 0%nat).
Proof.
  induction 1 as [|[pin now] samples Hx Hall IH]; intros l;
    cbn [button_polls]; [split; auto|].
  cbn [fst] in Hx. subst pin.
  destruct (button_poll level now l) as [l1 click] eqn:Hpoll.
  destruct click.
  - pose proof (button_poll_click level now l) as Hc.
    rewrite Hpoll in Hc. cbn [fst snd] in Hc.
    destruct (Hc eq_refl) as (Hlow & _ & _ & _ & Hch & Hbs).
    rewrite (button_polls_settled samples l1 Hch).
    + cbn. split; [lia | intros ->; discriminate].
    + eapply Forall_impl; [exact Hall|].
      intros x ->. rewrite Hbs, Hlow. reflexivity.
  - specialize (IH l1). destruct (button_polls samples l1) as [l2 n].
    cbn [snd] in *. exact IH.
Qed.

(** X18: while the pin stays low the loop calls [app_on_click] at most
    once, however long the press lasts and whatever the clock reads; while
    it stays high, never. *)
Theorem one_click_per_press (samples : list (bool * Z)) (l : loop_t) :
  (Forall (fun x => fst x = false) samples ->
   (snd (button_polls samples l) <= 1)%nat)
  /\ (Forall (fun x => fst x = true) samples ->
      snd (button_polls samples l) = 0%nat).
Proof.
  split; intros Hall.
  - apply (button_polls_level false samples Hall l).
  - apply (button_polls_level true samples Hall l). reflexivity.
Qed.

(** *** The encoder *)

(** X19: each iteration remembers the count divided by 4 (towards zero);
    once [old_value] and [last_value] agree, what the iteration does to the
    application is [app_on_encoder_change] with the negated difference to
    the previous iteration (nothing for a difference of 0); in the first
    iteration the handler is called unless the count divided by 4 is -1. *)
Theorem encoder_delivery (count : Z) (l : loop_t) :
  let delta := wrap_int (Z.quot count 4 - old_value l) in
  let l' := fst (encoder_poll count l) in
  old_value l' = Z.quot count 4
  /\ last_value l' = Z.quot count 4
  /\ (old_value l = last_value l ->
      forall (now : Z) (s : app_t),
        match snd (encoder_poll count l) with
        | Some d => app_on_encoder_change now d s
        | None => s
        end
        = app_on_encoder_change now (wrap_int (- delta)) s)
  /\ (l = loop_start ->
      (snd (encoder_poll count l) = None <-> Z.quot count 4 = -1)).
Proof.
  cbv zeta. unfold encoder_poll.
  destruct (Z.eqb_spec (Z.quot count 4) (last_value l)) as [He|Hne];
    destruct (Z.eqb_spec (wrap_int (Z.quot count 4 - old_value l))
                         (last_delta l)) as [Hd|Hd];
    cbn [negb orb fst snd old_value last_value];
    refine (conj eq_refl (conj _ (conj _ _))); auto.
  - intros Hold now s. rewrite <- Hold in He. rewrite He, Z.sub_diag.
    reflexivity.
  - intros ->. cbn in He. split; auto.
  - intros ->. cbn in *. split; [discriminate|]. intros H1.
    exfalso. apply Hd. rewrite H1. reflexivity.
  - intros ->. cbn in *. split; [discriminate|]. intros H1. contradiction.
  - intros ->. cbn in *. split; [discriminate|]. intros H1. contradiction.
Qed.

(** ** The selection mark *)

Lemma marks_edit_profile s profile :
  zlookup (profiles s) (menu_profile_index s) = Some profile ->
  length (periods profile) = 6%nat ->
  -1 <= current_edit_period_index s <= 5 ->
  marks (app_draw_edit_profile s)
  = [(if current_edit_period_index s <? 0 then 0
      else 16 + 16 * (current_edit_period_index s
                      - Z.max 0 (current_edit_period_index s - 2)),
      false)].
Proof.
  intros Hp Hlen Hidx. unfold app_draw_edit_profile, edit_profile_row, period_at.
  rewrite Hp.
  destruct (periods profile) as [|q0 [|q1 [|q2 [|q3 [|q4 [|q5 [|]]]]]]];
    try discriminate.
  assert (Hcases : current_edit_period_index s = -1
                   \/ current_edit_period_index s = 0
                   \/ current_edit_period_index s = 1
                   \/ current_edit_period_index s = 2
                   \/ current_edit_period_index s = 3
                   \/ current_edit_period_index s = 4
                   \/ current_edit_period_index s = 5) by lia.
  destruct Hcases as [H|[H|[H|[H|[H|[H|H]]]]]]; rewrite H; reflexivity.
Qed.

Lemma marks_edit_period s period :
  edited_period s = Some period ->
  edits_a_period (current_app_mode s) = true ->
  nav_consistent s ->
  marks (app_draw_edit_period s)
  = [(16 * current_edit_value s, edits_a_value (current_app_mode s))].
Proof.
  intros Hq Hmode (_ & _ & Hv & _ & _ & Hd & Hw & Hb).
  unfold app_draw_edit_period, field_mark. rewrite Hq.
  unfold EDIT_FIRST, EDIT_LAST, EDIT_BACK, EDIT_DURATION, EDIT_WR_LEVEL,
    EDIT_BL_LEVEL in *.
  assert (Hcases : current_edit_value s = 0 \/ current_edit_value s = 1
                   \/ current_edit_value s = 2 \/ current_edit_value s = 3)
    by lia.
  destruct (current_app_mode s); try discriminate;
    destruct Hcases as [H|[H|[H|H]]]; rewrite H in *;
    try reflexivity;
    first [ specialize (Hd eq_refl) | specialize (Hw eq_refl)
          | specialize (Hb eq_refl) ]; discriminate.
Qed.

Lemma marks_top_menu s :
  TOP_MENU_FIRST <= current_top_menu_action s <= TOP_MENU_LAST ->
  marks (app_draw_top_menu s) = [(16 * current_top_menu_action s, false)].
Proof.
  unfold TOP_MENU_FIRST, TOP_MENU_LAST, TOP_MENU_FLASH. intros Ha.
  unfold app_draw_top_menu, menu_mark, TOP_MENU_SHIFT, TOP_MENU_FIRST,
    TOP_MENU_SAVE, TOP_MENU_RELOAD, TOP_MENU_FLASH.
  assert (Hcases : current_top_menu_action s = 0
                   \/ current_top_menu_action s = 1
                   \/ current_top_menu_action s = 2
                   \/ current_top_menu_action s = 3) by lia.
  destruct Hcases as [H|[H|[H|H]]]; rewrite H; reflexivity.
Qed.

Lemma marks_no_literal cmds :
  Forall (fun c => match c with
                   | Ssd1306_draw_string _ _ _ (Literal _) => False
                   | _ => True
                   end) cmds ->
  marks cmds = [].
Proof.
  induction 1 as [|c cmds Hc _ IH]; [reflexivity|].
  destruct c as [|x y sc [m|b|f a]| |]; cbn [marks]; try contradiction;
    repeat match goal with
           | |- context [match ?v with _ => _ end] => destruct v
           end;
    exact IH.
Qed.

(** X20: in every reachable state the screen [app_redraw] paints has no
    selection mark on the state display, the profile preview and the time
    shift screen, and exactly one elsewhere: a [>] in the period list, at row
    0 exactly for BACK and never below row 3 (y = 48 of the 64 lines); a [>]
    at the row of the selected action in the top menu; on the period screen
    one mark at the row of the selected field, [=] in the three value
    editors and [>] otherwise. *)
Theorem one_mark_on_screen (s : app_t) :
  reachable s ->
  match current_app_mode s with
  | MODE_SHOW_STATE | MODE_SHOW_PROFILE | MODE_TIME_SHIFT =>
      marks (screen s) = []
  | MODE_EDIT_PROFILE =>
      exists row : Z,
        0 <= row <= 3
        /\ (current_edit_period_index s = -1 <-> row = 0)
        /\ marks (screen s) = [(16 * row, false)]
  | MODE_TOP_MENU =>
      marks (screen s) = [(16 * current_top_menu_action s, false)]
      /\ 0 <= current_top_menu_action s <= 3
  | _ =>
      marks (screen s)
      = [(16 * current_edit_value s, edits_a_value (current_app_mode s))]
      /\ 0 <= current_edit_value s <= 3
  end.
Proof.
  intros Hr.
  pose proof (reachable_nav_invariant s Hr) as Hnav.
  pose proof (reachable_nav_consistent s Hr) as Hui.
  pose proof Hnav as ((Hidx & Hedit) & Hcur & Hmenu & Hlen & Hall).
  pose proof Hui as (_ & _ & Hv & Ha & _).
  unfold screen. destruct (current_app_mode s) eqn:Hm.
  - unfold app_draw_current_state. destruct (zlookup _ _); [|reflexivity].
    apply marks_no_literal. destruct (pump _); repeat constructor.
  - unfold app_draw_profile. destruct (zlookup _ _) as [profile|]; [|reflexivity].
    apply marks_no_literal. apply Forall_app. split; [repeat constructor|].
    apply Forall_app. split; [|repeat constructor].
    apply Forall_concat, Forall_map, Forall_forall. intros i _.
    destruct (periods profile !! i); repeat constructor.
  - destruct (zlookup_Some (profiles s) (menu_profile_index s)) as [profile Hp];
      [unfold MAX_PROFILES in *; lia|].
    assert (Hl : length (periods profile) = 6%nat).
    { rewrite Forall_forall in Hall. apply Hall. eapply zlookup_elem, Hp. }
    rewrite (marks_edit_profile s profile Hp Hl Hidx).
    destruct (Z.ltb_spec (current_edit_period_index s) 0).
    + exists 0. refine (conj _ (conj _ eq_refl)); lia.
    + exists (1 + (current_edit_period_index s
                   - Z.max 0 (current_edit_period_index s - 2))).
      refine (conj _ (conj _ _)); [lia | lia | do 2 f_equal; lia].
  - destruct (edited_period_in_bounds s Hnav) as [period Hq];
      [specialize (Hedit eq_refl); lia|].
    assert (Hmode : edits_a_period (current_app_mode s) = true)
      by (rewrite Hm; reflexivity).
    rewrite (marks_edit_period s period Hq Hmode Hui), Hm.
    unfold EDIT_FIRST, EDIT_LAST, EDIT_BL_LEVEL in Hv. auto.
  - destruct (edited_period_in_bounds s Hnav) as [period Hq];
      [specialize (Hedit eq_refl); lia|].
    assert (Hmode : edits_a_period (current_app_mode s) = true)
      by (rewrite Hm; reflexivity).
    rewrite (marks_edit_period s period Hq Hmode Hui), Hm.
    unfold EDIT_FIRST, EDIT_LAST, EDIT_BL_LEVEL in Hv. auto.
  - destruct (edited_period_in_bounds s Hnav) as [period Hq];
      [specialize (Hedit eq_refl); lia|].
    assert (Hmode : edits_a_period (current_app_mode s) = true)
      by (rewrite Hm; reflexivity).
    rewrite (marks_edit_period s period Hq Hmode Hui), Hm.
    unfold EDIT_FIRST, EDIT_LAST, EDIT_BL_LEVEL in Hv. auto.
  - destruct (edited_period_in_bounds s Hnav) as [period Hq];
      [specialize (Hedit eq_refl); lia|].
    assert (Hmode : edits_a_period (current_app_mode s) = true)
      by (rewrite Hm; reflexivity).
    rewrite (marks_edit_period s period Hq Hmode Hui), Hm.
    unfold EDIT_FIRST, EDIT_LAST, EDIT_BL_LEVEL in Hv. auto.
  - rewrite (marks_top_menu s Ha).
    unfold TOP_MENU_FIRST, TOP_MENU_LAST, TOP_MENU_FLASH in Ha. auto.
  - reflexivity.
Qed.

(** ** Loading does not check ranges *)

(** X21: a load from the sector a save left, into whatever the memory holds
    by then, brings in the saved profiles as they were saved, for any five
    profiles of sixteen name bytes and six periods whose fields fit [int],
    whatever their values: the load checks no duration and no power against
    its range; only an active index outside 0..4 comes in as 0. *)
Theorem round_trip_of_any_ints (with_ui : bool) (s s' : app_t) :
  length (profiles s) = 5%nat ->
  Forall representable (profiles s) ->
  in_int (current_profile s) ->
  flash_sector s' = flash_sector (app_save_profiles s) ->
  profiles (app_reload_profiles with_ui s') = profiles s
  /\ current_profile (app_reload_profiles with_ui s')
     = (if (current_profile s <? 0) || (MAX_PROFILES <=? current_profile s)
        then 0 else current_profile s).
Proof.
  intros Hl Hrep Hcur Hsector.
  destruct (saved_sector s Hl Hrep) as [tail Hs].
  rewrite <- Hsector in Hs.
  exact (reload_image with_ui s' (current_profile s) (profiles s) tail
           Hs Hl Hrep Hcur).
Qed.

(** ** Instances *)

Lemma change_flag_exact_witness :
  in_int (pump_minutes_left (current_app_state scenario_state))
  /\ (snd (app_calculate_state 30000000000 scenario_state) = false
      <-> fst (app_calculate_state 30000000000 scenario_state)
          = scenario_state).
Proof.
  assert (H1 : in_int (pump_minutes_left (current_app_state scenario_state)))
    by (cbn; unfold in_int; lia).
  exact (conj H1 (change_flag_exact 30000000000 scenario_state H1)).
Defined.

Lemma schedule_periods_witness :
  0 <= 100 /\ 0 <= 2
  /\ calculate_state (100 + 2 * profile_total_minutes scenario_profile)
       (3 + 35 * 4) scenario_profile (mkAppState 0 (-1) (-1) false 0 0)
     = calculate_state 100 3 scenario_profile
         (mkAppState 0 (-1) (-1) false 0 0).
Proof.
  assert (H1 : 0 <= 100) by lia.
  assert (H2 : 0 <= 2) by lia.
  exact (conj H1 (conj H2
           (schedule_periods 100 3 2 4 scenario_profile
              (mkAppState 0 (-1) (-1) false 0 0) H1 H2))).
Defined.

Lemma outputs_in_range_witness :
  zlookup (profiles scenario_state) (current_profile scenario_state)
  = Some scenario_profile
  /\ valid_profile scenario_profile
  /\ 0 < profile_total_minutes scenario_profile
  /\ in_int (period_minutes_left (current_app_state scenario_state))
  /\ (let s' := app_apply_state
                  (fst (app_calculate_state 30000000000 scenario_state)) in
      let st' := current_app_state s' in
      0 <= period_index st' <= 5
      /\ 0 <= white_red st' <= 100
      /\ 0 <= blue st' <= 100
      /\ 1 <= period_minutes_left st' <= 1440
      /\ 1 <= pump_minutes_left st' <= 30
      /\ gpio_pump s' = pump st'
      /\ pwm_white_red s' = 250 * white_red st'
      /\ pwm_blue s' = 250 * blue st'
      /\ 0 <= pwm_white_red s' <= PWM_WRAP
      /\ 0 <= pwm_blue s' <= PWM_WRAP).
Proof.
  assert (H1 : zlookup (profiles scenario_state) (current_profile scenario_state)
               = Some scenario_profile) by reflexivity.
  assert (H2 : 0 < profile_total_minutes scenario_profile) by reflexivity.
  assert (H3 : in_int (period_minutes_left (current_app_state scenario_state)))
    by (cbn; unfold in_int; lia).
  exact (conj H1 (conj valid_scenario_profile (conj H2 (conj H3
           (outputs_in_range 30000000000 scenario_state scenario_profile
              H1 valid_scenario_profile H2 H3))))).
Defined.

Lemma edit_duration_effect_witness :
  edited_period editing_duration = Some (mkPeriod 900 100 100)
  /\ (let s' := app_encoder_edit_duration (-1) editing_duration in
      exists d : Z,
        edited_period s'
        = Some (mkPeriod d (led_white_red_power (mkPeriod 900 100 100))
                         (led_blue_power (mkPeriod 900 100 100)))
        /\ 0 <= d <= 1440
        /\ (in_int (-1 * 60) ->
            in_int (duration (mkPeriod 900 100 100) + -1 * 60) ->
            d = Z.max 0 (Z.min 1440
                           (duration (mkPeriod 900 100 100) + -1 * 60)))
        /\ redraws s'
           = (if d =? duration (mkPeriod 900 100 100)
              then redraws editing_duration
              else S (redraws editing_duration))
        /\ (forall i j : Z,
              i <> current_profile editing_duration
              \/ j <> current_edit_period_index editing_duration ->
              period_at (profiles s') i j
              = period_at (profiles editing_duration) i j)
        /\ map name (profiles s') = map name (profiles editing_duration)
        /\ current_app_state s' = current_app_state editing_duration).
Proof.
  assert (H1 : edited_period editing_duration = Some (mkPeriod 900 100 100))
    by (vm_compute; reflexivity).
  exact (conj H1 (edit_duration_effect (-1) editing_duration
                    (mkPeriod 900 100 100) H1)).
Defined.

Lemma edit_white_red_level_effect_witness :
  edited_period editing_duration = Some (mkPeriod 900 100 100)
  /\ (let s' := app_encoder_edit_white_red_level (-3) editing_duration in
      exists w : Z,
        edited_period s'
        = Some (mkPeriod (duration (mkPeriod 900 100 100)) w
                         (led_blue_power (mkPeriod 900 100 100)))
        /\ 0 <= w <= 100
        /\ (in_int (-3 * 5) ->
            in_int (led_white_red_power (mkPeriod 900 100 100) + -3 * 5) ->
            w = Z.max 0 (Z.min 100
                           (led_white_red_power (mkPeriod 900 100 100)
                            + -3 * 5)))
        /\ redraws s'
           = (if w =? led_white_red_power (mkPeriod 900 100 100)
              then redraws editing_duration
              else S (redraws editing_duration))
        /\ white_red (current_app_state s') = w
        /\ pwm_white_red s' = 250 * w
        /\ blue (current_app_state s')
           = blue (current_app_state editing_duration)
        /\ pump (current_app_state s')
           = pump (current_app_state editing_duration)
        /\ (forall i j : Z,
              i <> current_profile editing_duration
              \/ j <> current_edit_period_index editing_duration ->
              period_at (profiles s') i j
              = period_at (profiles editing_duration) i j)).
Proof.
  assert (H1 : edited_period editing_duration = Some (mkPeriod 900 100 100))
    by (vm_compute; reflexivity).
  exact (conj H1 (edit_white_red_level_effect (-3) editing_duration
                    (mkPeriod 900 100 100) H1)).
Defined.

Lemma edit_blue_level_effect_witness :
  edited_period editing_duration = Some (mkPeriod 900 100 100)
  /\ (let s' := app_encoder_edit_blue_level 2 editing_duration in
      exists w : Z,
        edited_period s'
        = Some (mkPeriod (duration (mkPeriod 900 100 100))
                         (led_white_red_power (mkPeriod 900 100 100)) w)
        /\ 0 <= w <= 100
        /\ (in_int (2 * 5) ->
            in_int (led_blue_power (mkPeriod 900 100 100) + 2 * 5) ->
            w = Z.max 0 (Z.min 100
                           (led_blue_power (mkPeriod 900 100 100) + 2 * 5)))
        /\ redraws s'
           = (if w =? led_blue_power (mkPeriod 900 100 100)
              then redraws editing_duration
              else S (redraws editing_duration))
        /\ blue (current_app_state s') = w
        /\ pwm_blue s' = 250 * w
        /\ white_red (current_app_state s')
           = white_red (current_app_state editing_duration)
        /\ pump (current_app_state s')
           = pump (current_app_state editing_duration)
        /\ (forall i j : Z,
              i <> current_profile editing_duration
              \/ j <> current_edit_period_index editing_duration ->
              period_at (profiles s') i j
              = period_at (profiles editing_duration) i j)).
Proof.
  assert (H1 : edited_period editing_duration = Some (mkPeriod 900 100 100))
    by (vm_compute; reflexivity).
  exact (conj H1 (edit_blue_level_effect 2 editing_duration
                    (mkPeriod 900 100 100) H1)).
Defined.

Lemma profiles_stay_valid_witness :
  flash_good erased_flash
  /\ (let s := run [(1000000, Click); (2000000, Rotate 1); (3000000, Click);
                    (4000000, Rotate 1); (4500000, Click);
                    (5000000, Rotate 1)]
                   (app_init 0 (power_on erased_flash)) in
      valid_profile_set (profiles s) (current_profile s)
      /\ flash_good (flash_sector s)).
Proof.
  assert (H1 : flash_good erased_flash) by (left; reflexivity).
  exact (conj H1
           (profiles_stay_valid erased_flash 0
              [(1000000, Click); (2000000, Rotate 1); (3000000, Click);
               (4000000, Rotate 1); (4500000, Click); (5000000, Rotate 1)]
              H1)).
Defined.

Lemma start_up_pushes_outputs_witness :
  flash_good erased_flash
  /\ (let s := app_init 0 (power_on erased_flash) in
      let st := current_app_state s in
      current_app_mode s = MODE_SHOW_STATE
      /\ menu_profile_index s = current_profile s
      /\ redraws s = 1%nat
      /\ 0 <= white_red st <= 100
      /\ 0 <= blue st <= 100
      /\ gpio_pump s = pump st
      /\ pwm_white_red s = 250 * white_red st
      /\ pwm_blue s = 250 * blue st).
Proof.
  assert (H1 : flash_good erased_flash) by (left; reflexivity).
  exact (conj H1 (start_up_pushes_outputs erased_flash 0 H1)).
Defined.

Lemma click_needs_settled_press_witness :
  snd (button_poll false 60000 button_pressed) = true
  /\ false = false
  /\ last_button_state button_pressed = 0
  /\ last_changed button_pressed <> 0
  /\ DEBOUNCE_MS * 1000 < wrap_i64 (60000 - last_changed button_pressed)
  /\ last_changed (fst (button_poll false 60000 button_pressed)) = 0
  /\ last_button_state (fst (button_poll false 60000 button_pressed)) = 0.
Proof.
  assert (H1 : snd (button_poll false 60000 button_pressed) = true)
    by reflexivity.
  exact (conj H1 (click_needs_settled_press false 60000 button_pressed H1)).
Defined.

Lemma one_mark_on_screen_witness :
  reachable editing_duration
  /\ marks (screen editing_duration)
     = [(16 * current_edit_value editing_duration, true)]
  /\ 0 <= current_edit_value editing_duration <= 3.
Proof.
  assert (H1 : reachable editing_duration)
    by (apply reachable_run, reachable_init).
  assert (Hm : current_app_mode editing_duration = MODE_EDIT_DURATION)
    by (vm_compute; reflexivity).
  pose proof (one_mark_on_screen editing_duration H1) as H2.
  rewrite Hm in H2.
  exact (conj H1 H2).
Defined.

(** After the power cycle the memory holds the factory profiles, all in
    range; the load replaces them by the saved ones, whose first period has
    the duration -5 and the powers 250 and -1. *)
Lemma round_trip_of_any_ints_witness :
  length (profiles out_of_range_state) = 5%nat
  /\ Forall representable (profiles out_of_range_state)
  /\ in_int (current_profile out_of_range_state)
  /\ flash_sector out_of_range_power_cycled
     = flash_sector (app_save_profiles out_of_range_state)
  /\ profiles out_of_range_power_cycled = factory_profiles
  /\ period_at (profiles out_of_range_state) 0 0
     = Some (mkPeriod (-5) 250 (-1))
  /\ profiles (app_reload_profiles true out_of_range_power_cycled)
     = profiles out_of_range_state
  /\ current_profile (app_reload_profiles true out_of_range_power_cycled)
     = (if (current_profile out_of_range_state <? 0)
           || (MAX_PROFILES <=? current_profile out_of_range_state)
        then 0 else current_profile out_of_range_state).
Proof.
  assert (H1 : length (profiles out_of_range_state) = 5%nat) by reflexivity.
  assert (H2 : Forall representable (profiles out_of_range_state)).
  { repeat constructor; cbn; unfold in_int; lia. }
  assert (H3 : in_int (current_profile out_of_range_state))
    by (cbn; unfold in_int; lia).
  assert (H4 : flash_sector out_of_range_power_cycled
               = flash_sector (app_save_profiles out_of_range_state))
    by (vm_compute; reflexivity).
  assert (H5 : profiles out_of_range_power_cycled = factory_profiles)
    by reflexivity.
  assert (H6 : period_at (profiles out_of_range_state) 0 0
               = Some (mkPeriod (-5) 250 (-1))) by reflexivity.
  exact (conj H1 (conj H2 (conj H3 (conj H4 (conj H5 (conj H6
           (round_trip_of_any_ints true out_of_range_state
              out_of_range_power_cycled H1 H2 H3 H4))))))).
Defined.

(** ** What is written, and when *)

(** The three stores a user owns: the profiles, the active index and the
    flash sector. *)
Lemma stores_store p s :
  current_profile (store_edited_period p s) = current_profile s
  /\ flash_sector (store_edited_period p s) = flash_sector s.
Proof. unfold store_edited_period. destruct (zlookup _ _); auto. Qed.

Lemma stores_calculate now s :
  profiles (fst (app_calculate_state now s)) = profiles s
  /\ current_profile (fst (app_calculate_state now s)) = current_profile s
  /\ flash_sector (fst (app_calculate_state now s)) = flash_sector s.
Proof.
  destruct (app_calculate_state_sets now s) as [st ->]. auto.
Qed.

Lemma stores_tick now s :
  profiles (app_tick now s) = profiles s
  /\ current_profile (app_tick now s) = current_profile s
  /\ flash_sector (app_tick now s) = flash_sector s.
Proof.
  unfold app_tick.
  match goal with |- context [if ?c then ?a else s] =>
    assert (Hs1 : profiles (if c then a else s) = profiles s
                  /\ current_profile (if c then a else s) = current_profile s
                  /\ flash_sector (if c then a else s) = flash_sector s)
      by (destruct c; auto);
    generalize dependent (if c then a else s)
  end.
  intros s1 (Hp & Hc & Hf).
  destruct (app_mode_eqb (current_app_mode s1) MODE_SHOW_STATE); [|auto].
  pose proof (stores_calculate now s1) as (Hp' & Hc' & Hf').
  destruct (app_calculate_state now s1) as [s2 changed]. cbn [fst] in *.
  rewrite <- Hp, <- Hc, <- Hf, <- Hp', <- Hc', <- Hf'.
  destruct changed; auto.
Qed.

Lemma stores_on_encoder_change now d s :
  (profiles (app_on_encoder_change now d s) = profiles s
   \/ edits_a_value (current_app_mode s) = true)
  /\ current_profile (app_on_encoder_change now d s) = current_profile s
  /\ flash_sector (app_on_encoder_change now d s) = flash_sector s.
Proof.
  unfold app_on_encoder_change. destruct (d =? 0); [auto|].
  change (current_app_mode (set_last_encoder_time now s))
    with (current_app_mode s).
  destruct (current_app_mode s); cbn [edits_a_value];
    first
      [ refine (conj (or_intror eq_refl) _);
        unfold app_encoder_edit_blue_level, app_encoder_edit_white_red_level,
          app_encoder_edit_duration, app_apply_state, app_redraw;
        destruct (edited_period _); [|split; reflexivity];
        cbv zeta; break_ifs; simpl_fields;
        first [ split; reflexivity
              | exact (stores_store _ (set_last_encoder_time now s)) ]
      | refine (conj (or_introl _) (conj _ _));
        unfold app_encoder_show_profile, app_encoder_edit_profile,
          app_encoder_edit_period, app_encoder_top_menu,
          app_encoder_time_shift, app_redraw;
        break_ifs; reflexivity ].
Qed.

Lemma stores_save s :
  profiles (app_save_profiles s) = profiles s
  /\ current_profile (app_save_profiles s) = current_profile s.
Proof. split; reflexivity. Qed.

Lemma flash_sector_reload with_ui s :
  flash_sector (app_reload_profiles with_ui s) = flash_sector s.
Proof. unfold app_reload_profiles, app_redraw. break_ifs; reflexivity. Qed.

Ltac stores_after_calculate :=
  match goal with |- context [app_calculate_state ?now ?x] =>
    let Hp := fresh in let Hc := fresh in let Hf := fresh in
    pose proof (stores_calculate now x) as (Hp & Hc & Hf);
    first [rewrite Hp | rewrite Hc | rewrite Hf]; reflexivity
  end.

Lemma stores_on_click now s :
  (profiles (app_on_click now s) = profiles s
   \/ current_app_mode s = MODE_TOP_MENU
      /\ current_top_menu_action s = TOP_MENU_RELOAD)
  /\ (current_profile (app_on_click now s) = current_profile s
      \/ current_app_mode s = MODE_SHOW_PROFILE
      \/ current_app_mode s = MODE_TOP_MENU
         /\ current_top_menu_action s = TOP_MENU_RELOAD)
  /\ (flash_sector (app_on_click now s) = flash_sector s
      \/ current_app_mode s = MODE_TOP_MENU
         /\ current_top_menu_action s = TOP_MENU_SAVE).
Proof.
  unfold app_on_click. cbv zeta.
  change (current_app_mode (set_last_encoder_time now s))
    with (current_app_mode s).
  match goal with |- context [if in_bootloader ?b then _ else _] =>
    assert (Hout : forall f : app_t -> list profile_t, True) by auto;
    replace (profiles (if in_bootloader b then b else app_redraw b))
      with (profiles b) by (destruct (in_bootloader b); reflexivity);
    replace (current_profile (if in_bootloader b then b else app_redraw b))
      with (current_profile b) by (destruct (in_bootloader b); reflexivity);
    replace (flash_sector (if in_bootloader b then b else app_redraw b))
      with (flash_sector b) by (destruct (in_bootloader b); reflexivity)
  end.
  clear Hout.
  destruct (current_app_mode s) eqn:Hm.
  - refine (conj (or_introl eq_refl) (conj (or_introl eq_refl)
                                           (or_introl eq_refl))).
  - refine (conj (or_introl _) (conj (or_intror (or_introl eq_refl))
                                     (or_introl _)));
      (destruct (negb _); [|reflexivity]);
      unfold app_apply_state; simpl_fields.
    all: stores_after_calculate.
  - refine (conj (or_introl _) (conj (or_introl _) (or_introl _)));
      (destruct (_ =? _); [reflexivity|]);
      destruct (edited_period _); reflexivity.
  - refine (conj (or_introl _) (conj (or_introl _) (or_introl _)));
      break_ifs; reflexivity.
  - refine (conj (or_introl eq_refl) (conj (or_introl eq_refl)
                                           (or_introl eq_refl))).
  - refine (conj (or_introl eq_refl) (conj (or_introl eq_refl)
                                           (or_introl eq_refl))).
  - refine (conj (or_introl eq_refl) (conj (or_introl eq_refl)
                                           (or_introl eq_refl))).
  - change (current_top_menu_action (set_last_encoder_time now s))
      with (current_top_menu_action s).
    destruct (Z.eqb_spec (current_top_menu_action s) TOP_MENU_SAVE) as [Hs|_].
    { refine (conj (or_introl eq_refl) (conj (or_introl eq_refl)
                                             (or_intror (conj eq_refl Hs)))). }
    destruct (Z.eqb_spec (current_top_menu_action s) TOP_MENU_RELOAD) as [Hr|_].
    { refine (conj (or_intror (conj eq_refl Hr))
                (conj (or_intror (or_intror (conj eq_refl Hr)))
                      (or_introl _))).
      exact (flash_sector_reload true (set_last_encoder_time now s)). }
    refine (conj (or_introl _) (conj (or_introl _) (or_introl _)));
      break_ifs; reflexivity.
  - refine (conj (or_introl _) (conj (or_introl _) (or_introl _)));
      (destruct (negb _); [|reflexivity]); simpl_fields.
    all: stores_after_calculate.
Qed.

Lemma stores_step now e s :
  (profiles (step now e s) = profiles s
   \/ (exists d, e = Rotate d) /\ edits_a_value (current_app_mode s) = true
   \/ e = Click /\ current_app_mode s = MODE_TOP_MENU
      /\ current_top_menu_action s = TOP_MENU_RELOAD)
  /\ (current_profile (step now e s) = current_profile s
      \/ e = Click
         /\ (current_app_mode s = MODE_SHOW_PROFILE
             \/ current_app_mode s = MODE_TOP_MENU
                /\ current_top_menu_action s = TOP_MENU_RELOAD))
  /\ (flash_sector (step now e s) = flash_sector s
      \/ e = Click /\ current_app_mode s = MODE_TOP_MENU
         /\ current_top_menu_action s = TOP_MENU_SAVE).
Proof.
  unfold step. destruct (in_bootloader s); [auto|]. destruct e as [d| |].
  - destruct (stores_on_encoder_change now d s) as (Hp & Hc & Hf).
    refine (conj _ (conj (or_introl Hc) (or_introl Hf))).
    destruct Hp as [Hp|He]; [left; exact Hp|].
    right; left. exact (conj (ex_intro _ d eq_refl) He).
  - destruct (stores_on_click now s) as (Hp & Hc & Hf).
    refine (conj _ (conj _ _)); [destruct Hp | destruct Hc | destruct Hf];
      auto.
  - destruct (stores_tick now s) as (Hp & Hc & Hf). auto.
Qed.

(** X22: an event changes the flash sector only if it is a click in the top
    menu with SAVE selected (and the bootloader has not taken over): no
    rotation, no tick and no other click writes the flash. *)
Theorem flash_written_only_by_save (now : Z) (e : event) (s : app_t) :
  flash_sector (step now e s) <> flash_sector s ->
  e = Click /\ current_app_mode s = MODE_TOP_MENU
  /\ current_top_menu_action s = TOP_MENU_SAVE
  /\ in_bootloader s = false.
Proof.
  intros Hne. destruct (stores_step now e s) as (_ & _ & [Hf|(He & Hm & Ha)]);
    [contradiction|].
  refine (conj He (conj Hm (conj Ha _))).
  destruct (in_bootloader s) eqn:Hb; [|reflexivity].
  exfalso. apply Hne. unfold step. rewrite Hb. reflexivity.
Qed.

(** X23: an event changes the profiles in memory only if it is a rotation
    in one of the three value editors, or a click in the top menu with
    RELOAD selected. *)
Theorem profiles_changed_only_on_request (now : Z) (e : event) (s : app_t) :
  profiles (step now e s) <> profiles s ->
  (exists d : Z, e = Rotate d) /\ edits_a_value (current_app_mode s) = true
  \/ e = Click /\ current_app_mode s = MODE_TOP_MENU
     /\ current_top_menu_action s = TOP_MENU_RELOAD.
Proof.
  intros Hne. destruct (stores_step now e s) as ([Hp|H] & _); tauto.
Qed.

(** X24: an event changes the active index only if it is a click, either
    on a previewed profile, which then becomes the active one, or in the top
    menu with RELOAD selected. *)
Theorem active_profile_changed_only_by_click (now : Z) (e : event) (s : app_t) :
  current_profile (step now e s) <> current_profile s ->
  e = Click
  /\ (current_app_mode s = MODE_SHOW_PROFILE
      /\ current_profile (step now e s) = menu_profile_index s
      \/ current_app_mode s = MODE_TOP_MENU
         /\ current_top_menu_action s = TOP_MENU_RELOAD).
Proof.
  intros Hne. destruct (stores_step now e s) as (_ & [Hc|(He & Hm)] & _);
    [contradiction|].
  refine (conj He _). destruct Hm as [Hm|Hm]; [left | right; exact Hm].
  refine (conj Hm _). subst e. revert Hne. unfold step.
  destruct (in_bootloader s); [intros Hne; contradiction|].
  unfold app_on_click. cbv zeta.
  change (current_app_mode (set_last_encoder_time now s))
    with (current_app_mode s). rewrite Hm.
  match goal with |- context [if in_bootloader ?b then _ else _] =>
    replace (current_profile (if in_bootloader b then b else app_redraw b))
      with (current_profile b) by (destruct (in_bootloader b); reflexivity)
  end.
  destruct (negb _); [|intros Hne; contradiction].
  intros _. unfold app_apply_state. simpl_fields.
  stores_after_calculate.
Qed.

Lemma flash_written_only_by_save_witness :
  flash_sector (step 3000000 Click save_selected) <> flash_sector save_selected
  /\ Click = Click
  /\ current_app_mode save_selected = MODE_TOP_MENU
  /\ current_top_menu_action save_selected = TOP_MENU_SAVE
  /\ in_bootloader save_selected = false.
Proof.
  assert (H1 : flash_sector (step 3000000 Click save_selected)
               <> flash_sector save_selected).
  { intros H. apply (f_equal (fun l => l !! 0%nat)) in H.
    vm_compute in H. discriminate H. }
  exact (conj H1 (flash_written_only_by_save 3000000 Click save_selected H1)).
Defined.

Lemma profiles_changed_only_on_request_witness :
  profiles (step 6000000 (Rotate (-1)) editing_duration)
  <> profiles editing_duration
  /\ ((exists d : Z, Rotate (-1) = Rotate d)
      /\ edits_a_value (current_app_mode editing_duration) = true
      \/ Rotate (-1) = Click
         /\ current_app_mode editing_duration = MODE_TOP_MENU
         /\ current_top_menu_action editing_duration = TOP_MENU_RELOAD).
Proof.
  assert (H1 : profiles (step 6000000 (Rotate (-1)) editing_duration)
               <> profiles editing_duration).
  { intros H. apply (f_equal (fun ps => period_at ps 0 0)) in H.
    vm_compute in H. discriminate H. }
  exact (conj H1 (profiles_changed_only_on_request 6000000 (Rotate (-1))
                    editing_duration H1)).
Defined.

Lemma active_profile_changed_only_by_click_witness :
  current_profile (step 2000000 Click previewing_custom1)
  <> current_profile previewing_custom1
  /\ Click = Click
  /\ (current_app_mode previewing_custom1 = MODE_SHOW_PROFILE
      /\ current_profile (step 2000000 Click previewing_custom1)
         = menu_profile_index previewing_custom1
      \/ current_app_mode previewing_custom1 = MODE_TOP_MENU
         /\ current_top_menu_action previewing_custom1 = TOP_MENU_RELOAD).
Proof.
  assert (H1 : current_profile (step 2000000 Click previewing_custom1)
               <> current_profile previewing_custom1)
    by (vm_compute; discriminate).
  exact (conj H1 (active_profile_changed_only_by_click 2000000 Click
                    previewing_custom1 H1)).
Defined.
